(** * The shard history engine of cadence: start, terminate-and-start,
      activity handlers, long poll, query routing, domain failover

    A shallow embedding of the request-handling core of
    [historyEngineImpl] and of [common.CreateHistoryStartWorkflowRequest].
    Pure helpers are Rocq functions.  Handlers that talk to collaborators
    (execution cache, persistence, shard, queue processors) are functions of
    an explicit environment holding what each collaborator answers, and
    they return, next to their result, the ordered log of the calls they
    made. *)

From Stdlib Require Import ZArith Lia Bool DecimalString PrimFloat.
From stdpp Require Import base option list strings gmap.

Open Scope string_scope.
Open Scope list_scope.
Open Scope Z_scope.

(** ** Machine integers *)

Module Int.

  (** Two's complement reading of [x] on [w] bits. *)
Definition wrap (w : Z) (x : Z) : Z :=
    (x + 2 ^ (w - 1)) mod 2 ^ w - 2 ^ (w - 1).

Definition int32 (x : Z) : Z := wrap 32 x.
Definition int64 (x : Z) : Z := wrap 64 x.

Definition MaxInt32 : Z := 2 ^ 31 - 1.
Definition MinInt32 : Z := - 2 ^ 31.
Definition MaxInt64 : Z := 2 ^ 63 - 1.
Definition MinInt64 : Z := - 2 ^ 63.

Definition in_int32 (x : Z) : Prop := MinInt32 <= x <= MaxInt32.
Definition in_int64 (x : Z) : Prop := MinInt64 <= x <= MaxInt64.

End Int.

(** ** Strings and bytes *)

#[global] Instance byte_eq_decision : EqDecision Byte.byte := Byte.byte_eq_dec.

(** [[]byte(s)]: the bytes of a Go string. *)
Definition bytes_of_string (s : string) : list Byte.byte :=
  String.list_byte_of_string s.

(** [%v] of an [int]. *)
Definition string_of_Z (n : Z) : string :=
  NilZero.string_of_int (Z.to_int n).

(** ** Constants of the packages the engine imports *)

(** Modelled from the spec: the workflow states, close statuses and domain
    statuses of package [persistence] (data model, section 3).  They are
    Go [int] constants; the properties below only use that they differ. *)
Module persistence.
Definition WorkflowStateCreated : Z := 0.
Definition WorkflowStateRunning : Z := 1.
Definition WorkflowStateCompleted : Z := 2.
Definition WorkflowStateZombie : Z := 3.

Definition WorkflowCloseStatusNone : Z := 0.
Definition WorkflowCloseStatusCompleted : Z := 1.
Definition WorkflowCloseStatusFailed : Z := 2.
Definition WorkflowCloseStatusCanceled : Z := 3.
Definition WorkflowCloseStatusTerminated : Z := 4.
Definition WorkflowCloseStatusContinuedAsNew : Z := 5.
Definition WorkflowCloseStatusTimedOut : Z := 6.

Definition DomainStatusRegistered : Z := 0.
Definition DomainStatusDeprecated : Z := 1.

Inductive CreateWorkflowMode :=
  | CreateWorkflowModeBrandNew
  | CreateWorkflowModeWorkflowIDReuse.
End persistence.

(** Modelled from the spec: the reuse policies of package [types]
    (section 4.3), an [int32] enumeration. *)
Module types.
Definition WorkflowIDReusePolicyAllowDuplicateFailedOnly : Z := 0.
Definition WorkflowIDReusePolicyAllowDuplicate : Z := 1.
Definition WorkflowIDReusePolicyRejectDuplicate : Z := 2.
Definition WorkflowIDReusePolicyTerminateIfRunning : Z := 3.

Inductive QueryConsistencyLevel :=
  | QueryConsistencyLevelEventual
  | QueryConsistencyLevelStrong.
End types.

(** Modelled from the spec: event id constants of package [common] and the
    bounded retry count of package [workflow] (section 4.2, "typically 5"). *)
Module common.
Definition FirstEventID : Z := 1.
Definition EmptyEventID : Z := -23.
Definition InitialPreviousFailoverVersion : Z := -1.
End common.

Definition ConditionalRetryCount : Z := 5.

Definition time_Millisecond : Z := 1000000.
Definition time_Second : Z := 1000000000.

Definition contextLockTimeout : Z := 500 * time_Millisecond.
Definition TerminateIfRunningReason : string := "TerminateIfRunning Policy".
Definition TerminateIfRunningDetailsTemplate (newRunID : string) : string :=
  "New runID: " +:+ newRunID.
Definition IdentityHistoryService : string := "history-service".

(** ** Errors *)

(** What [persistence.WorkflowExecutionAlreadyStartedError] carries. *)
Record AlreadyStarted := {
  as_StartRequestID : string;
  as_RunID : string;
  as_State : Z;
  as_CloseStatus : Z;
  as_LastWriteVersion : Z;
}.

Inductive Error :=
| BadRequestError (msg : string)
| InternalServiceError (msg : string)
| EntityNotExistsError (msg : string)
| WorkflowExecutionAlreadyStartedError (msg startRequestID runID : string)
| PersistenceAlreadyStartedError (t : AlreadyStarted)
| DomainNotActiveError (domainName : string) (failoverVersion : Z)
| CurrentBranchChangedError (msg : string) (currentBranchToken : list Byte.byte)
| ErrConcurrentStartRequest
| ErrAlreadyCompleted
| ErrStaleState
| ErrConflict
| ErrMaxAttemptsExceeded
| ErrActivityTaskNotFound
| ErrDeserializingToken
| ErrConsistentQueryNotEnabled
| ErrConsistentQueryBufferExceeded
| ErrQueryWorkflowBeforeFirstDecision
| ErrQueryEnteredInvalidState
| QueryFailedError (msg : string)
| ContextDeadlineExceeded
| ContextCanceled
| OtherError (msg : string).

Definition errDomainDeprecated : Error := BadRequestError "Domain is deprecated.".
Definition ErrDelayStartSeconds : Error :=
  BadRequestError "Conflicting inputs: both DelayStartSeconds and Cron schedule is set".

Definition is_ErrStaleState (e : Error) : bool :=
  match e with ErrStaleState => true | _ => false end.
Definition is_ErrConflict (e : Error) : bool :=
  match e with ErrConflict => true | _ => false end.
Definition is_ContextDeadlineExceeded (e : Error) : bool :=
  match e with ContextDeadlineExceeded => true | _ => false end.

(** ** The workflow-id reuse policy *)

(** [FailedWorkflowCloseState]: the keys of the map. *)
Definition FailedWorkflowCloseState : list Z :=
  [ persistence.WorkflowCloseStatusFailed;
    persistence.WorkflowCloseStatusCanceled;
    persistence.WorkflowCloseStatusTerminated;
    persistence.WorkflowCloseStatusTimedOut ].

Definition inFailedWorkflowCloseState (s : Z) : bool :=
  existsb (Z.eqb s) FailedWorkflowCloseState.

Record WorkflowExecution := {
  WorkflowID : string;
  RunID : string;
}.

Definition getWorkflowAlreadyStartedError
    (errMsg : string -> string -> string)
    (createRequestID workflowID runID : string) : Error :=
  WorkflowExecutionAlreadyStartedError (errMsg workflowID runID) createRequestID runID.

Definition msgAlreadyRunning (wid rid : string) : string :=
  "Workflow execution is already running. WorkflowId: " +:+ wid +:+ ", RunId: " +:+ rid +:+ ".".
Definition msgFinishedSuccessfully (wid rid : string) : string :=
  "Workflow execution already finished successfully. WorkflowId: " +:+ wid +:+ ", RunId: " +:+ rid
  +:+ ". Workflow ID reuse policy: allow duplicate workflow ID if last run failed.".
Definition msgFinished (wid rid : string) : string :=
  "Workflow execution already finished. WorkflowId: " +:+ wid +:+ ", RunId: " +:+ rid
  +:+ ". Workflow ID reuse policy: reject duplicate workflow ID.".

(** [applyWorkflowIDReusePolicyHelper]: [None] is Go's [nil] error. *)
Definition applyWorkflowIDReusePolicyHelper
    (prevStartRequestID prevRunID : string) (prevState prevCloseState : Z)
    (execution : WorkflowExecution) (wfIDReusePolicy : Z) : option Error :=
  if (prevState =? persistence.WorkflowStateCreated)
     || (prevState =? persistence.WorkflowStateRunning) then
    Some (getWorkflowAlreadyStartedError msgAlreadyRunning
            prevStartRequestID (WorkflowID execution) prevRunID)
  else if prevState =? persistence.WorkflowStateCompleted then
    if wfIDReusePolicy =? types.WorkflowIDReusePolicyAllowDuplicateFailedOnly then
      if inFailedWorkflowCloseState prevCloseState then None
      else Some (getWorkflowAlreadyStartedError msgFinishedSuccessfully
                   prevStartRequestID (WorkflowID execution) prevRunID)
    else if (wfIDReusePolicy =? types.WorkflowIDReusePolicyAllowDuplicate)
            || (wfIDReusePolicy =? types.WorkflowIDReusePolicyTerminateIfRunning) then
      None
    else if wfIDReusePolicy =? types.WorkflowIDReusePolicyRejectDuplicate then
      Some (getWorkflowAlreadyStartedError msgFinished
              prevStartRequestID (WorkflowID execution) prevRunID)
    else Some (InternalServiceError "Failed to process start workflow reuse policy.")
  else
    Some (InternalServiceError
            ("Failed to process workflow, workflow has invalid state: "
             +:+ string_of_Z prevState +:+ ".")).

(** ** Time *)

(** A [time.Time] is its count of nanoseconds since the Unix epoch, a
    [time.Duration] a count of nanoseconds held on 64 bits. *)
Module time.

  (** [t.Sub(u)]: saturates at the largest and smallest duration. *)
Definition Sub (t u : Z) : Z :=
    Z.max Int.MinInt64 (Z.min Int.MaxInt64 (t - u)).

  (** [t.Add(d)]. *)
Definition Add (t d : Z) : Z := t + d.

  (** [t.Round(d)]: nearest multiple of [d], halfway values up; the zero
      time lies a whole number of seconds before the Unix epoch, so the
      remainder is the same counted from either origin when [d] divides a
      second. *)
Definition Round (t d : Z) : Z :=
    if d <=? 0 then t
    else
      let r := t mod d in
      if r + r <? d then t - r else t + (d - r).

  (** [t.UnixNano()]. *)
Definition UnixNano (t : Z) : Z := Int.int64 t.

End time.

(** [newChildContext]: the timeout given to [context.WithTimeout]. *)
Definition newChildContext (parentDeadline : option Z) (now : Z) : Z :=
  match parentDeadline with
  | Some deadline =>
      let parentTimeout := time.Sub deadline now in
      if (0 <? parentTimeout) && (parentTimeout <? contextLockTimeout)
      then parentTimeout
      else contextLockTimeout
  | None => contextLockTimeout
  end.

(** ** Requests *)

Record RetryPolicy := {
  InitialIntervalInSeconds : Z;
  ExpirationIntervalInSeconds : Z;
}.

(** [types.StartWorkflowExecutionRequest], the fields the engine reads;
    [sr_WorkflowIDReusePolicy] is what [GetWorkflowIDReusePolicy] returns,
    [sr_DelayStartSeconds] and [sr_RetryPolicy] are pointers. *)
Record StartWorkflowExecutionRequest := {
  sr_Domain : string;
  sr_WorkflowID : string;
  sr_RequestID : string;
  sr_WorkflowIDReusePolicy : Z;
  sr_CronSchedule : string;
  sr_DelayStartSeconds : option Z;
  sr_RetryPolicy : option RetryPolicy;
}.

Definition GetDelayStartSeconds (r : StartWorkflowExecutionRequest) : Z :=
  default 0 (sr_DelayStartSeconds r).

Record HistoryStartWorkflowExecutionRequest := {
  DomainUUID : string;
  StartRequest : StartWorkflowExecutionRequest;
  FirstDecisionTaskBackoffSeconds : option Z;
  ExpirationTimestamp : option Z;
}.

Record StartWorkflowExecutionResponse := { resp_RunID : string }.

(** ** [CreateHistoryStartWorkflowRequest] *)

Section CreateHistoryStart.

  (** [backoff.GetBackoffForNextScheduleInSeconds], an [int32]. *)
Variable GetBackoffForNextScheduleInSeconds : string -> Z -> Z -> Z.

Definition CreateHistoryStartWorkflowRequest
      (domainID : string) (startRequest : StartWorkflowExecutionRequest) (now : Z)
      : Error + HistoryStartWorkflowExecutionRequest :=
    let firstDecisionTaskBackoffSeconds :=
      GetBackoffForNextScheduleInSeconds (sr_CronSchedule startRequest) now now in
    let delayStartSeconds := GetDelayStartSeconds startRequest in
    if (0 <? delayStartSeconds) && (0 <? firstDecisionTaskBackoffSeconds) then
      inl ErrDelayStartSeconds
    else
      let firstDecisionTaskBackoffSeconds :=
        if 0 <? delayStartSeconds then delayStartSeconds
        else firstDecisionTaskBackoffSeconds in
      let expiration :=
        match sr_RetryPolicy startRequest with
        | Some policy =>
            if 0 <? ExpirationIntervalInSeconds policy then
              let expirationInSeconds :=
                Int.int32 (ExpirationIntervalInSeconds policy
                           + firstDecisionTaskBackoffSeconds) in
              let deadline :=
                time.Add now (Int.int64 (expirationInSeconds * time_Second)) in
              Some (time.UnixNano (time.Round deadline time_Millisecond))
            else None
        | None => None
        end in
      inr {| DomainUUID := domainID;
             StartRequest := startRequest;
             FirstDecisionTaskBackoffSeconds := Some firstDecisionTaskBackoffSeconds;
             ExpirationTimestamp := expiration |}.

End CreateHistoryStart.

(** ** Calls to collaborators *)

(** The calls the start path makes on the execution cache, the workflow
    context and the mutable state of the prior run, with their arguments;
    the two persistence writes also carry the answer they got. *)
Inductive Effect :=
| GetOrCreateCurrentWorkflowExecution (timeout : Z) (domainID workflowID : string)
| currentRelease (retError : option Error)
| PersistFirstWorkflowEvents (runID : string)
| CreateWorkflowExecution (runID : string) (mode : persistence.CreateWorkflowMode)
    (prevRunID : string) (prevLastWriteVersion : Z) (answer : option Error)
| LoadOnce (runID : string)
| runningRelease (retError : option Error)
| TerminateWorkflow (runID : string) (eventBatchFirstEventID : Z) (reason : string)
    (details : list Byte.byte) (identity : string)
| ContextClear
| ReloadMutableState
| UpdateWorkflowExecutionWithNewAsActive (prevRunID newRunID : string)
    (answer : option Error).

(** A computation: its result and the calls made, in order. *)
Definition M (A : Type) : Type := (Error + A) * list Effect.

Definition ret {A} (a : A) : M A := (inr a, []).
Definition fail {A} (e : Error) : M A := (inl e, []).
Definition emit (ef : Effect) : M unit := (inr tt, [ef]).
Definition bind {A B} (m : M A) (k : A -> M B) : M B :=
  match m with
  | (inl e, l) => (inl e, l)
  | (inr a, l) => let '(r, l') := k a in (r, l ++ l')
  end.

Notation "'do' x <- m ; k" := (bind m (fun x => k))
  (at level 10, x name, m at level 100, k at level 200).
Notation "'run' m ; k" := (bind m (fun _ => k))
  (at level 10, m at level 100, k at level 200).

(** Go's [nil] for no error. *)
Definition check (r : option Error) : M unit :=
  match r with Some e => fail e | None => ret tt end.

Definition retError {A} (m : M A) : option Error :=
  match fst m with inl e => Some e | inr _ => None end.

(** [defer func() { release(retError) }()]. *)
Definition defer {A} (release : option Error -> Effect) (m : M A) : M A :=
  (fst m, snd m ++ [release (retError m)]).

(** ** Terminate-and-start *)

Definition shouldTerminateAndStart
    (startRequest : HistoryStartWorkflowExecutionRequest) (state : Z) : bool :=
  (sr_WorkflowIDReusePolicy (StartRequest startRequest)
     =? types.WorkflowIDReusePolicyTerminateIfRunning)
  && ((state =? persistence.WorkflowStateRunning)
      || (state =? persistence.WorkflowStateCreated)).

Definition getTerminateIfRunningDetails (newRunID : string) : list Byte.byte :=
  bytes_of_string (TerminateIfRunningDetailsTemplate newRunID).

(** What the collaborators answer during one turn of the update loop. *)
Record AttemptEnv := {
  ae_IsWorkflowExecutionRunning : bool;
  ae_GetNextEventID : Z;
  ae_TerminateWorkflow : option Error;
  ae_ReloadMutableState : option Error;
  ae_createMutableState : option Error;
  ae_getStartRequest : option Error;
  ae_addStartEventsAndTasks : option Error;
  ae_UpdateWorkflowExecutionWithNewAsActive : option Error;
}.

(** The body of [UpdateWorkflowLoop], [fuel] turns before [attempt]
    reaches [ConditionalRetryCount]; leaving the loop, by [break] or by
    the loop condition, reaches the final [return]. *)
Fixpoint UpdateWorkflowLoop
    (env : Z -> AttemptEnv) (prevRunID : string)
    (workflowExecution : WorkflowExecution) (isSignalWithStart : bool)
    (fuel : nat) (attempt : Z) : M StartWorkflowExecutionResponse :=
  match fuel with
  | O => ret {| resp_RunID := RunID workflowExecution |}
  | S fuel' =>
      let a := env attempt in
      let continue :=
        UpdateWorkflowLoop env prevRunID workflowExecution isSignalWithStart
          fuel' (attempt + 1) in
      if negb (ae_IsWorkflowExecutionRunning a) then fail ErrAlreadyCompleted
      else
        run emit (TerminateWorkflow prevRunID (ae_GetNextEventID a)
                    TerminateIfRunningReason
                    (getTerminateIfRunningDetails (RunID workflowExecution))
                    IdentityHistoryService);
        match ae_TerminateWorkflow a with
        | Some err =>
            if is_ErrStaleState err then
              run emit ContextClear;
              if negb (attempt =? ConditionalRetryCount - 1) then
                run emit ReloadMutableState;
                run check (ae_ReloadMutableState a);
                continue
              else continue
            else fail err
        | None =>
            run check (ae_createMutableState a);
            run (if isSignalWithStart then check (ae_getStartRequest a) else ret tt);
            run check (ae_addStartEventsAndTasks a);
            let updateErr := ae_UpdateWorkflowExecutionWithNewAsActive a in
            run emit (UpdateWorkflowExecutionWithNewAsActive prevRunID
                        (RunID workflowExecution) updateErr);
            match updateErr with
            | Some err => if is_ErrConflict err then continue else fail err
            | None => ret {| resp_RunID := RunID workflowExecution |}
            end
        end
  end.

Definition terminateAndStartWorkflow
    (env : Z -> AttemptEnv) (prevRunID : string)
    (workflowExecution : WorkflowExecution) (isSignalWithStart : bool)
    : M StartWorkflowExecutionResponse :=
  UpdateWorkflowLoop env prevRunID workflowExecution isSignalWithStart
    (Z.to_nat ConditionalRetryCount) 0.

(** ** Start *)

(** The prior run handed over by signal-with-start. *)
Record PrevMutableState := {
  pm_GetLastWriteVersion : Error + Z;
  pm_CreateRequestID : string;
  pm_RunID : string;
  pm_State : Z;
  pm_CloseStatus : Z;
}.

Record signalWithStartArg := {
  prevMutableState : option PrevMutableState;
}.

(** What the collaborators answer during one [startWorkflowHelper];
    [se_CreateWorkflowExecution n] answers the call number [n], from 0. *)
Record StartEnv := {
  se_DomainStatus : Z;
  se_DomainName : string;
  se_DomainID : string;
  se_validateStartWorkflowExecutionRequest : option Error;
  se_parentDeadline : option Z;
  se_Now : Z;
  se_GetOrCreateCurrentWorkflowExecution : Z -> option Error;
  se_uuid_New : string;
  se_createMutableState : option Error;
  se_GetCurrentVersion : Z;
  se_addStartEventsAndTasks : option Error;
  se_CloseTransactionAsSnapshot : option Error;
  se_PersistFirstWorkflowEvents : option Error;
  se_CreateWorkflowExecution : nat -> option Error;
  se_LoadOnce : option Error;
  se_attempts : Z -> AttemptEnv;
}.

Definition applyWorkflowIDReusePolicyForSigWithStart
    (prev : PrevMutableState) (execution : WorkflowExecution)
    (wfIDReusePolicy : Z) : option Error :=
  applyWorkflowIDReusePolicyHelper (pm_CreateRequestID prev) (pm_RunID prev)
    (pm_State prev) (pm_CloseStatus prev) execution wfIDReusePolicy.

Definition lift {A} (r : Error + A) : M A :=
  match r with inl e => fail e | inr a => ret a end.

(** The arguments of the first [CreateWorkflowExecution]. *)
Record CreateArgs := {
  ca_createMode : persistence.CreateWorkflowMode;
  ca_prevRunID : string;
  ca_prevLastWriteVersion : Z;
}.

(** [startWorkflowHelper] from the moment the current-run lock is held up
    to the first [CreateWorkflowExecution]: the new mutable state, the
    checks against the prior run of signal-with-start, the start events,
    the snapshot and the first events persisted. *)
Definition startWorkflowPrepare
    (env : StartEnv) (startRequest : HistoryStartWorkflowExecutionRequest)
    (arg : option signalWithStartArg) : M CreateArgs :=
  let request := StartRequest startRequest in
  let workflowExecution :=
    {| WorkflowID := sr_WorkflowID request; RunID := se_uuid_New env |} in
  run check (se_createMutableState env);
  let prev := arg ≫= prevMutableState in
  run match prev with
      | Some p =>
          do prevLastWriteVersion <- lift (pm_GetLastWriteVersion p);
          if se_GetCurrentVersion env <? prevLastWriteVersion then
            fail (DomainNotActiveError (se_DomainName env) prevLastWriteVersion)
          else
            check (applyWorkflowIDReusePolicyForSigWithStart p workflowExecution
                     (sr_WorkflowIDReusePolicy request))
      | None => ret tt
      end;
  run check (se_addStartEventsAndTasks env);
  run check (se_CloseTransactionAsSnapshot env);
  run emit (PersistFirstWorkflowEvents (RunID workflowExecution));
  run check (se_PersistFirstWorkflowEvents env);
  match prev with
  | Some p =>
      do v <- lift (pm_GetLastWriteVersion p);
      ret {| ca_createMode := persistence.CreateWorkflowModeWorkflowIDReuse;
             ca_prevRunID := pm_RunID p;
             ca_prevLastWriteVersion := v |}
  | None =>
      ret {| ca_createMode := persistence.CreateWorkflowModeBrandNew;
             ca_prevRunID := "";
             ca_prevLastWriteVersion := 0 |}
  end.

(** [startWorkflowHelper] from the first [CreateWorkflowExecution] on. *)
Definition startWorkflowCreate
    (env : StartEnv) (startRequest : HistoryStartWorkflowExecutionRequest)
    (arg : option signalWithStartArg) (args : CreateArgs)
    : M StartWorkflowExecutionResponse :=
  let request := StartRequest startRequest in
  let workflowExecution :=
    {| WorkflowID := sr_WorkflowID request; RunID := se_uuid_New env |} in
  let isSignalWithStart := bool_decide (is_Some arg) in
  let err := se_CreateWorkflowExecution env 0%nat in
  run emit (CreateWorkflowExecution (RunID workflowExecution) (ca_createMode args)
              (ca_prevRunID args) (ca_prevLastWriteVersion args) err);
  match err with
  | Some (PersistenceAlreadyStartedError t) =>
      if String.eqb (as_StartRequestID t) (sr_RequestID request) then
        ret {| resp_RunID := as_RunID t |}
      else if isSignalWithStart then fail (PersistenceAlreadyStartedError t)
      else if se_GetCurrentVersion env <? as_LastWriteVersion t then
        fail (DomainNotActiveError (se_DomainName env) (as_LastWriteVersion t))
      else
        let prevRunID := as_RunID t in
        if shouldTerminateAndStart startRequest (as_State t) then
          run emit (LoadOnce prevRunID);
          run check (se_LoadOnce env);
          defer runningRelease
            (terminateAndStartWorkflow (se_attempts env) prevRunID
               workflowExecution false)
        else
          run check (applyWorkflowIDReusePolicyHelper (as_StartRequestID t)
                       prevRunID (as_State t) (as_CloseStatus t)
                       workflowExecution (sr_WorkflowIDReusePolicy request));
          let err2 := se_CreateWorkflowExecution env 1%nat in
          run emit (CreateWorkflowExecution (RunID workflowExecution)
                      persistence.CreateWorkflowModeWorkflowIDReuse prevRunID
                      (as_LastWriteVersion t) err2);
          run check err2;
          ret {| resp_RunID := RunID workflowExecution |}
  | Some e => fail e
  | None => ret {| resp_RunID := RunID workflowExecution |}
  end.

(** [startWorkflowHelper] once the current-run lock is held. *)
Definition startWorkflowLocked
    (env : StartEnv) (startRequest : HistoryStartWorkflowExecutionRequest)
    (arg : option signalWithStartArg) : M StartWorkflowExecutionResponse :=
  do args <- startWorkflowPrepare env startRequest arg;
  startWorkflowCreate env startRequest arg args.

(** [startWorkflowHelper].  The validation of the request is a check of
    its fields alone and enters as its outcome; the override of the
    decision timeout changes a field nothing below reads. *)
Definition startWorkflowHelper
    (env : StartEnv) (startRequest : HistoryStartWorkflowExecutionRequest)
    (arg : option signalWithStartArg) : M StartWorkflowExecutionResponse :=
  if negb (se_DomainStatus env =? persistence.DomainStatusRegistered) then
    fail errDomainDeprecated
  else
    let request := StartRequest startRequest in
    run check (se_validateStartWorkflowExecutionRequest env);
    let childCtx := newChildContext (se_parentDeadline env) (se_Now env) in
    run emit (GetOrCreateCurrentWorkflowExecution childCtx (se_DomainID env)
                (sr_WorkflowID request));
    match se_GetOrCreateCurrentWorkflowExecution env childCtx with
    | Some err =>
        if is_ContextDeadlineExceeded err then fail ErrConcurrentStartRequest
        else fail err
    | None => defer currentRelease (startWorkflowLocked env startRequest arg)
    end.

(** ** Mutable state and the activity handlers *)

Record ActivityInfo := {
  ai_ScheduleID : Z;
  ai_StartedID : Z;
  ai_ActivityID : string;
  ai_Attempt : Z;
  ai_CancelRequested : bool;
  ai_Details : list Byte.byte;
  ai_LastHeartBeatUpdatedTime : Z;
  ai_StartedTime : Z;
  ai_TaskList : string;
}.

Inductive HistoryEvent :=
| ActivityTaskCompleted (eventID scheduledEventID startedEventID : Z)
    (result : list Byte.byte).

(** The part of a run's mutable state the activity handlers touch:
    workflow state and close status, next event id, the pending activity
    maps, and the events added in the open transaction. *)
Record MutableState := {
  ms_State : Z;
  ms_CloseStatus : Z;
  ms_NextEventID : Z;
  ms_pendingActivityInfoIDs : gmap Z ActivityInfo;
  ms_pendingActivityIDToEventID : gmap string Z;
  ms_events : list HistoryEvent;
}.

(** Modelled from the spec: the read accessors of the mutable state
    (section 3: a run is running iff its state is created or running; the
    pending activity map goes from schedule id to activity info). *)
Definition IsWorkflowExecutionRunning (ms : MutableState) : bool :=
  (ms_State ms =? persistence.WorkflowStateCreated)
  || (ms_State ms =? persistence.WorkflowStateRunning).

Definition GetNextEventID (ms : MutableState) : Z := ms_NextEventID ms.

Definition GetActivityInfo (ms : MutableState) (scheduleEventID : Z)
    : option ActivityInfo :=
  ms_pendingActivityInfoIDs ms !! scheduleEventID.

Definition GetActivityByActivityID (ms : MutableState) (activityID : string)
    : option ActivityInfo :=
  ms_pendingActivityIDToEventID ms !! activityID ≫= GetActivityInfo ms.

(** Modelled from the spec: [UpdateActivityProgress] saves the progress
    details and the last heartbeat time of the activity (section 4.6 and
    the heartbeat property of section 8); [ai] is the pointer stored under
    [scheduleID], so the update is seen through the pending map. *)
Definition UpdateActivityProgress (ms : MutableState) (scheduleID : Z)
    (ai : ActivityInfo) (details : list Byte.byte) (now : Z) : MutableState :=
  let ai' := {| ai_ScheduleID := ai_ScheduleID ai;
                ai_StartedID := ai_StartedID ai;
                ai_ActivityID := ai_ActivityID ai;
                ai_Attempt := ai_Attempt ai;
                ai_CancelRequested := ai_CancelRequested ai;
                ai_Details := details;
                ai_LastHeartBeatUpdatedTime := now;
                ai_StartedTime := ai_StartedTime ai;
                ai_TaskList := ai_TaskList ai |} in
  {| ms_State := ms_State ms;
     ms_CloseStatus := ms_CloseStatus ms;
     ms_NextEventID := ms_NextEventID ms;
     ms_pendingActivityInfoIDs := <[scheduleID := ai']> (ms_pendingActivityInfoIDs ms);
     ms_pendingActivityIDToEventID := ms_pendingActivityIDToEventID ms;
     ms_events := ms_events ms |}.

(** Modelled from the spec: [AddActivityTaskCompletedEvent] appends the
    completion event and retires the pending activity (section 4.6,
    step 5); it refuses an activity that is not pending under that
    started id. *)
Definition AddActivityTaskCompletedEvent (ms : MutableState)
    (scheduleEventID startedEventID : Z) (result : list Byte.byte)
    : option MutableState :=
  match GetActivityInfo ms scheduleEventID with
  | Some ai =>
      if ai_StartedID ai =? startedEventID then
        Some {| ms_State := ms_State ms;
                ms_CloseStatus := ms_CloseStatus ms;
                ms_NextEventID := ms_NextEventID ms + 1;
                ms_pendingActivityInfoIDs :=
                  delete scheduleEventID (ms_pendingActivityInfoIDs ms);
                ms_pendingActivityIDToEventID :=
                  delete (ai_ActivityID ai) (ms_pendingActivityIDToEventID ms);
                ms_events :=
                  ms_events ms ++ [ActivityTaskCompleted (ms_NextEventID ms)
                                     scheduleEventID startedEventID result] |}
      else None
  | None => None
  end.

Record TaskToken := {
  tk_WorkflowID : string;
  tk_RunID : string;
  tk_ScheduleID : Z;
  tk_ScheduleAttempt : Z;
  tk_ActivityID : string;
}.

Definition getScheduleID (activityID : string) (mutableState : MutableState)
    : Error + Z :=
  if String.eqb activityID "" then
    inl (BadRequestError "Neither ActivityID nor ScheduleID is provided")
  else
    match GetActivityByActivityID mutableState activityID with
    | None => inl (BadRequestError "Cannot locate Activity ScheduleID")
    | Some activityInfo => inr (ai_ScheduleID activityInfo)
    end.

(** The schedule id an activity handler works on. *)
Definition resolveScheduleID (token : TaskToken) (mutableState : MutableState)
    : Error + Z :=
  if tk_ScheduleID token =? common.EmptyEventID then
    getScheduleID (tk_ActivityID token) mutableState
  else inr (tk_ScheduleID token).

(** The test shared by the activity handlers: the activity is missing, not
    started, or the token names another attempt. *)
Definition activityTaskNotFound (token : TaskToken) (ai : option ActivityInfo)
    : bool :=
  match ai with
  | None => true
  | Some ai =>
      (ai_StartedID ai =? common.EmptyEventID)
      || (negb (tk_ScheduleID token =? common.EmptyEventID)
          && negb (tk_ScheduleAttempt token =? ai_Attempt ai))
  end.

(** The action [RespondActivityTaskCompleted] hands to [UpdateWithAction]:
    the error it returns and the mutable state it leaves. *)
Definition RespondActivityTaskCompleted
    (token : TaskToken) (result : list Byte.byte) (mutableState : MutableState)
    : option Error * MutableState :=
  if negb (IsWorkflowExecutionRunning mutableState) then
    (Some ErrAlreadyCompleted, mutableState)
  else
    match resolveScheduleID token mutableState with
    | inl err0 => (Some err0, mutableState)
    | inr scheduleID =>
        let ai := GetActivityInfo mutableState scheduleID in
        let isRunning := bool_decide (is_Some ai) in
        if negb isRunning && (GetNextEventID mutableState <=? scheduleID) then
          (Some ErrStaleState, mutableState)
        else if activityTaskNotFound token ai then
          (Some ErrActivityTaskNotFound, mutableState)
        else
          match ai with
          | Some ai =>
              match AddActivityTaskCompletedEvent mutableState scheduleID
                      (ai_StartedID ai) result with
              | Some ms' => (None, ms')
              | None =>
                  (Some (InternalServiceError
                           "Unable to add ActivityTaskCompleted event to history."),
                   mutableState)
              end
          | None => (Some ErrActivityTaskNotFound, mutableState)
          end
    end.

Record RecordActivityTaskHeartbeatResponse := { CancelRequested : bool }.

(** The [createDecisionTask] argument each handler gives [UpdateWithAction]:
    a completion asks for a decision task, a heartbeat does not. *)
Definition RespondActivityTaskCompleted_createDecisionTask : bool := true.
Definition RecordActivityTaskHeartbeat_createDecisionTask : bool := false.

(** The action [RecordActivityTaskHeartbeat] hands to [UpdateWithAction],
    with the [cancelRequested] variable it assigns. *)
Definition RecordActivityTaskHeartbeatAction
    (token : TaskToken) (details : list Byte.byte) (now : Z)
    (mutableState : MutableState) : option Error * MutableState * bool :=
  if negb (IsWorkflowExecutionRunning mutableState) then
    (Some ErrAlreadyCompleted, mutableState, false)
  else
    match resolveScheduleID token mutableState with
    | inl err0 => (Some err0, mutableState, false)
    | inr scheduleID =>
        let ai := GetActivityInfo mutableState scheduleID in
        let isRunning := bool_decide (is_Some ai) in
        if negb isRunning && (GetNextEventID mutableState <=? scheduleID) then
          (Some ErrStaleState, mutableState, false)
        else if activityTaskNotFound token ai then
          (Some ErrActivityTaskNotFound, mutableState, false)
        else
          match ai with
          | Some ai =>
              let cancelRequested := ai_CancelRequested ai in
              (None, UpdateActivityProgress mutableState scheduleID ai details now,
               cancelRequested)
          | None => (Some ErrActivityTaskNotFound, mutableState, false)
          end
    end.

(** [RecordActivityTaskHeartbeat] around its action: the response and the
    error it returns when [UpdateWithAction] hands the action's error back,
    and the mutable state the action leaves. *)
Definition RecordActivityTaskHeartbeat
    (token : TaskToken) (details : list Byte.byte) (now : Z)
    (mutableState : MutableState)
    : RecordActivityTaskHeartbeatResponse * option Error * MutableState :=
  let '(err, ms', cancelRequested) :=
    RecordActivityTaskHeartbeatAction token details now mutableState in
  match err with
  | Some e => ({| CancelRequested := false |}, Some e, ms')
  | None => ({| CancelRequested := cancelRequested |}, None, ms')
  end.

(** ** Query routing *)






(** ** Long poll on the mutable state *)

Record GetMutableStateRequest := {
  gr_DomainUUID : string;
  gr_WorkflowID : string;
  gr_RunID : string;
  gr_ExpectedNextEventID : Z;
  gr_CurrentBranchToken : option (list Byte.byte);
}.

Record GetMutableStateResponse := {
  r_RunID : string;
  r_LastFirstEventID : Z;
  r_NextEventID : Z;
  r_PreviousStartedEventID : Z;
  r_IsWorkflowRunning : bool;
  r_CurrentBranchToken : list Byte.byte;
  r_WorkflowState : Z;
  r_WorkflowCloseState : Z;
}.

(** A history-event notification. *)
Record Notification := {
  n_LastFirstEventID : Z;
  n_NextEventID : Z;
  n_PreviousStartedEventID : Z;
  n_WorkflowState : Z;
  n_WorkflowCloseState : Z;
  n_CurrentBranchToken : list Byte.byte;
}.

(** Which case of the [select] fires. *)
Inductive Select :=
| onChannel (event : Notification)
| onTimer
| onCtxDone (err : Error).

Inductive PollEffect :=
| WatchHistoryEvent (domainID workflowID runID : string)
| UnwatchHistoryEvent (domainID workflowID runID : string)
| NewTimer.

(** What the collaborators answer during one [getMutableStateOrPolling];
    [pe_getMutableState n] answers the call number [n], from 0, and
    [pe_select] lists the cases of the [select] in the order they fire. *)
Record PollEnv := {
  pe_ValidateDomainUUID : option Error;
  pe_getMutableState : nat -> Error + GetMutableStateResponse;
  pe_WatchHistoryEvent : option Error;
  pe_GetDomainName : option Error;
  pe_select : list Select;
}.

(** [bytes.Equal]: a nil slice equals an empty one. *)
Definition bytes_Equal (a b : list Byte.byte) : bool := bool_decide (a = b).

Definition expectedNextEventID (request : GetMutableStateRequest) : Z :=
  if negb (gr_ExpectedNextEventID request =? 0) then gr_ExpectedNextEventID request
  else common.FirstEventID.

Definition errBranchChanged (msg : string) (token : list Byte.byte) : Error :=
  CurrentBranchChangedError msg token.

(** The [for { select { ... } }] loop; [None] when no listed case ends the
    call, that is, the call is still blocked. *)
Fixpoint pollLoop (token : list Byte.byte) (expected : Z)
    (response : GetMutableStateResponse) (cases : list Select)
    : option (Error + GetMutableStateResponse) :=
  match cases with
  | [] => None
  | onChannel event :: rest =>
      let response :=
        {| r_RunID := r_RunID response;
           r_LastFirstEventID := n_LastFirstEventID event;
           r_NextEventID := n_NextEventID event;
           r_PreviousStartedEventID := n_PreviousStartedEventID event;
           r_IsWorkflowRunning :=
             n_WorkflowCloseState event =? persistence.WorkflowCloseStatusNone;
           r_CurrentBranchToken := r_CurrentBranchToken response;
           r_WorkflowState := Int.int32 (n_WorkflowState event);
           r_WorkflowCloseState := Int.int32 (n_WorkflowCloseState event) |} in
      if negb (bytes_Equal token (n_CurrentBranchToken event)) then
        Some (inl (errBranchChanged
                     "Current branch token and request branch token doesn't match"
                     (n_CurrentBranchToken event)))
      else if (expected <? r_NextEventID response)
              || negb (r_IsWorkflowRunning response) then
        Some (inr response)
      else pollLoop token expected response rest
  | onTimer :: _ => Some (inr response)
  | onCtxDone err :: _ => Some (inl err)
  end.

(** [getMutableStateOrPolling]: the outcome ([None] while blocked) and the
    calls made on the history-event notifier and the timer. *)
Definition getMutableStateOrPolling (env : PollEnv) (request : GetMutableStateRequest)
    : option (Error + GetMutableStateResponse) * list PollEffect :=
  match pe_ValidateDomainUUID env with
  | Some err => (Some (inl err), [])
  | None =>
  match pe_getMutableState env 0%nat with
  | inl err => (Some (inl err), [])
  | inr response =>
      let token := default (r_CurrentBranchToken response)
                     (gr_CurrentBranchToken request) in
      if negb (bytes_Equal token (r_CurrentBranchToken response)) then
        (Some (inl (errBranchChanged
                      "current branch token and request branch token doesn't match"
                      (r_CurrentBranchToken response))), [])
      else
        let runID := r_RunID response in
        let expected := expectedNextEventID request in
        if (r_NextEventID response <=? expected) && r_IsWorkflowRunning response then
          let watch := WatchHistoryEvent (gr_DomainUUID request)
                         (gr_WorkflowID request) runID in
          let unwatch := UnwatchHistoryEvent (gr_DomainUUID request)
                           (gr_WorkflowID request) runID in
          match pe_WatchHistoryEvent env with
          | Some err => (Some (inl err), [watch])
          | None =>
          match pe_getMutableState env 1%nat with
          | inl err => (Some (inl err), [watch; unwatch])
          | inr response =>
              if negb (bytes_Equal token (r_CurrentBranchToken response)) then
                (Some (inl (errBranchChanged
                              "current branch token and request branch token doesn't match"
                              (r_CurrentBranchToken response))), [watch; unwatch])
              else if (expected <? r_NextEventID response)
                      || negb (r_IsWorkflowRunning response) then
                (Some (inr response), [watch; unwatch])
              else
                match pe_GetDomainName env with
                | Some err => (Some (inl err), [watch; unwatch])
                | None =>
                    (pollLoop token expected response (pe_select env),
                     [watch; NewTimer; unwatch])
                end
          end
          end
        else (Some (inr response), [])
  end
  end.

(** ** The domain failover callback *)

Record DomainCacheEntry := {
  d_ID : string;
  d_IsGlobalDomain : bool;
  d_ActiveClusterName : string;
  d_FailoverVersion : Z;
  d_FailoverNotificationVersion : Z;
  d_PreviousFailoverVersion : Z;
  d_NotificationVersion : Z;
}.

Record FailoverMarkerTask := {
  fm_Version : Z;
  fm_DomainID : string;
}.

Inductive Processor := txProcessor | timerProcessor.

Inductive ShardEffect :=
| LockTaskProcessing (p : Processor)
| UnlockTaskProcessing (p : Processor)
| FailoverDomain (p : Processor) (domainIDs : gset string)
| NotifyNewTask (p : Processor) (clusterName : string)
    (visibilityTimestamp : option Z)
| ReplicateFailoverMarkers (markers : list FailoverMarkerTask) (answer : option Error)
| UpdateDomainNotificationVersion (domainNotificationVersion : Z).

Record FailoverEnv := {
  fe_currentClusterName : string;
  fe_GetDomainNotificationVersion : Z;
  fe_ClusterNameForFailoverVersion : Z -> string;
  fe_Now : Z;
  fe_ReplicateFailoverMarkers : list FailoverMarkerTask -> option Error;
}.

(** The condition of [failoverPredicate]. *)
Definition failoverPredicate (env : FailoverEnv) (shardNotificationVersion : Z)
    (nextDomain : DomainCacheEntry) : bool :=
  d_IsGlobalDomain nextDomain
  && (shardNotificationVersion <=? d_FailoverNotificationVersion nextDomain)
  && String.eqb (d_ActiveClusterName nextDomain) (fe_currentClusterName env).

Definition failoverDomainIDs (env : FailoverEnv) (shardNotificationVersion : Z)
    (nextDomains : list DomainCacheEntry) : gset string :=
  foldl (fun ids nextDomain =>
           if failoverPredicate env shardNotificationVersion nextDomain
           then {[ d_ID nextDomain ]} ∪ ids else ids)
        ∅ nextDomains.

(** The condition under which a failover marker is appended. *)
Definition needsFailoverMarker (env : FailoverEnv) (shardNotificationVersion : Z)
    (nextDomain : DomainCacheEntry) : bool :=
  d_IsGlobalDomain nextDomain
  && (shardNotificationVersion <=? d_FailoverNotificationVersion nextDomain)
  && negb (String.eqb (d_ActiveClusterName nextDomain) (fe_currentClusterName env))
  && negb (d_PreviousFailoverVersion nextDomain =? common.InitialPreviousFailoverVersion)
  && String.eqb
       (fe_ClusterNameForFailoverVersion env (d_PreviousFailoverVersion nextDomain))
       (fe_currentClusterName env).

Definition failoverMarkerTasks (env : FailoverEnv) (shardNotificationVersion : Z)
    (nextDomains : list DomainCacheEntry) : list FailoverMarkerTask :=
  (fun nextDomain => {| fm_Version := d_FailoverVersion nextDomain;
                        fm_DomainID := d_ID nextDomain |})
  <$> filter (fun d => needsFailoverMarker env shardNotificationVersion d = true)
        nextDomains.

(** The prepare callback. *)
Definition failoverPrepare : list ShardEffect :=
  [LockTaskProcessing txProcessor; LockTaskProcessing timerProcessor].

(** The commit callback before its deferred unlock. *)
Definition failoverCommitBody (env : FailoverEnv)
    (nextDomains : list DomainCacheEntry) : list ShardEffect :=
  match last nextDomains with
  | None => []
  | Some lastDomain =>
      let shardNotificationVersion := fe_GetDomainNotificationVersion env in
      let ids := failoverDomainIDs env shardNotificationVersion nextDomains in
      let failover :=
        if bool_decide (ids = ∅) then []
        else [ FailoverDomain txProcessor ids;
               FailoverDomain timerProcessor ids;
               NotifyNewTask txProcessor (fe_currentClusterName env) None;
               NotifyNewTask timerProcessor (fe_currentClusterName env)
                 (Some (fe_Now env)) ] in
      let markers := failoverMarkerTasks env shardNotificationVersion nextDomains in
      let update :=
        [ UpdateDomainNotificationVersion
            (Int.int64 (d_NotificationVersion lastDomain + 1)) ] in
      failover ++
      match markers with
      | [] => update
      | _ =>
          let answer := fe_ReplicateFailoverMarkers env markers in
          ReplicateFailoverMarkers markers answer ::
          match answer with
          | Some _ => []
          | None => update
          end
      end
  end.

(** The commit callback. *)
Definition failoverCommit (env : FailoverEnv)
    (prevDomains nextDomains : list DomainCacheEntry) : list ShardEffect :=
  failoverCommitBody env nextDomains
  ++ [UnlockTaskProcessing txProcessor; UnlockTaskProcessing timerProcessor].

(** ** Helpers of package [common] *)

Definition time_Nanosecond : Z := 1.
Definition time_Microsecond : Z := 1000.
Definition time_Minute : Z := 60 * time_Second.
Definition time_Hour : Z := 60 * time_Minute.

Definition contextExpireThreshold : Z := 10 * time_Millisecond.
Definition golandMapReserverNumberOfBytes : Z := 48.

Definition ErrBlobSizeExceedsLimit : Error :=
  BadRequestError "Blob data size exceeds limit.".

(** [AddSecondsToBaseTime]: [time.Unix(0, n)] is the time [n]. *)
Definition AddSecondsToBaseTime (baseTimeInNanoSec durationInSeconds : Z) : Z :=
  let timeOut := Int.int64 (durationInSeconds * time_Second) in
  time.UnixNano (time.Add baseTimeInNanoSec timeOut).

Definition MinInt64 (a b : Z) : Z := if a <? b then a else b.
Definition MaxInt64 (a b : Z) : Z := if b <? a then a else b.
Definition MinInt32 (a b : Z) : Z := if a <? b then a else b.
Definition MinInt (a b : Z) : Z := if a <? b then a else b.
Definition MaxInt (a b : Z) : Z := if b <? a then a else b.
Definition MinDuration (a b : Z) : Z := if a <? b then a else b.
Definition MaxDuration (a b : Z) : Z := if b <? a then a else b.

(** The conversions between durations and counts; Go's division of
    integers rounds towards zero. *)
Definition DurationToDays (d : Z) : Z := Int.int32 (Z.quot d (24 * time_Hour)).
Definition DurationToHours (d : Z) : Z := Z.quot d time_Hour.
Definition DurationToMinutes (d : Z) : Z := Z.quot d time_Minute.
Definition DurationToSeconds (d : Z) : Z := Z.quot d time_Second.
Definition DurationToMilliseconds (d : Z) : Z := Z.quot d time_Millisecond.
Definition DurationToMicroseconds (d : Z) : Z := Z.quot d time_Microsecond.
Definition DurationToNanoseconds (d : Z) : Z := Z.quot d time_Nanosecond.

Definition DaysToDuration (d : Z) : Z := Int.int64 (d * (24 * time_Hour)).
Definition HoursToDuration (d : Z) : Z := Int.int64 (d * time_Hour).
Definition MinutesToDuration (d : Z) : Z := Int.int64 (d * time_Minute).
Definition SecondsToDuration (d : Z) : Z := Int.int64 (d * time_Second).
Definition MillisecondsToDuration (d : Z) : Z := Int.int64 (d * time_Millisecond).
Definition MicrosecondsToDuration (d : Z) : Z := Int.int64 (d * time_Microsecond).
Definition NanosecondsToDuration (d : Z) : Z := Int.int64 (d * time_Nanosecond).

(** [CheckEventBlobSizeLimit]: the error returned and whether the warning
    is logged; [hasLogger] is [logger != nil]. *)
Definition CheckEventBlobSizeLimit (actualSize warnLimit errorLimit : Z)
    (hasLogger : bool) : option Error * bool :=
  if warnLimit <? actualSize then
    (if errorLimit <? actualSize then Some ErrBlobSizeExceedsLimit else None,
     hasLogger)
  else (None, false).

(** A [context.Context] as [IsValidContext] sees it: its [Done] channel
    ([None] for a nil channel, [Some closed] otherwise), its [Err] and its
    deadline. *)
Record GoContext := {
  ctx_Done : option bool;
  ctx_Err : option Error;
  ctx_Deadline : option Z;
}.

(** [IsValidContext]; [now] is the clock read by [time.Until]. *)
Definition IsValidContext (ctx : GoContext) (now : Z) : option Error :=
  match ctx_Done ctx with
  | Some closed => if closed then ctx_Err ctx else None
  | None =>
      match ctx_Deadline ctx with
      | Some deadline =>
          if time.Sub deadline now <? contextExpireThreshold
          then Some ContextDeadlineExceeded
          else None
      | None => None
      end
  end.

(** [GetSizeOfMapStringToByteArray]: [None] is a nil map.  The loop adds
    up the entries in whatever order the map yields them. *)
Definition GetSizeOfMapStringToByteArray
    (input : option (gmap string (list Byte.byte))) : Z :=
  match input with
  | None => 0
  | Some m =>
      map_fold (fun k v res => res + (Z.of_nat (String.length k) + Z.of_nat (length v)))
        0 m
      + golandMapReserverNumberOfBytes
  end.

(** [types.RetryPolicy] with the fields [ValidateRetryPolicy] reads. *)
Record RetryPolicyFields := {
  rp_InitialIntervalInSeconds : Z;
  rp_BackoffCoefficient : float;
  rp_MaximumIntervalInSeconds : Z;
  rp_MaximumAttempts : Z;
  rp_ExpirationIntervalInSeconds : Z;
}.

Definition ValidateRetryPolicy (policy : option RetryPolicyFields) : option Error :=
  match policy with
  | None => None
  | Some policy =>
      if rp_InitialIntervalInSeconds policy <=? 0 then
        Some (BadRequestError
                "InitialIntervalInSeconds must be greater than 0 on retry policy.")
      else if PrimFloat.ltb (rp_BackoffCoefficient policy) 1%float then
        Some (BadRequestError
                "BackoffCoefficient cannot be less than 1 on retry policy.")
      else if rp_MaximumIntervalInSeconds policy <? 0 then
        Some (BadRequestError
                "MaximumIntervalInSeconds cannot be less than 0 on retry policy.")
      else if (0 <? rp_MaximumIntervalInSeconds policy)
              && (rp_MaximumIntervalInSeconds policy
                  <? rp_InitialIntervalInSeconds policy) then
        Some (BadRequestError
                "MaximumIntervalInSeconds cannot be less than InitialIntervalInSeconds on retry policy.")
      else if rp_MaximumAttempts policy <? 0 then
        Some (BadRequestError
                "MaximumAttempts cannot be less than 0 on retry policy.")
      else if rp_ExpirationIntervalInSeconds policy <? 0 then
        Some (BadRequestError
                "ExpirationIntervalInSeconds cannot be less than 0 on retry policy.")
      else if (rp_MaximumAttempts policy =? 0)
              && (rp_ExpirationIntervalInSeconds policy =? 0) then
        Some (BadRequestError
                "MaximumAttempts and ExpirationIntervalInSeconds are both 0. At least one of them must be specified.")
      else None
  end.

(** [types.StartWorkflowExecutionRequest] with the fields the validation
    and the override of a Start read; pointers are options, and a task
    list or workflow type is given by its name. *)
Record StartRequestFields := {
  sf_RequestID : string;
  sf_Domain : string;
  sf_WorkflowID : string;
  sf_TaskList : option string;
  sf_WorkflowType : option string;
  sf_ExecutionStartToCloseTimeoutSeconds : option Z;
  sf_TaskStartToCloseTimeoutSeconds : option Z;
  sf_RetryPolicy : option RetryPolicyFields;
}.

(** [len] of a Go string: its count of bytes. *)
Definition len (s : string) : Z := Z.of_nat (String.length s).

Definition validateStartWorkflowExecutionRequest
    (request : StartRequestFields) (maxIDLengthLimit : Z) : option Error :=
  if len (sf_RequestID request) =? 0 then
    Some (BadRequestError "Missing request ID.")
  else if bool_decide (sf_ExecutionStartToCloseTimeoutSeconds request = None)
          || (default 0 (sf_ExecutionStartToCloseTimeoutSeconds request) <=? 0) then
    Some (BadRequestError "Missing or invalid ExecutionStartToCloseTimeoutSeconds.")
  else if bool_decide (sf_TaskStartToCloseTimeoutSeconds request = None)
          || (default 0 (sf_TaskStartToCloseTimeoutSeconds request) <=? 0) then
    Some (BadRequestError "Missing or invalid TaskStartToCloseTimeoutSeconds.")
  else if bool_decide (sf_TaskList request = None)
          || String.eqb (default "" (sf_TaskList request)) "" then
    Some (BadRequestError "Missing Tasklist.")
  else if bool_decide (sf_WorkflowType request = None)
          || String.eqb (default "" (sf_WorkflowType request)) "" then
    Some (BadRequestError "Missing WorkflowType.")
  else if maxIDLengthLimit <? len (sf_Domain request) then
    Some (BadRequestError "Domain exceeds length limit.")
  else if maxIDLengthLimit <? len (sf_WorkflowID request) then
    Some (BadRequestError "WorkflowId exceeds length limit.")
  else if maxIDLengthLimit <? len (default "" (sf_TaskList request)) then
    Some (BadRequestError "TaskList exceeds length limit.")
  else if maxIDLengthLimit <? len (default "" (sf_WorkflowType request)) then
    Some (BadRequestError "WorkflowType exceeds length limit.")
  else ValidateRetryPolicy (sf_RetryPolicy request).

(** [overrideStartWorkflowExecutionRequest]: the request after the call
    and whether the override counter is incremented;
    [maxDecisionStartToCloseSeconds] is the configured [int]. *)
Definition overrideStartWorkflowExecutionRequest
    (maxDecisionStartToCloseSeconds : Z) (request : StartRequestFields)
    : StartRequestFields * bool :=
  let maxDecisionStartToCloseTimeoutSeconds :=
    Int.int32 maxDecisionStartToCloseSeconds in
  let GetTaskStartToCloseTimeoutSeconds :=
    default 0 (sf_TaskStartToCloseTimeoutSeconds request) in
  let taskStartToCloseTimeoutSecs :=
    MinInt32 GetTaskStartToCloseTimeoutSeconds maxDecisionStartToCloseTimeoutSeconds in
  let taskStartToCloseTimeoutSecs :=
    MinInt32 taskStartToCloseTimeoutSecs
      (default 0 (sf_ExecutionStartToCloseTimeoutSeconds request)) in
  if negb (taskStartToCloseTimeoutSecs =? GetTaskStartToCloseTimeoutSeconds) then
    ({| sf_RequestID := sf_RequestID request;
        sf_Domain := sf_Domain request;
        sf_WorkflowID := sf_WorkflowID request;
        sf_TaskList := sf_TaskList request;
        sf_WorkflowType := sf_WorkflowType request;
        sf_ExecutionStartToCloseTimeoutSeconds :=
          sf_ExecutionStartToCloseTimeoutSeconds request;
        sf_TaskStartToCloseTimeoutSeconds := Some taskStartToCloseTimeoutSecs;
        sf_RetryPolicy := sf_RetryPolicy request |}, true)
  else (request, false).

(** A count survives the trip to a duration and back. *)
Definition roundTrips (unit : Z) (toCount toDuration : Z -> Z) : Prop :=
  forall count, Int.in_int64 (count * unit) -> toCount (toDuration count) = count.

(** A duration loses less than one unit, towards zero, on the trip to a
    count and back. *)
Definition truncates (unit : Z) (toCount toDuration : Z -> Z) : Prop :=
  forall d, Int.in_int64 d ->
    let back := toDuration (toCount d) in
    back = d - Z.rem d unit
    /\ Z.abs (d - back) < unit
    /\ Z.abs back <= Z.abs d
    /\ 0 <= d * back.

Definition samplePolicy (coefficient : float) (attempts expiration : Z)
    : RetryPolicyFields :=
  {| rp_InitialIntervalInSeconds := 1; rp_BackoffCoefficient := coefficient;
     rp_MaximumIntervalInSeconds := 0; rp_MaximumAttempts := attempts;
     rp_ExpirationIntervalInSeconds := expiration |}.

Definition GetTaskStartToCloseTimeoutSeconds (request : StartRequestFields) : Z :=
  default 0 (sf_TaskStartToCloseTimeoutSeconds request).

Definition GetExecutionStartToCloseTimeoutSeconds (request : StartRequestFields) : Z :=
  default 0 (sf_ExecutionStartToCloseTimeoutSeconds request).

Definition sampleFields (execution task : Z) : StartRequestFields :=
  {| sf_RequestID := "R1"; sf_Domain := "dom"; sf_WorkflowID := "W";
     sf_TaskList := Some "tl"; sf_WorkflowType := Some "wt";
     sf_ExecutionStartToCloseTimeoutSeconds := Some execution;
     sf_TaskStartToCloseTimeoutSeconds := Some task;
     sf_RetryPolicy := None |}.

(** ** What the statements speak of *)




(** No first events are handed to the history store. *)
Definition noHistoryEventsPersisted (log : list Effect) : Prop :=
  forall runID, ~ In (PersistFirstWorkflowEvents runID) log.

Definition isTerminateWorkflow (e : Effect) : bool :=
  match e with TerminateWorkflow _ _ _ _ _ => true | _ => false end.

(** A write that brought a run into being or closed one: a creation or an
    update-with-new that persistence accepted. *)
Definition isCommitted (e : Effect) : bool :=
  match e with
  | CreateWorkflowExecution _ _ _ _ None => true
  | UpdateWorkflowExecutionWithNewAsActive _ _ None => true
  | _ => false
  end.

Definition countTerminate (log : list Effect) : nat :=
  length (filter (fun e => isTerminateWorkflow e = true) log).

(** The versions handed to [UpdateDomainNotificationVersion], in order. *)
Definition domainNotificationUpdates (log : list ShardEffect) : list Z :=
  omap (fun e => match e with
                 | UpdateDomainNotificationVersion v => Some v
                 | _ => None
                 end) log.

(** The largest notification version of a batch. *)
Fixpoint maxNotificationVersion (l : list DomainCacheEntry) : option Z :=
  match l with
  | [] => None
  | d :: rest =>
      Some (match maxNotificationVersion rest with
            | Some m => Z.max (d_NotificationVersion d) m
            | None => d_NotificationVersion d
            end)
  end.

(** The batch is ordered by ascending notification version. *)
Definition ascending (l : list DomainCacheEntry) : Prop :=
  forall i j di dj,
    l !! i = Some di -> l !! j = Some dj -> (i <= j)%nat ->
    d_NotificationVersion di <= d_NotificationVersion dj.

(** ** Sample inputs *)

(** Sample inputs: a Start of workflow "W" in domain "D" whose fresh run
    id is "U2", against a prior run "U1" started by request "R1". *)
Definition sampleStart (requestID : string) (policy : Z)
    : HistoryStartWorkflowExecutionRequest :=
  {| DomainUUID := "D";
     StartRequest := {| sr_Domain := "dom"; sr_WorkflowID := "W";
                        sr_RequestID := requestID;
                        sr_WorkflowIDReusePolicy := policy;
                        sr_CronSchedule := ""; sr_DelayStartSeconds := None;
                        sr_RetryPolicy := None |};
     FirstDecisionTaskBackoffSeconds := Some 0;
     ExpirationTimestamp := None |}.

Definition samplePrior (state closeStatus : Z) : AlreadyStarted :=
  {| as_StartRequestID := "R1"; as_RunID := "U1"; as_State := state;
     as_CloseStatus := closeStatus; as_LastWriteVersion := 0 |}.

Definition sampleAttempt (terminate update : option Error) : AttemptEnv :=
  {| ae_IsWorkflowExecutionRunning := true; ae_GetNextEventID := 7;
     ae_TerminateWorkflow := terminate; ae_ReloadMutableState := None;
     ae_createMutableState := None; ae_getStartRequest := None;
     ae_addStartEventsAndTasks := None;
     ae_UpdateWorkflowExecutionWithNewAsActive := update |}.

Definition sampleEnv (parentDeadline : option Z) (now : Z)
    (lock : option Error) (create : option Error) (attempt : AttemptEnv)
    : StartEnv :=
  {| se_DomainStatus := persistence.DomainStatusRegistered;
     se_DomainName := "dom"; se_DomainID := "D";
     se_validateStartWorkflowExecutionRequest := None;
     se_parentDeadline := parentDeadline; se_Now := now;
     se_GetOrCreateCurrentWorkflowExecution := fun _ => lock;
     se_uuid_New := "U2";
     se_createMutableState := None; se_GetCurrentVersion := 0;
     se_addStartEventsAndTasks := None;
     se_CloseTransactionAsSnapshot := None;
     se_PersistFirstWorkflowEvents := None;
     se_CreateWorkflowExecution := fun _ => create;
     se_LoadOnce := None; se_attempts := fun _ => attempt |}.

Definition sampleActivity (attempt : Z) (cancelRequested : bool) : ActivityInfo :=
  {| ai_ScheduleID := 5; ai_StartedID := 6; ai_ActivityID := "a";
     ai_Attempt := attempt; ai_CancelRequested := cancelRequested;
     ai_Details := []; ai_LastHeartBeatUpdatedTime := 0;
     ai_StartedTime := 100; ai_TaskList := "tl" |}.

(** A running workflow at next event id 8 with one pending activity,
    scheduled at 5 and started at 6. *)
Definition sampleMutableState (ai : ActivityInfo) : MutableState :=
  {| ms_State := persistence.WorkflowStateRunning;
     ms_CloseStatus := persistence.WorkflowCloseStatusNone;
     ms_NextEventID := 8;
     ms_pendingActivityInfoIDs := {[ 5 := ai ]};
     ms_pendingActivityIDToEventID := {[ "a" := 5 ]};
     ms_events := [] |}.

Definition sampleToken (scheduleID attempt : Z) : TaskToken :=
  {| tk_WorkflowID := "W"; tk_RunID := "U1"; tk_ScheduleID := scheduleID;
     tk_ScheduleAttempt := attempt; tk_ActivityID := "a" |}.

Definition sampleResponse (next : Z) (running : bool) : GetMutableStateResponse :=
  {| r_RunID := "U1"; r_LastFirstEventID := 1; r_NextEventID := next;
     r_PreviousStartedEventID := 3; r_IsWorkflowRunning := running;
     r_CurrentBranchToken := [Byte.x0a];
     r_WorkflowState := persistence.WorkflowStateRunning;
     r_WorkflowCloseState := persistence.WorkflowCloseStatusNone |}.

Definition samplePollEnv (response : GetMutableStateResponse) : PollEnv :=
  {| pe_ValidateDomainUUID := None;
     pe_getMutableState := fun _ => inr response;
     pe_WatchHistoryEvent := None;
     pe_GetDomainName := None;
     pe_select := [onTimer] |}.

Definition sampleGet (expected : Z) (token : option (list Byte.byte))
    : GetMutableStateRequest :=
  {| gr_DomainUUID := "D"; gr_WorkflowID := "W"; gr_RunID := "U1";
     gr_ExpectedNextEventID := expected; gr_CurrentBranchToken := token |}.

Definition sampleDomain (id : string) (isGlobal : bool) (active : string)
    (failoverNotificationVersion previousFailoverVersion notificationVersion : Z)
    : DomainCacheEntry :=
  {| d_ID := id; d_IsGlobalDomain := isGlobal; d_ActiveClusterName := active;
     d_FailoverVersion := 12;
     d_FailoverNotificationVersion := failoverNotificationVersion;
     d_PreviousFailoverVersion := previousFailoverVersion;
     d_NotificationVersion := notificationVersion |}.

(** This cluster is "A", with failover versions 1, 11, 21, ...; the shard
    has recorded domain-notification version 5. *)
Definition sampleFailoverEnv (replicate : option Error) : FailoverEnv :=
  {| fe_currentClusterName := "A";
     fe_GetDomainNotificationVersion := 5;
     fe_ClusterNameForFailoverVersion := fun v => if v mod 10 =? 1 then "A" else "B";
     fe_Now := 2000;
     fe_ReplicateFailoverMarkers := fun _ => replicate |}.

(** No cron schedule: the cron backoff is 0. *)
Definition noCronBackoff (cronSchedule : string) (startTime closeTime : Z) : Z := 0.

Definition sampleDelayedStart (delay expiration : Z) : StartWorkflowExecutionRequest :=
  {| sr_Domain := "dom"; sr_WorkflowID := "W"; sr_RequestID := "R1";
     sr_WorkflowIDReusePolicy := types.WorkflowIDReusePolicyAllowDuplicate;
     sr_CronSchedule := "";
     sr_DelayStartSeconds := Some delay;
     sr_RetryPolicy := Some {| InitialIntervalInSeconds := 60;
                               ExpirationIntervalInSeconds := expiration |} |}.

(** The calls on the current-run lock. *)
Definition isCurrentLockCall (e : Effect) : bool :=
  match e with
  | GetOrCreateCurrentWorkflowExecution _ _ _ | currentRelease _ => true
  | _ => false
  end.

(** A computation all of whose calls satisfy [P]. *)
Definition quiet (P : Effect -> bool) {A} (m : M A) : Prop :=
  forallb P (snd m) = true.

(** The number of writes that persistence accepted. *)
Fixpoint commits (log : list Effect) : nat :=
  match log with
  | [] => 0
  | e :: rest => ((if isCommitted e then 1 else 0) + commits rest)%nat
  end.

(** What a computation owes about its accepted writes: at most one; none
    when it fails; and after one it succeeds with [runID]. *)
Definition writesOnce {A} (ok : A -> Prop) (m : M A) : Prop :=
  (commits (snd m) <= 1)%nat
  /\ (forall err, fst m = inl err -> commits (snd m) = 0%nat)
  /\ (commits (snd m) = 1%nat -> exists a, fst m = inr a /\ ok a).

Definition isLockingCall (e : ShardEffect) : bool :=
  match e with
  | LockTaskProcessing _ | UnlockTaskProcessing _ => true
  | _ => false
  end.

Definition isFailoverCall (e : ShardEffect) : bool :=
  match e with
  | FailoverDomain _ _ | NotifyNewTask _ _ _ => true
  | _ => false
  end.

(** ** History shard of a workflow or domain *)

(** [uint32(x)]. *)
Definition uint32 (x : Z) : Z := x mod 2 ^ 32.

Section HistoryShard.

  (** [farm.Fingerprint32], a [uint32]. *)
Variable Fingerprint32 : list Byte.byte -> Z.

(** [WorkflowIDToHistoryShard]; [None] is the run-time panic of an integer
    division by zero. *)
Definition WorkflowIDToHistoryShard (workflowID : string) (numberOfShards : Z)
    : option Z :=
  let hash := uint32 (Fingerprint32 (bytes_of_string workflowID)) in
  if uint32 numberOfShards =? 0 then None
  else Some (hash mod uint32 numberOfShards).

Definition DomainIDToHistoryShard (domainID : string) (numberOfShards : Z)
    : option Z :=
  let hash := uint32 (Fingerprint32 (bytes_of_string domainID)) in
  if uint32 numberOfShards =? 0 then None
  else Some (hash mod uint32 numberOfShards).

End HistoryShard.

(** ** Errors of the further handlers *)

(** [yarpcerrors.CodeDeadlineExceeded]. *)
Definition CodeDeadlineExceeded : Z := 4.

(** What the handlers below return besides the errors above; a
    [yarpcerrors.Status] carries its code. *)
Inductive HandlerError :=
| Plain (err : Error)
| ErrSignalsLimitExceeded
| ErrParentMismatch
| ErrCancellationAlreadyRequested
| EventAlreadyStartedError (msg : string)
| ErrMissingVersionHistories
| YarpcStatus (code : Z).

(** ** [QueryWorkflow] before it dispatches *)

Definition defaultQueryFirstDecisionTaskWaitTime : Z := time_Second.
Definition queryFirstDecisionTaskCheckInterval : Z := 200 * time_Millisecond.

Inductive QueryRejectCondition :=
| QueryRejectConditionNotOpen
| QueryRejectConditionNotCompletedCleanly.

(** What the configuration, the mutable state and the clock answer:
    [qe_getMutableState n] answers the call number [n], from 0;
    [qe_NowAtSub] and [qe_NowAtAdd] are the clock where the wait time and
    the deadline are computed, [qe_NowAtTest] the readings of the loop
    test, in order. *)
Record QueryPrepareEnv := {
  qe_EnableConsistentQuery : bool;
  qe_EnableConsistentQueryByDomain : bool;
  qe_getMutableState : nat -> Error + GetMutableStateResponse;
  qe_Deadline : option Z;
  qe_NowAtSub : Z;
  qe_NowAtAdd : Z;
  qe_NowAtTest : list Z;
}.

Definition is_Strong (l : types.QueryConsistencyLevel) : bool :=
  match l with
  | types.QueryConsistencyLevelStrong => true
  | types.QueryConsistencyLevelEventual => false
  end.

(** The test that rejects a query on a closed run. *)
Definition queryRejected (rejectCondition : option QueryRejectCondition)
    (mutableStateResp : GetMutableStateResponse) : bool :=
  negb (r_IsWorkflowRunning mutableStateResp)
  && match rejectCondition with
     | None => false
     | Some QueryRejectConditionNotOpen => true
     | Some QueryRejectConditionNotCompletedCleanly =>
         negb (r_WorkflowCloseState mutableStateResp
               =? persistence.WorkflowCloseStatusCompleted)
     end.

Definition queryFirstDecisionTaskWaitTime (ctxDeadline : option Z) (now : Z) : Z :=
  match ctxDeadline with
  | Some ctxDeadline =>
      let ctxWaitTime := Int.int64 (time.Sub ctxDeadline now - time_Second) in
      if defaultQueryFirstDecisionTaskWaitTime <? ctxWaitTime then ctxWaitTime
      else defaultQueryFirstDecisionTaskWaitTime
  | None => defaultQueryFirstDecisionTaskWaitTime
  end.

(** The loop that waits for the first decision task; [n] numbers the next
    call of [getMutableState], [None] means the loop is still turning when
    the listed clock readings are used up. *)
Fixpoint firstDecisionWait
    (getMutableState : nat -> Error + GetMutableStateResponse) (deadline : Z)
    (mutableStateResp : GetMutableStateResponse) (n : nat) (ticks : list Z)
    : option (Error + GetMutableStateResponse) :=
  if negb (r_PreviousStartedEventID mutableStateResp <=? 0) then
    Some (inr mutableStateResp)
  else
    match ticks with
    | [] => None
    | now :: ticks =>
        if now <? deadline then
          match getMutableState n with
          | inl err => Some (inl err)
          | inr mutableStateResp =>
              firstDecisionWait getMutableState deadline mutableStateResp (S n) ticks
          end
        else Some (inr mutableStateResp)
    end.

Inductive QueryPrepared :=
| QueryRejected (closeStatus : Z)
| QueryProceeds (mutableStateResp : GetMutableStateResponse).

(** [QueryWorkflow] up to the point where it loads the domain and the
    mutable state to route the query. *)
Definition QueryWorkflow_prepare (env : QueryPrepareEnv)
    (level : types.QueryConsistencyLevel)
    (rejectCondition : option QueryRejectCondition)
    : option (Error + QueryPrepared) :=
  let consistentQueryEnabled :=
    qe_EnableConsistentQuery env && qe_EnableConsistentQueryByDomain env in
  if is_Strong level && negb consistentQueryEnabled then
    Some (inl ErrConsistentQueryNotEnabled)
  else
    match qe_getMutableState env 0%nat with
    | inl err => Some (inl err)
    | inr mutableStateResp =>
        if queryRejected rejectCondition mutableStateResp then
          Some (inr (QueryRejected (r_WorkflowCloseState mutableStateResp)))
        else
          let waitTime :=
            queryFirstDecisionTaskWaitTime (qe_Deadline env) (qe_NowAtSub env) in
          let deadline := time.Add (qe_NowAtAdd env) waitTime in
          match firstDecisionWait (qe_getMutableState env) deadline
                  mutableStateResp 1%nat (qe_NowAtTest env) with
          | None => None
          | Some (inl err) => Some (inl err)
          | Some (inr mutableStateResp) =>
              if r_PreviousStartedEventID mutableStateResp <=? 0 then
                Some (inl ErrQueryWorkflowBeforeFirstDecision)
              else Some (inr (QueryProceeds mutableStateResp))
          end
    end.

(** ** Query dispatched directly through matching *)

Module DirectQuery.

(** What [queryDirectlyThroughMatching] reads of the mutable-state
    response. *)
Record MutableStateResponse := {
  IsStickyTaskListEnabled : bool;
  StickyTaskListName : string;
  StickyTaskListScheduleToStartTimeout : Z;
  IsWorkflowRunning : bool;
  TaskListName : string;
}.

(** The calls on the matching clients and on [ResetStickyTaskList], with
    the task list asked and the timeout of the fresh context. *)
Inductive Call :=
| StickyQueryWorkflow (taskList : string) (timeout : Z)
| ResetStickyTaskList (timeout : Z)
| NonStickyQueryWorkflow (taskList : string).

(** What the collaborators answer; [QueryResponse] is the matching
    response. *)
Record Env (QueryResponse : Type) := {
  GetDomainByID : Error + bool;
  SupportsStickyQuery : option Error;
  EnableStickyQuery : bool;
  rawMatchingQueryWorkflow : HandlerError + QueryResponse;
  resetStickyTaskList : option Error;
  matchingQueryWorkflow : HandlerError + QueryResponse;
}.

Arguments GetDomainByID {_} _.
Arguments SupportsStickyQuery {_} _.
Arguments EnableStickyQuery {_} _.
Arguments rawMatchingQueryWorkflow {_} _.
Arguments resetStickyTaskList {_} _.
Arguments matchingQueryWorkflow {_} _.

Definition isDeadlineExceededStatus (err : HandlerError) : bool :=
  match err with
  | YarpcStatus code => code =? CodeDeadlineExceeded
  | _ => false
  end.

Definition isNot_ErrAlreadyCompleted (err : Error) : bool :=
  match err with ErrAlreadyCompleted => false | _ => true end.

(** The part after the sticky attempt. *)
Definition nonSticky {QueryResponse} (env : Env QueryResponse)
    (msResp : MutableStateResponse) (ctx : GoContext) (now : Z)
    : (HandlerError + QueryResponse) * list Call :=
  match IsValidContext ctx now with
  | Some err => (inl (Plain err), [])
  | None =>
      (matchingQueryWorkflow env, [NonStickyQueryWorkflow (TaskListName msResp)])
  end.

Definition queryDirectlyThroughMatching {QueryResponse} (env : Env QueryResponse)
    (msResp : MutableStateResponse) (ctx : GoContext) (now : Z)
    : (HandlerError + QueryResponse) * list Call :=
  match GetDomainByID env with
  | inl err => (inl (Plain err), [])
  | inr isDomainActive =>
      let supportsStickyQuery := bool_decide (SupportsStickyQuery env = None) in
      if IsStickyTaskListEnabled msResp
         && negb (Nat.eqb (String.length (StickyTaskListName msResp)) 0)
         && supportsStickyQuery
         && EnableStickyQuery env
         && isDomainActive then
        let sticky :=
          StickyQueryWorkflow (StickyTaskListName msResp)
            (Int.int64 (StickyTaskListScheduleToStartTimeout msResp * time_Second)) in
        match rawMatchingQueryWorkflow env with
        | inr matchingResp => (inr matchingResp, [sticky])
        | inl err =>
            if negb (isDeadlineExceededStatus err) then (inl err, [sticky])
            else if IsWorkflowRunning msResp then
              let reset := ResetStickyTaskList (5 * time_Second) in
              match resetStickyTaskList env with
              | Some err =>
                  if isNot_ErrAlreadyCompleted err then
                    (inl (Plain err), [sticky; reset])
                  else
                    let '(r, l) := nonSticky env msResp ctx now in
                    (r, [sticky; reset] ++ l)
              | None =>
                  let '(r, l) := nonSticky env msResp ctx now in
                  (r, [sticky; reset] ++ l)
              end
            else
              let '(r, l) := nonSticky env msResp ctx now in
              (r, [sticky] ++ l)
        end
      else nonSticky env msResp ctx now
  end.

Definition isSticky (c : Call) : bool :=
  match c with StickyQueryWorkflow _ _ => true | _ => false end.
Definition isReset (c : Call) : bool :=
  match c with ResetStickyTaskList _ => true | _ => false end.
Definition isNonSticky (c : Call) : bool :=
  match c with NonStickyQueryWorkflow _ => true | _ => false end.

End DirectQuery.

Definition sampleQueryPrepareEnv (resp : GetMutableStateResponse)
    (ticks : list Z) : QueryPrepareEnv :=
  {| qe_EnableConsistentQuery := true;
     qe_EnableConsistentQueryByDomain := true;
     qe_getMutableState := fun _ => inr resp;
     qe_Deadline := Some (100 * time_Millisecond);
     qe_NowAtSub := 0;
     qe_NowAtAdd := 0;
     qe_NowAtTest := ticks |}.

Definition sampleClosedResponse : GetMutableStateResponse :=
  {| r_RunID := "run-1";
     r_LastFirstEventID := 5;
     r_NextEventID := 8;
     r_PreviousStartedEventID := 3;
     r_IsWorkflowRunning := false;
     r_CurrentBranchToken := [];
     r_WorkflowState := persistence.WorkflowStateCompleted;
     r_WorkflowCloseState := persistence.WorkflowCloseStatusFailed |}.

Definition sampleUndecidedResponse : GetMutableStateResponse :=
  {| r_RunID := "run-1";
     r_LastFirstEventID := 1;
     r_NextEventID := 3;
     r_PreviousStartedEventID := 0;
     r_IsWorkflowRunning := true;
     r_CurrentBranchToken := [];
     r_WorkflowState := persistence.WorkflowStateRunning;
     r_WorkflowCloseState := persistence.WorkflowCloseStatusNone |}.

(** ** [DescribeWorkflowExecution] *)

Inductive PendingActivityState :=
| PendingActivityStateScheduled
| PendingActivityStateStarted
| PendingActivityStateCancelRequested.

Inductive PendingDecisionState :=
| PendingDecisionStateScheduled
| PendingDecisionStateStarted.

(** A pending activity as [DescribeWorkflowExecution] reads it: the
    activity info above with the further fields of
    [persistence.ActivityInfo] on its schedule and retries. *)
Record PendingActivity := {
  pa_ai : ActivityInfo;
  pa_ScheduledTime : Z;
  pa_HasRetryPolicy : bool;
  pa_ExpirationTime : Z;
  pa_MaximumAttempts : Z;
  pa_LastFailureReason : string;
  pa_LastFailureDetails : list Byte.byte;
  pa_LastWorkerIdentity : string;
}.

(** [types.PendingActivityInfo]; the pointer fields are options. *)
Record PendingActivityInfo := {
  p_ActivityID : string;
  p_ActivityType : string;
  p_State : PendingActivityState;
  p_HeartbeatDetails : list Byte.byte;
  p_LastHeartbeatTimestamp : option Z;
  p_LastStartedTimestamp : option Z;
  p_Attempt : Z;
  p_MaximumAttempts : Z;
  p_ScheduledTimestamp : option Z;
  p_ExpirationTimestamp : option Z;
  p_LastFailureReason : option string;
  p_LastWorkerIdentity : string;
  p_LastFailureDetails : list Byte.byte;
}.

Record ChildExecutionInfo := {
  ch_StartedWorkflowID : string;
  ch_StartedRunID : string;
  ch_WorkflowTypeName : string;
  ch_InitiatedID : Z;
  ch_StartedID : Z;
  ch_ParentClosePolicy : Z;
}.

Record PendingChildExecutionInfo := {
  pc_WorkflowID : string;
  pc_RunID : string;
  pc_WorkflowTypName : string;
  pc_InitiatedID : Z;
  pc_ParentClosePolicy : Z;
}.

Record DecisionInfo := {
  di_ScheduledTimestamp : Z;
  di_Attempt : Z;
  di_OriginalScheduledTimestamp : Z;
  di_StartedID : Z;
  di_StartedTimestamp : Z;
}.

Record PendingDecisionInfo := {
  pd_State : PendingDecisionState;
  pd_ScheduledTimestamp : Z;
  pd_StartedTimestamp : option Z;
  pd_Attempt : Z;
  pd_OriginalScheduledTimestamp : Z;
}.

Record ParentInfo := {
  pi_ParentWorkflowID : string;
  pi_ParentRunID : string;
  pi_ParentDomainID : string;
  pi_ParentInitiatedID : Z;
  pi_ParentDomain : option string;
}.

(** [types.DescribeWorkflowExecutionResponse]: the workflow execution info
    and the pending work; the close status is the [int32] that
    [ToInternalWorkflowExecutionCloseStatus] returns. *)
Record DescribeWorkflowExecutionResponse := {
  dr_WorkflowID : string;
  dr_RunID : string;
  dr_StartTime : Z;
  dr_HistoryLength : Z;
  dr_ExecutionTime : Z;
  dr_Parent : option ParentInfo;
  dr_CloseStatus : option Z;
  dr_CloseTime : option Z;
  dr_PendingActivities : list PendingActivityInfo;
  dr_PendingChildren : list PendingChildExecutionInfo;
  dr_PendingDecision : option PendingDecisionInfo;
}.

(** What the execution cache, the mutable state and the domain cache
    answer; the pending activities and children come in the order the Go
    maps yield them. *)
Record DescribeEnv := {
  de_ValidateDomainUUID : option Error;
  de_GetOrCreateWorkflowExecution : option Error;
  de_LoadWorkflowExecution : option Error;
  de_WorkflowID : string;
  de_RunID : string;
  de_StartTimestamp : Z;
  de_GetNextEventID : Z;
  de_ParentWorkflowID : string;
  de_ParentRunID : string;
  de_ParentDomainID : string;
  de_InitiatedID : Z;
  de_State : Z;
  de_CloseStatus : Z;
  de_GetStartEvent : Error + Z;
  de_GetActiveDomainByID : Error + string;
  de_GetCompletionEvent : Error + Z;
  de_GetPendingActivityInfos : list PendingActivity;
  de_GetActivityScheduledEvent : Z -> Error + string;
  de_GetPendingChildExecutionInfos : list ChildExecutionInfo;
  de_GetPendingDecision : option DecisionInfo;
}.

(** The body of the loop over the pending activities, after the scheduled
    event has been loaded. *)
Definition describePendingActivity (a : PendingActivity) (activityType : string)
    : PendingActivityInfo :=
  let ai := pa_ai a in
  let state :=
    if ai_CancelRequested ai then PendingActivityStateCancelRequested
    else if negb (ai_StartedID ai =? common.EmptyEventID)
         then PendingActivityStateStarted
         else PendingActivityStateScheduled in
  let lastHeartbeatUnixNano := time.UnixNano (ai_LastHeartBeatUpdatedTime ai) in
  let heartbeat := 0 <? lastHeartbeatUnixNano in
  let scheduled :=
    match state with PendingActivityStateScheduled => true | _ => false end in
  let retry := pa_HasRetryPolicy a in
  {| p_ActivityID := ai_ActivityID ai;
     p_ActivityType := activityType;
     p_State := state;
     p_HeartbeatDetails := if heartbeat then ai_Details ai else [];
     p_LastHeartbeatTimestamp :=
       if heartbeat then Some lastHeartbeatUnixNano else None;
     p_LastStartedTimestamp :=
       if scheduled then None else Some (time.UnixNano (ai_StartedTime ai));
     p_Attempt := if retry then ai_Attempt ai else 0;
     p_MaximumAttempts :=
       if retry && negb (pa_MaximumAttempts a =? 0) then pa_MaximumAttempts a
       else 0;
     p_ScheduledTimestamp :=
       if scheduled then Some (time.UnixNano (pa_ScheduledTime a)) else None;
     p_ExpirationTimestamp :=
       if retry then Some (time.UnixNano (pa_ExpirationTime a)) else None;
     p_LastFailureReason :=
       if retry && negb (String.eqb (pa_LastFailureReason a) "")
       then Some (pa_LastFailureReason a) else None;
     p_LastWorkerIdentity :=
       if retry && negb (String.eqb (pa_LastWorkerIdentity a) "")
       then pa_LastWorkerIdentity a else "";
     p_LastFailureDetails :=
       if retry && negb (String.eqb (pa_LastFailureReason a) "")
       then pa_LastFailureDetails a else [] |}.

(** The loop over the pending activities: the first scheduled event that
    cannot be loaded ends the call. *)
Fixpoint describePendingActivities
    (GetActivityScheduledEvent : Z -> Error + string)
    (pending : list PendingActivity) : Error + list PendingActivityInfo :=
  match pending with
  | [] => inr []
  | a :: rest =>
      match GetActivityScheduledEvent (ai_ScheduleID (pa_ai a)) with
      | inl err => inl err
      | inr activityType =>
          match describePendingActivities GetActivityScheduledEvent rest with
          | inl err => inl err
          | inr ps => inr (describePendingActivity a activityType :: ps)
          end
      end
  end.

Definition describePendingChild (ch : ChildExecutionInfo)
    : PendingChildExecutionInfo :=
  {| pc_WorkflowID := ch_StartedWorkflowID ch;
     pc_RunID := ch_StartedRunID ch;
     pc_WorkflowTypName := ch_WorkflowTypeName ch;
     pc_InitiatedID := ch_InitiatedID ch;
     pc_ParentClosePolicy := ch_ParentClosePolicy ch |}.

Definition describePendingDecision (di : DecisionInfo) : PendingDecisionInfo :=
  let started := negb (di_StartedID di =? common.EmptyEventID) in
  {| pd_State :=
       if started then PendingDecisionStateStarted
       else PendingDecisionStateScheduled;
     pd_ScheduledTimestamp := di_ScheduledTimestamp di;
     pd_StartedTimestamp :=
       if started then Some (di_StartedTimestamp di) else None;
     pd_Attempt := di_Attempt di;
     pd_OriginalScheduledTimestamp := di_OriginalScheduledTimestamp di |}.

Section Describe.

  (** [persistence.ToInternalWorkflowExecutionCloseStatus]. *)
Variable ToInternalWorkflowExecutionCloseStatus : Z -> Z.

Definition DescribeWorkflowExecution (env : DescribeEnv)
    : Error + DescribeWorkflowExecutionResponse :=
  match de_ValidateDomainUUID env with
  | Some err => inl err
  | None =>
  match de_GetOrCreateWorkflowExecution env with
  | Some err0 => inl err0
  | None =>
  match de_LoadWorkflowExecution env with
  | Some err1 => inl err1
  | None =>
  let startTime := time.UnixNano (de_StartTimestamp env) in
  match de_GetStartEvent env with
  | inl err => inl err
  | inr firstDecisionTaskBackoffSeconds =>
  let backoffDuration := Int.int64 (firstDecisionTaskBackoffSeconds * time_Second) in
  let executionTime := Int.int64 (startTime + backoffDuration) in
  let parent :=
    if negb (String.eqb (de_ParentRunID env) "") then
      Some {| pi_ParentWorkflowID := de_ParentWorkflowID env;
              pi_ParentRunID := de_ParentRunID env;
              pi_ParentDomainID := de_ParentDomainID env;
              pi_ParentInitiatedID := de_InitiatedID env;
              pi_ParentDomain :=
                match de_GetActiveDomainByID env with
                | inr name => Some name
                | inl _ => None
                end |}
    else None in
  let closed :=
    if de_State env =? persistence.WorkflowStateCompleted then
      match de_GetCompletionEvent env with
      | inl err => inl err
      | inr timestamp =>
          inr (Some (ToInternalWorkflowExecutionCloseStatus (de_CloseStatus env)),
               Some timestamp)
      end
    else inr (None, None) in
  match closed with
  | inl err => inl err
  | inr (closeStatus, closeTime) =>
  match describePendingActivities (de_GetActivityScheduledEvent env)
          (de_GetPendingActivityInfos env) with
  | inl err => inl err
  | inr pendingActivities =>
      inr {| dr_WorkflowID := de_WorkflowID env;
             dr_RunID := de_RunID env;
             dr_StartTime := startTime;
             dr_HistoryLength :=
               Int.int64 (de_GetNextEventID env - common.FirstEventID);
             dr_ExecutionTime := executionTime;
             dr_Parent := parent;
             dr_CloseStatus := closeStatus;
             dr_CloseTime := closeTime;
             dr_PendingActivities := pendingActivities;
             dr_PendingChildren :=
               describePendingChild <$> de_GetPendingChildExecutionInfos env;
             dr_PendingDecision :=
               describePendingDecision <$> de_GetPendingDecision env |}
  end
  end
  end
  end
  end
  end.

End Describe.

(** A pending activity of the response carries the timestamp of its
    state and no field of a part it does not have. *)
Definition pendingActivityWellFormed (p : PendingActivityInfo) : Prop :=
  (p_State p = PendingActivityStateScheduled ->
   is_Some (p_ScheduledTimestamp p) /\ p_LastStartedTimestamp p = None)
  /\ (p_State p <> PendingActivityStateScheduled ->
      is_Some (p_LastStartedTimestamp p) /\ p_ScheduledTimestamp p = None)
  /\ (forall t, p_LastHeartbeatTimestamp p = Some t -> 0 < t)
  /\ (p_LastHeartbeatTimestamp p = None -> p_HeartbeatDetails p = [])
  /\ (p_ExpirationTimestamp p = None ->
      p_Attempt p = 0 /\ p_MaximumAttempts p = 0
      /\ p_LastFailureReason p = None /\ p_LastWorkerIdentity p = ""
      /\ p_LastFailureDetails p = [])
  /\ (p_LastFailureReason p <> Some "")
  /\ (p_LastFailureReason p = None -> p_LastFailureDetails p = []).

Definition pendingDecisionWellFormed (pd : PendingDecisionInfo) : Prop :=
  pd_State pd = PendingDecisionStateStarted <-> is_Some (pd_StartedTimestamp pd).

Definition samplePendingActivity : PendingActivity :=
  {| pa_ai := sampleActivity 1 false;
     pa_ScheduledTime := 1000;
     pa_HasRetryPolicy := true;
     pa_ExpirationTime := 9000;
     pa_MaximumAttempts := 3;
     pa_LastFailureReason := "timeout";
     pa_LastFailureDetails := [Byte.x01];
     pa_LastWorkerIdentity := "worker-1" |}.

Definition sampleDescribeEnv : DescribeEnv :=
  {| de_ValidateDomainUUID := None;
     de_GetOrCreateWorkflowExecution := None;
     de_LoadWorkflowExecution := None;
     de_WorkflowID := "workflow-1";
     de_RunID := "run-1";
     de_StartTimestamp := 500;
     de_GetNextEventID := 8;
     de_ParentWorkflowID := "";
     de_ParentRunID := "";
     de_ParentDomainID := "";
     de_InitiatedID := 0;
     de_State := persistence.WorkflowStateRunning;
     de_CloseStatus := persistence.WorkflowCloseStatusNone;
     de_GetStartEvent := inr 0;
     de_GetActiveDomainByID := inl (EntityNotExistsError "no domain");
     de_GetCompletionEvent := inl (InternalServiceError "no completion event");
     de_GetPendingActivityInfos := [samplePendingActivity];
     de_GetActivityScheduledEvent := fun _ => inr "activity-type";
     de_GetPendingChildExecutionInfos := [];
     de_GetPendingDecision :=
       Some {| di_ScheduledTimestamp := 700;
               di_Attempt := 0;
               di_OriginalScheduledTimestamp := 700;
               di_StartedID := common.EmptyEventID;
               di_StartedTimestamp := 0 |} |}.

(** ** [GetDLQReplicationMessages] *)

Section DLQ.

Variables (ReplicationTaskInfo ReplicationTask : Type).

  (** [replicationAckManager.GetTask]: an error, or a task that may be nil. *)
Variable GetTask : ReplicationTaskInfo -> Error + option ReplicationTask.

(** The tasks returned or the first error, and the task infos [GetTask]
    was called with, in order. *)
Fixpoint GetDLQReplicationMessages (taskInfos : list ReplicationTaskInfo)
    : (Error + list ReplicationTask) * list ReplicationTaskInfo :=
  match taskInfos with
  | [] => (inr [], [])
  | taskInfo :: rest =>
      match GetTask taskInfo with
      | inl err => (inl err, [taskInfo])
      | inr task =>
          let '(r, calls) := GetDLQReplicationMessages rest in
          (match r with
           | inl err => inl err
           | inr tasks =>
               inr (match task with Some task => task :: tasks | None => tasks end)
           end,
           taskInfo :: calls)
      end
  end.

End DLQ.

(** ** [ReapplyEvents] *)

(** What [ReapplyEvents] reads of a history event. *)
Record ReapplyEvent := {
  he_EventID : Z;
  he_Version : Z;
  he_EventType : Z;
}.

Record UpdateAction := {
  Noop : bool;
  CreateDecision : bool;
}.

Record VersionHistory := {
  vh_GetEventVersion : Z -> Error + Z;
  vh_GetBranchToken : list Byte.byte;
}.

(** The calls on the workflow resetter and the events reapplier, with the
    arguments that depend on the request and the mutable state. *)
Inductive ReapplyCall :=
| ResetWorkflowForReapply (baseRunID : string) (baseBranchToken : list Byte.byte)
    (baseRebuildLastEventID baseRebuildLastEventVersion baseNextEventID : Z)
    (additionalReapplyEvents : list ReapplyEvent) (skipSignalReapply : bool)
| EventsReapplierReapplyEvents (events : list ReapplyEvent) (runID : string).

(** What the mutable state of the current run, the resetter and the
    reapplier answer; [re_GetVersionHistories] is [None] for nil version
    histories and else the answer of [GetCurrentVersionHistory]. *)
Record ReapplyEnv := {
  re_GetLastWriteVersion : Error + Z;
  re_IsResourceDuplicated : string -> Z -> Z -> bool;
  re_IsWorkflowExecutionRunning : bool;
  re_RunID : string;
  re_GetPreviousStartedEventID : Z;
  re_GetVersionHistories : option (Error + VersionHistory);
  re_GetNextEventID : Z;
  re_ResetWorkflow : option Error;
  re_CronSchedule : string;
  re_HasProcessedOrPendingDecision : bool;
  re_ReapplyEvents : Error + list ReapplyEvent;
}.

(** The test of the filter loop: the event is from another cluster and has
    not been reapplied before. *)
Definition toReapply (env : ReapplyEnv) (lastWriteVersion : Z) (runID : string)
    (event : ReapplyEvent) : bool :=
  negb (he_Version event =? lastWriteVersion)
  && negb (re_IsResourceDuplicated env runID (he_EventID event) (he_Version event)).

Definition noopAction : UpdateAction := {| Noop := true; CreateDecision := false |}.

(** The action [ReapplyEvents] hands to [UpdateWithActionFunc]. *)
Definition ReapplyEventsAction (env : ReapplyEnv) (runID : string)
    (reapplyEvents : list ReapplyEvent)
    : (HandlerError + UpdateAction) * list ReapplyCall :=
  match re_GetLastWriteVersion env with
  | inl err => (inl (Plain err), [])
  | inr lastWriteVersion =>
      let toReapplyEvents :=
        filter (fun event => toReapply env lastWriteVersion runID event = true)
          reapplyEvents in
      if Nat.eqb (length toReapplyEvents) 0 then (inr noopAction, [])
      else if negb (re_IsWorkflowExecutionRunning env) then
        let baseRunID := re_RunID env in
        let baseRebuildLastEventID := re_GetPreviousStartedEventID env in
        if baseRebuildLastEventID =? common.EmptyEventID then (inr noopAction, [])
        else
          match re_GetVersionHistories env with
          | None => (inl ErrMissingVersionHistories, [])
          | Some (inl err) => (inl (Plain err), [])
          | Some (inr baseCurrentVersionHistory) =>
              match vh_GetEventVersion baseCurrentVersionHistory
                      baseRebuildLastEventID with
              | inl err => (inl (Plain err), [])
              | inr baseRebuildLastEventVersion =>
                  let call :=
                    ResetWorkflowForReapply baseRunID
                      (vh_GetBranchToken baseCurrentVersionHistory)
                      baseRebuildLastEventID baseRebuildLastEventVersion
                      (re_GetNextEventID env) toReapplyEvents false in
                  match re_ResetWorkflow env with
                  | Some err => (inl (Plain err), [call])
                  | None => (inr noopAction, [call])
                  end
              end
          end
      else
        let postActions :=
          {| Noop := false;
             CreateDecision :=
               if negb (String.eqb (re_CronSchedule env) "")
                  && negb (re_HasProcessedOrPendingDecision env)
               then false else true |} in
        let call := EventsReapplierReapplyEvents toReapplyEvents runID in
        match re_ReapplyEvents env with
        | inl _ =>
            (inl (Plain (InternalServiceError "unable to re-apply stale events")),
             [call])
        | inr reappliedEvents =>
            if Nat.eqb (length reappliedEvents) 0 then (inr noopAction, [call])
            else (inr postActions, [call])
        end
  end.

Definition callEvents (c : ReapplyCall) : list ReapplyEvent :=
  match c with
  | ResetWorkflowForReapply _ _ _ _ _ events _ => events
  | EventsReapplierReapplyEvents events _ => events
  end.

Definition isResetWorkflowForReapply (c : ReapplyCall) : bool :=
  match c with
  | ResetWorkflowForReapply _ _ _ _ _ _ _ => true
  | EventsReapplierReapplyEvents _ _ => false
  end.

Definition sampleReapplyEnv : ReapplyEnv :=
  {| re_GetLastWriteVersion := inr 10;
     re_IsResourceDuplicated := fun _ eventID _ => eventID =? 7;
     re_IsWorkflowExecutionRunning := true;
     re_RunID := "run-1";
     re_GetPreviousStartedEventID := 3;
     re_GetVersionHistories := None;
     re_GetNextEventID := 9;
     re_ResetWorkflow := None;
     re_CronSchedule := "";
     re_HasProcessedOrPendingDecision := true;
     re_ReapplyEvents := inr [ {| he_EventID := 8; he_Version := 20; he_EventType := 0 |} ] |}.

Definition sampleReapplyEvents : list ReapplyEvent :=
  [ {| he_EventID := 6; he_Version := 10; he_EventType := 0 |};
    {| he_EventID := 7; he_Version := 20; he_EventType := 0 |};
    {| he_EventID := 8; he_Version := 20; he_EventType := 0 |} ].

(** ** The other activity handlers *)

(** The fields of [persistence.ActivityInfo] that [ActivityInfo] above
    leaves out and these handlers read. *)
Record ActivityInfoRest := {
  ar_RequestID : string;
  ar_CancelRequestID : Z;
  ar_ScheduledTime : Z;
}.

(** The calls on the mutable state that add events or change an
    activity, with their arguments. *)
Inductive MutableStateCall :=
| RetryActivity (ai : ActivityInfo) (failureReason : string)
    (failureDetails : list Byte.byte)
| AddActivityTaskFailedEvent (scheduleEventID startedEventID : Z)
| AddActivityTaskCanceledEvent (scheduleEventID startedEventID : Z)
    (latestCancelRequestedEventID : Z) (details : list Byte.byte)
    (identity : string)
| GetActivityScheduledEvent (scheduleEventID : Z)
| AddActivityTaskStartedEvent (ai : ActivityInfo) (scheduleEventID : Z)
    (requestID identity : string).

(** What the mutable state answers to those calls; a started event that
    is added sets the started time of the activity, which the handler
    reads afterwards. *)
Record ActivityHandlerEnv := {
  ah_rest : ActivityInfo -> ActivityInfoRest;
  ah_RetryActivity : Error + bool;
  ah_AddActivityTaskFailedEvent : option Error;
  ah_AddActivityTaskCanceledEvent : option Error;
  ah_GetActivityScheduledEvent : Error + string;
  ah_AddActivityTaskStartedEvent : Error + Z;
  ah_GetWorkflowType : string;
}.

(** The action [RespondActivityTaskFailed] hands to
    [UpdateWithActionFunc]. *)
Definition RespondActivityTaskFailedAction (env : ActivityHandlerEnv)
    (token : TaskToken) (reason : string) (details : list Byte.byte)
    (mutableState : MutableState)
    : (Error + UpdateAction) * list MutableStateCall :=
  if negb (IsWorkflowExecutionRunning mutableState) then
    (inl ErrAlreadyCompleted, [])
  else
    match resolveScheduleID token mutableState with
    | inl err0 => (inl err0, [])
    | inr scheduleID =>
        let ai := GetActivityInfo mutableState scheduleID in
        let isRunning := bool_decide (is_Some ai) in
        if negb isRunning && (GetNextEventID mutableState <=? scheduleID) then
          (inl ErrStaleState, [])
        else if activityTaskNotFound token ai then
          (inl ErrActivityTaskNotFound, [])
        else
          match ai with
          | None => (inl ErrActivityTaskNotFound, [])
          | Some ai =>
              let retry := RetryActivity ai reason details in
              match ah_RetryActivity env with
              | inl err => (inl err, [retry])
              | inr ok =>
                  if negb ok then
                    let add :=
                      AddActivityTaskFailedEvent scheduleID (ai_StartedID ai) in
                    match ah_AddActivityTaskFailedEvent env with
                    | Some _ =>
                        (inl (InternalServiceError
                                "Unable to add ActivityTaskFailed event to history."),
                         [retry; add])
                    | None =>
                        (inr {| Noop := false; CreateDecision := true |},
                         [retry; add])
                    end
                  else (inr {| Noop := false; CreateDecision := false |}, [retry])
              end
          end
    end.

(** The action [RespondActivityTaskCanceled] hands to [UpdateWithAction]. *)
Definition RespondActivityTaskCanceledAction (env : ActivityHandlerEnv)
    (token : TaskToken) (details : list Byte.byte) (identity : string)
    (mutableState : MutableState) : option Error * list MutableStateCall :=
  if negb (IsWorkflowExecutionRunning mutableState) then
    (Some ErrAlreadyCompleted, [])
  else
    match resolveScheduleID token mutableState with
    | inl err0 => (Some err0, [])
    | inr scheduleID =>
        let ai := GetActivityInfo mutableState scheduleID in
        let isRunning := bool_decide (is_Some ai) in
        if negb isRunning && (GetNextEventID mutableState <=? scheduleID) then
          (Some ErrStaleState, [])
        else if activityTaskNotFound token ai then
          (Some ErrActivityTaskNotFound, [])
        else
          match ai with
          | None => (Some ErrActivityTaskNotFound, [])
          | Some ai =>
              let add :=
                AddActivityTaskCanceledEvent scheduleID (ai_StartedID ai)
                  (ar_CancelRequestID (ah_rest env ai)) details identity in
              match ah_AddActivityTaskCanceledEvent env with
              | Some _ =>
                  (Some (InternalServiceError
                           "Unable to add ActivityTaskCanceled event to history."),
                   [add])
              | None => (None, [add])
              end
          end
    end.

Definition RespondActivityTaskCanceled_createDecisionTask : bool := true.
Definition RecordActivityTaskStarted_createDecisionTask : bool := false.

(** [types.RecordActivityTaskStartedResponse]. *)
Record RecordActivityTaskStartedResponse := {
  rs_ScheduledEvent : string;
  rs_ScheduledTimestampOfThisAttempt : Z;
  rs_Attempt : Z;
  rs_HeartbeatDetails : list Byte.byte;
  rs_WorkflowType : string;
  rs_WorkflowDomain : string;
  rs_StartedTimestamp : option Z;
}.

(** What [RecordActivityTaskStarted] reads of its request. *)
Record RecordActivityTaskStartedRequest := {
  rq_ScheduleID : Z;
  rq_RequestID : string;
  rq_Identity : string;
}.

(** The action [RecordActivityTaskStarted] hands to [UpdateWithAction]:
    the error it returns, or the response it has filled in when it
    returns nil. *)
Definition RecordActivityTaskStartedAction (env : ActivityHandlerEnv)
    (domainName : string) (request : RecordActivityTaskStartedRequest)
    (mutableState : MutableState)
    : (HandlerError + RecordActivityTaskStartedResponse) * list MutableStateCall :=
  if negb (IsWorkflowExecutionRunning mutableState) then
    (inl (Plain ErrAlreadyCompleted), [])
  else
    let scheduleID := rq_ScheduleID request in
    let requestID := rq_RequestID request in
    match GetActivityInfo mutableState scheduleID with
    | None =>
        if GetNextEventID mutableState <=? scheduleID then
          (inl (Plain ErrStaleState), [])
        else (inl (Plain ErrActivityTaskNotFound), [])
    | Some ai =>
        let load := GetActivityScheduledEvent scheduleID in
        match ah_GetActivityScheduledEvent env with
        | inl err => (inl (Plain err), [load])
        | inr scheduledEvent =>
            let response startedTimestamp :=
              {| rs_ScheduledEvent := scheduledEvent;
                 rs_ScheduledTimestampOfThisAttempt :=
                   time.UnixNano (ar_ScheduledTime (ah_rest env ai));
                 rs_Attempt := ai_Attempt ai;
                 rs_HeartbeatDetails := ai_Details ai;
                 rs_WorkflowType := ah_GetWorkflowType env;
                 rs_WorkflowDomain := domainName;
                 rs_StartedTimestamp := Some startedTimestamp |} in
            if negb (ai_StartedID ai =? common.EmptyEventID) then
              if String.eqb (ar_RequestID (ah_rest env ai)) requestID then
                (inr (response (time.UnixNano (ai_StartedTime ai))), [load])
              else
                (inl (EventAlreadyStartedError "Activity task already started."),
                 [load])
            else
              let add :=
                AddActivityTaskStartedEvent ai scheduleID requestID
                  (rq_Identity request) in
              match ah_AddActivityTaskStartedEvent env with
              | inl err => (inl (Plain err), [load; add])
              | inr startedTime =>
                  (inr (response (time.UnixNano startedTime)), [load; add])
              end
        end
    end.

Definition isAddActivityTaskStartedEvent (c : MutableStateCall) : bool :=
  match c with AddActivityTaskStartedEvent _ _ _ _ => true | _ => false end.

Definition sampleActivityHandlerEnv : ActivityHandlerEnv :=
  {| ah_rest := fun _ => {| ar_RequestID := "poll-1";
                            ar_CancelRequestID := common.EmptyEventID;
                            ar_ScheduledTime := 50 |};
     ah_RetryActivity := inr true;
     ah_AddActivityTaskFailedEvent := None;
     ah_AddActivityTaskCanceledEvent := None;
     ah_GetActivityScheduledEvent := inr "scheduled-event";
     ah_AddActivityTaskStartedEvent := inr 200;
     ah_GetWorkflowType := "workflow-type" |}.

(** ** Signal, cancel request and child completion *)

(** [GetWorkflowID] and [GetRunID] of an execution that may be nil. *)
Definition GetWorkflowID (e : option WorkflowExecution) : string :=
  match e with Some e => WorkflowID e | None => "" end.

(** What [SignalWorkflowExecution] reads of its request. *)
Record SignalRequest := {
  sg_SignalName : string;
  sg_Input : list Byte.byte;
  sg_Identity : string;
  sg_RequestID : string;
  sg_ChildWorkflowOnly : bool;
  sg_ExternalWorkflowExecution : option WorkflowExecution;
}.

(** What the configuration and the mutable state answer. *)
Record SignalEnv := {
  sn_CronSchedule : string;
  sn_HasProcessedOrPendingDecision : bool;
  sn_IsWorkflowExecutionRunning : bool;
  sn_MaximumSignalsPerExecution : Z;
  sn_SignalCount : Z;
  sn_ParentWorkflowID : string;
  sn_ParentRunID : string;
  sn_IsSignalRequested : string -> bool;
  sn_AddWorkflowExecutionSignaled : option Error;
}.





Record CancelEnv := {
  cn_IsWorkflowExecutionRunning : bool;
  cn_ParentWorkflowID : string;
  cn_ParentRunID : string;
  cn_IsCancelRequested : bool * string;
  cn_AddWorkflowExecutionCancelRequestedEvent : option Error;
}.




(** The event types [RecordChildExecutionCompleted] tells apart, and any
    other. *)
Inductive CompletionEventType :=
| EventTypeWorkflowExecutionCompleted
| EventTypeWorkflowExecutionFailed
| EventTypeWorkflowExecutionCanceled
| EventTypeWorkflowExecutionTerminated
| EventTypeWorkflowExecutionTimedOut
| EventTypeOther.

Record RecordChildExecutionCompletedRequest := {
  cc_InitiatedID : Z;
  cc_CompletedExecution : option WorkflowExecution;
  cc_CompletionEventType : CompletionEventType;
}.

Inductive ChildCall :=
| AddChildWorkflowExecutionCompletedEvent (initiatedID : Z)
| AddChildWorkflowExecutionFailedEvent (initiatedID : Z)
| AddChildWorkflowExecutionCanceledEvent (initiatedID : Z)
| AddChildWorkflowExecutionTerminatedEvent (initiatedID : Z)
| AddChildWorkflowExecutionTimedOutEvent (initiatedID : Z).

Record ChildEnv := {
  ce_IsWorkflowExecutionRunning : bool;
  ce_GetChildExecutionInfo : Z -> option ChildExecutionInfo;
  ce_AddChildEvent : option Error;
}.

Definition childCall (t : CompletionEventType) (initiatedID : Z) : option ChildCall :=
  match t with
  | EventTypeWorkflowExecutionCompleted =>
      Some (AddChildWorkflowExecutionCompletedEvent initiatedID)
  | EventTypeWorkflowExecutionFailed =>
      Some (AddChildWorkflowExecutionFailedEvent initiatedID)
  | EventTypeWorkflowExecutionCanceled =>
      Some (AddChildWorkflowExecutionCanceledEvent initiatedID)
  | EventTypeWorkflowExecutionTerminated =>
      Some (AddChildWorkflowExecutionTerminatedEvent initiatedID)
  | EventTypeWorkflowExecutionTimedOut =>
      Some (AddChildWorkflowExecutionTimedOutEvent initiatedID)
  | EventTypeOther => None
  end.

(** The action [RecordChildExecutionCompleted] hands to
    [UpdateWithAction].  The [switch] assigns the [err] variable of the
    enclosing function, which the action returns: [err] is its value when
    the action starts, nil on the first run since the domain was found. *)
Definition RecordChildExecutionCompletedAction (env : ChildEnv)
    (completionRequest : RecordChildExecutionCompletedRequest)
    (err : option Error) : option Error * list ChildCall :=
  if negb (ce_IsWorkflowExecutionRunning env) then (Some ErrAlreadyCompleted, [])
  else
    let initiatedID := cc_InitiatedID completionRequest in
    let notFound := EntityNotExistsError "Pending child execution not found." in
    match ce_GetChildExecutionInfo env initiatedID with
    | None => (Some notFound, [])
    | Some ci =>
        if ch_StartedID ci =? common.EmptyEventID then (Some notFound, [])
        else if negb (String.eqb (ch_StartedWorkflowID ci)
                        (GetWorkflowID (cc_CompletedExecution completionRequest)))
        then (Some notFound, [])
        else
          match childCall (cc_CompletionEventType completionRequest) initiatedID with
          | Some call => (ce_AddChildEvent env, [call])
          | None => (err, [])
          end
    end.

Definition sampleSignalEnv (count : Z) (requested : bool) : SignalEnv :=
  {| sn_CronSchedule := "";
     sn_HasProcessedOrPendingDecision := false;
     sn_IsWorkflowExecutionRunning := true;
     sn_MaximumSignalsPerExecution := 10;
     sn_SignalCount := count;
     sn_ParentWorkflowID := "";
     sn_ParentRunID := "";
     sn_IsSignalRequested := fun _ => requested;
     sn_AddWorkflowExecutionSignaled := None |}.

Definition sampleSignalRequest : SignalRequest :=
  {| sg_SignalName := "signal";
     sg_Input := [];
     sg_Identity := "client";
     sg_RequestID := "request-1";
     sg_ChildWorkflowOnly := false;
     sg_ExternalWorkflowExecution := None |}.

Definition sampleCancelEnv : CancelEnv :=
  {| cn_IsWorkflowExecutionRunning := true;
     cn_ParentWorkflowID := "";
     cn_ParentRunID := "";
     cn_IsCancelRequested := (true, "request-1");
     cn_AddWorkflowExecutionCancelRequestedEvent := None |}.

Definition sampleChildEnv : ChildEnv :=
  {| ce_IsWorkflowExecutionRunning := true;
     ce_GetChildExecutionInfo :=
       fun _ => Some {| ch_StartedWorkflowID := "child";
                        ch_StartedRunID := "child-run";
                        ch_WorkflowTypeName := "child-type";
                        ch_InitiatedID := 4;
                        ch_StartedID := 5;
                        ch_ParentClosePolicy := 0 |};
     ce_AddChildEvent := None |}.

(** The number of calls of a log that satisfy [p]. *)
Fixpoint count {A} (p : A -> bool) (log : list A) : nat :=
  match log with
  | [] => 0
  | c :: log => ((if p c then 1 else 0) + count p log)%nat
  end.

(** ** [ResetWorkflowExecution] *)

Module Reset.


(** The mutable state of the base run. *)
Record BaseMutableState := {
  HasProcessedOrPendingDecision : bool;
  GetNextEventID : Z;
  CreateRequestID : string;
  GetCurrentVersion : Z;
  GetCurrentBranchToken : Error + list Byte.byte;
  GetVersionHistories : option (Error + VersionHistory);
}.

(** What the execution cache, the execution manager, the two contexts and
    the resetter answer; [LoadCurrent] is the create-request id of the
    current run when that is not the base run. *)
Record Env := {
  GetOrCreateBase : option Error;
  LoadBase : Error + BaseMutableState;
  GetCurrentExecution : Error + string;
  GetOrCreateCurrent : option Error;
  LoadCurrent : Error + string;
  uuid_New : string;
  ResetWorkflow : option Error;
}.

(** The calls made, in order; an acquisition carries its answer, a
    release the error it is given, and the resetter call says whether it
    was handed a release function for the current run. *)
Inductive Call :=
| GetOrCreateWorkflowExecution (runID : string) (answer : option Error)
| LoadWorkflowExecution (runID : string)
| GetCurrentExecutionCall
| ResetWorkflowCall (baseRunID : string) (baseBranchToken : list Byte.byte)
    (baseRebuildLastEventID baseRebuildLastEventVersion baseNextEventID : Z)
    (resetRunID requestID currentRunID : string) (currentReleaseFn : bool)
    (reason : string) (skipSignalReapply : bool)
| Release (runID : string) (retError : option Error).

Definition Result : Type := (Error + string) * list Call.

Definition retError (r : Result) : option Error :=
  match fst r with inl err => Some err | inr _ => None end.


Definition after (calls : list Call) (r : Result) : Result :=
  (fst r, calls ++ snd r).






End Reset.




(** ** [SignalWithStartWorkflowExecution] *)

Module SignalWithStart.

(** What the loop reads of the mutable state it loads. *)
Record LoadedMutableState := {
  IsWorkflowExecutionRunning : bool;
  SignalCount : Z;
  HasPendingDecision : bool;
}.

(** What the context and the mutable state answer in one turn of the
    loop. *)
Record Attempt := {
  LoadWorkflowExecution : Error + LoadedMutableState;
  AddWorkflowExecutionSignaled : option Error;
  AddDecisionTaskScheduledEvent : option Error;
  UpdateWorkflowExecutionAsActive : option Error;
}.

Record Env := {
  GetActiveDomainByID : Error + Z;
  GetOrCreateWorkflowExecution : option Error;
  attempts : Z -> Attempt;
  WorkflowIDReusePolicy : Z;
  MaximumSignalsPerExecution : Z;
  contextRunID : string;
}.

Inductive Call :=
| Load
| AddSignaled
| AddDecisionScheduled
| Update (answer : option Error).

(** How the handler ends: with a result of its own, or in
    [terminateAndStartWorkflow], or in [getStartRequest] and
    [startWorkflowHelper] with the prior mutable state it found. *)
Inductive Outcome :=
| Return (r : HandlerError + StartWorkflowExecutionResponse)
| TerminateAndStart
| StartAndSignal (prevMutableState : option LoadedMutableState).

Definition is_EntityNotExistsError (err : Error) : bool :=
  match err with EntityNotExistsError _ => true | _ => false end.

(** [Just_Signal_Loop], [fuel] turns before [attempt] reaches
    [ConditionalRetryCount], and the test on [attempt] after it. *)
Fixpoint justSignalLoop (env : Env) (fuel : nat) (attempt : Z)
    : Outcome * list Call :=
  match fuel with
  | O =>
      if attempt =? ConditionalRetryCount then
        (Return (inl (Plain ErrMaxAttemptsExceeded)), [])
      else (StartAndSignal None, [])
  | S fuel =>
      let a := attempts env attempt in
      match LoadWorkflowExecution a with
      | inl err1 =>
          if is_EntityNotExistsError err1 then (StartAndSignal None, [Load])
          else (Return (inl (Plain err1)), [Load])
      | inr mutableState =>
          if negb (IsWorkflowExecutionRunning mutableState) then
            (StartAndSignal (Some mutableState), [Load])
          else if WorkflowIDReusePolicy env
                  =? types.WorkflowIDReusePolicyTerminateIfRunning then
            (TerminateAndStart, [Load])
          else
            let maxAllowedSignals := MaximumSignalsPerExecution env in
            if (0 <? maxAllowedSignals)
               && (maxAllowedSignals <=? SignalCount mutableState) then
              (Return (inl ErrSignalsLimitExceeded), [Load])
            else
              match AddWorkflowExecutionSignaled a with
              | Some _ =>
                  (Return (inl (Plain (InternalServiceError
                                         "Unable to signal workflow execution."))),
                   [Load; AddSignaled])
              | None =>
                  let schedule :=
                    if negb (HasPendingDecision mutableState)
                    then [AddDecisionScheduled] else [] in
                  match (if negb (HasPendingDecision mutableState)
                         then AddDecisionTaskScheduledEvent a else None) with
                  | Some _ =>
                      (Return (inl (Plain (InternalServiceError
                                             "Failed to add decision scheduled event."))),
                       [Load; AddSignaled] ++ schedule)
                  | None =>
                      let answer := UpdateWorkflowExecutionAsActive a in
                      let calls := [Load; AddSignaled] ++ schedule ++ [Update answer] in
                      match answer with
                      | Some err =>
                          if is_ErrConflict err then
                            let '(r, l) := justSignalLoop env fuel (attempt + 1) in
                            (r, calls ++ l)
                          else (Return (inl (Plain err)), calls)
                      | None =>
                          (Return (inr {| resp_RunID := contextRunID env |}), calls)
                      end
                  end
              end
      end
  end.

(** The handler up to where it hands over to the start path.  The
    release of the context is deferred to the return of the handler,
    after the start path when the handler ends there, and is not part of
    this log. *)
Definition SignalWithStartWorkflowExecution (env : Env) : Outcome * list Call :=
  match GetActiveDomainByID env with
  | inl err => (Return (inl (Plain err)), [])
  | inr status =>
      if negb (status =? persistence.DomainStatusRegistered) then
        (Return (inl (Plain errDomainDeprecated)), [])
      else
        match GetOrCreateWorkflowExecution env with
        | None =>
            justSignalLoop env (Z.to_nat ConditionalRetryCount) 0
        | Some err0 =>
            if is_EntityNotExistsError err0 then (StartAndSignal None, [])
            else (Return (inl (Plain err0)), [])
        end
  end.

Definition isUpdate (c : Call) : bool :=
  match c with Update _ => true | _ => false end.

Definition isAcceptedUpdate (c : Call) : bool :=
  match c with Update None => true | _ => false end.

Definition isAddSignaled (c : Call) : bool :=
  match c with AddSignaled => true | _ => false end.

(** A turn of the loop that signals a running workflow and loses the
    update to a conflict. *)
Definition conflictTurn (env : Env) (a : Attempt) : Prop :=
  exists mutableState,
    LoadWorkflowExecution a = inr mutableState
    /\ IsWorkflowExecutionRunning mutableState = true
    /\ (MaximumSignalsPerExecution env <= 0
        \/ SignalCount mutableState < MaximumSignalsPerExecution env)
    /\ AddWorkflowExecutionSignaled a = None
    /\ (HasPendingDecision mutableState = true
        \/ AddDecisionTaskScheduledEvent a = None)
    /\ UpdateWorkflowExecutionAsActive a = Some ErrConflict.

End SignalWithStart.

Definition sampleConflictAttempt : SignalWithStart.Attempt :=
  {| SignalWithStart.LoadWorkflowExecution :=
       inr {| SignalWithStart.IsWorkflowExecutionRunning := true;
              SignalWithStart.SignalCount := 0;
              SignalWithStart.HasPendingDecision := false |};
     SignalWithStart.AddWorkflowExecutionSignaled := None;
     SignalWithStart.AddDecisionTaskScheduledEvent := None;
     SignalWithStart.UpdateWorkflowExecutionAsActive := Some ErrConflict |}.

Definition sampleSignalWithStartEnv : SignalWithStart.Env :=
  {| SignalWithStart.GetActiveDomainByID := inr persistence.DomainStatusRegistered;
     SignalWithStart.GetOrCreateWorkflowExecution := None;
     SignalWithStart.attempts := fun _ => sampleConflictAttempt;
     SignalWithStart.WorkflowIDReusePolicy := types.WorkflowIDReusePolicyAllowDuplicate;
     SignalWithStart.MaximumSignalsPerExecution := 0;
     SignalWithStart.contextRunID := "U1" |}.

(** * Properties *)

(** ** Machine integers *)

Lemma int32_id x : Int.in_int32 x -> Int.int32 x = x.
Proof.
  unfold Int.in_int32, Int.MinInt32, Int.MaxInt32, Int.int32, Int.wrap.
  intros H. rewrite Z.mod_small; lia.
Qed.

Lemma int64_id x : Int.in_int64 x -> Int.int64 x = x.
Proof.
  unfold Int.in_int64, Int.MinInt64, Int.MaxInt64, Int.int64, Int.wrap.
  intros H. rewrite Z.mod_small; lia.
Qed.

(** ** The reuse policy *)




(** ** Start *)

Lemma newChildContext_spec parentDeadline now :
  newChildContext parentDeadline now =
  match parentDeadline with
  | Some deadline =>
      if 0 <? time.Sub deadline now
      then Z.min (time.Sub deadline now) contextLockTimeout
      else contextLockTimeout
  | None => contextLockTimeout
  end.
Proof.
  unfold newChildContext. destruct parentDeadline as [deadline |]; [| reflexivity].
  cbv zeta. destruct (Z.ltb_spec 0 (time.Sub deadline now)); simpl; [| reflexivity].
  destruct (Z.ltb_spec (time.Sub deadline now) contextLockTimeout); lia.
Qed.

(** Past the domain check and the validation, the helper asks for the
    current-run lock under the child timeout and goes on only if it gets it. *)
Lemma startWorkflowHelper_lock env startRequest arg :
  se_DomainStatus env = persistence.DomainStatusRegistered ->
  se_validateStartWorkflowExecutionRequest env = None ->
  let childCtx := newChildContext (se_parentDeadline env) (se_Now env) in
  let acquire := GetOrCreateCurrentWorkflowExecution childCtx (se_DomainID env)
                   (sr_WorkflowID (StartRequest startRequest)) in
  startWorkflowHelper env startRequest arg =
  match se_GetOrCreateCurrentWorkflowExecution env childCtx with
  | Some err =>
      (inl (if is_ContextDeadlineExceeded err then ErrConcurrentStartRequest else err),
       [acquire])
  | None =>
      let m := defer currentRelease (startWorkflowLocked env startRequest arg) in
      (fst m, acquire :: snd m)
  end.
Proof.
  intros Hdom Hval. unfold startWorkflowHelper. rewrite Hdom, Hval. simpl.
  destruct (se_GetOrCreateCurrentWorkflowExecution env _) as [err |].
  - destruct (is_ContextDeadlineExceeded err); reflexivity.
  - reflexivity.
Qed.

(** Until the first creation the only call made is the persisting of the
    first events of the fresh run id. *)
Lemma startWorkflowPrepare_log env startRequest arg args log :
  startWorkflowPrepare env startRequest arg = (inr args, log) ->
  log = [PersistFirstWorkflowEvents (se_uuid_New env)].
Proof.
  unfold startWorkflowPrepare. simpl.
  destruct (se_createMutableState env); simpl; [discriminate |].
  destruct (arg ≫= prevMutableState) as [p |]; simpl.
  - destruct (pm_GetLastWriteVersion p) as [e | v]; simpl; [discriminate |].
    destruct (se_GetCurrentVersion env <? v); simpl; [discriminate |].
    destruct (applyWorkflowIDReusePolicyForSigWithStart _ _ _); simpl; [discriminate |].
    destruct (se_addStartEventsAndTasks env); simpl; [discriminate |].
    destruct (se_CloseTransactionAsSnapshot env); simpl; [discriminate |].
    destruct (se_PersistFirstWorkflowEvents env); simpl; [discriminate |].
    congruence.
  - destruct (se_addStartEventsAndTasks env); simpl; [discriminate |].
    destruct (se_CloseTransactionAsSnapshot env); simpl; [discriminate |].
    destruct (se_PersistFirstWorkflowEvents env); simpl; [discriminate |].
    congruence.
Qed.

(** A plain Start whose first creation is refused with AlreadyStarted under
    another request id, by a prior run that is not ahead in version and is
    not to be terminated, applies the reuse policy to that prior run: it
    fails with the policy's error, or else creates the run anew under
    workflow-id reuse. *)
Lemma startWorkflowCreate_applies_policy env startRequest args t :
  se_CreateWorkflowExecution env 0%nat = Some (PersistenceAlreadyStartedError t) ->
  as_StartRequestID t <> sr_RequestID (StartRequest startRequest) ->
  as_LastWriteVersion t <= se_GetCurrentVersion env ->
  shouldTerminateAndStart startRequest (as_State t) = false ->
  fst (startWorkflowCreate env startRequest None args) =
  match applyWorkflowIDReusePolicyHelper (as_StartRequestID t) (as_RunID t)
          (as_State t) (as_CloseStatus t)
          {| WorkflowID := sr_WorkflowID (StartRequest startRequest);
             RunID := se_uuid_New env |}
          (sr_WorkflowIDReusePolicy (StartRequest startRequest)) with
  | Some err => inl err
  | None =>
      match se_CreateWorkflowExecution env 1%nat with
      | Some err => inl err
      | None => inr {| resp_RunID := se_uuid_New env |}
      end
  end.
Proof.
  intros Hcreate Hid Hver Hterm. unfold startWorkflowCreate.
  rewrite Hcreate. apply String.eqb_neq in Hid. rewrite Hid, Hterm.
  destruct (Z.ltb_spec (se_GetCurrentVersion env) (as_LastWriteVersion t)); [lia |].
  simpl.
  destruct (applyWorkflowIDReusePolicyHelper _ _ _ _ _ _); [reflexivity |].
  simpl. destruct (se_CreateWorkflowExecution env 1%nat); reflexivity.
Qed.

(** C4, as amended. Past the domain check and the validation, Start asks
    for the current-run lock first, under a child timeout that is the
    minimum of the caller's remaining time and 500 ms when the caller has a
    deadline still ahead, and 500 ms when the caller has no deadline or its
    deadline has passed; when the acquisition answers that the deadline was
    exceeded the call fails with ConcurrentStartRequest, having done
    nothing else. *)
Theorem start_lock_child_deadline env startRequest arg :
  se_DomainStatus env = persistence.DomainStatusRegistered ->
  se_validateStartWorkflowExecutionRequest env = None ->
  let child :=
    match se_parentDeadline env with
    | Some deadline =>
        if 0 <? time.Sub deadline (se_Now env)
        then Z.min (time.Sub deadline (se_Now env)) (500 * time_Millisecond)
        else 500 * time_Millisecond
    | None => 500 * time_Millisecond
    end in
  let acquire := GetOrCreateCurrentWorkflowExecution child (se_DomainID env)
                   (sr_WorkflowID (StartRequest startRequest)) in
  (exists rest, snd (startWorkflowHelper env startRequest arg) = acquire :: rest)
  /\ (se_GetOrCreateCurrentWorkflowExecution env child = Some ContextDeadlineExceeded ->
      startWorkflowHelper env startRequest arg = (inl ErrConcurrentStartRequest, [acquire])).
Proof.
  intros Hdom Hval child acquire.
  pose proof (startWorkflowHelper_lock env startRequest arg Hdom Hval) as H.
  cbv zeta in H. rewrite newChildContext_spec in H.
  fold contextLockTimeout in child. fold child in H. fold acquire in H.
  split.
  - rewrite H. destruct (se_GetOrCreateCurrentWorkflowExecution env child); simpl; eauto.
  - intros Hlock. rewrite H, Hlock. reflexivity.
Qed.

Lemma start_lock_child_deadline_witness :
  startWorkflowHelper
    (sampleEnv (Some (2000 + 200 * time_Millisecond)) 2000
       (Some ContextDeadlineExceeded) None (sampleAttempt None None))
    (sampleStart "R2" types.WorkflowIDReusePolicyAllowDuplicate) None
  = (inl ErrConcurrentStartRequest,
     [GetOrCreateCurrentWorkflowExecution (200 * time_Millisecond) "D" "W"]).
Proof.
  destruct (start_lock_child_deadline
              (sampleEnv (Some (2000 + 200 * time_Millisecond)) 2000
                 (Some ContextDeadlineExceeded) None (sampleAttempt None None))
              (sampleStart "R2" types.WorkflowIDReusePolicyAllowDuplicate) None
              eq_refl eq_refl) as [_ H].
  exact (H eq_refl).
Defined.

(** C4, as stated, fails for a caller whose deadline has already passed:
    1000 ns before now the remaining time is -1000 ns, and the lock is
    asked for under 500 ms, not under the minimum of the two. *)
Lemma start_lock_expired_deadline :
  let env := sampleEnv (Some 1000) 2000 None None (sampleAttempt None None) in
  let startRequest := sampleStart "R2" types.WorkflowIDReusePolicyAllowDuplicate in
  se_DomainStatus env = persistence.DomainStatusRegistered
  /\ se_validateStartWorkflowExecutionRequest env = None
  /\ time.Sub 1000 2000 = -1000
  /\ (exists rest, snd (startWorkflowHelper env startRequest None)
                   = GetOrCreateCurrentWorkflowExecution (500 * time_Millisecond) "D" "W"
                     :: rest)
  /\ ~ (exists rest, snd (startWorkflowHelper env startRequest None)
                     = GetOrCreateCurrentWorkflowExecution
                         (Z.min (time.Sub 1000 2000) (500 * time_Millisecond)) "D" "W"
                       :: rest).
Proof.
  cbv zeta. repeat split.
  - eexists. vm_compute. reflexivity.
  - intros [rest H]. vm_compute in H. discriminate H.
Qed.

(** C2, as amended. When the first CreateWorkflowExecution of a Start is
    refused with AlreadyStarted carrying the request's own request id, the
    call returns success with the prior run's run id, and all it has done
    is: take the current-run lock, persist the first events of the fresh
    run id, make that one refused creation, release the lock with no
    error.  So no run is created and nothing is written after the refusal,
    while the first events of the abandoned run id were persisted before
    the creation was tried. *)
Theorem start_idempotent_on_request_id env startRequest arg args log t :
  se_DomainStatus env = persistence.DomainStatusRegistered ->
  se_validateStartWorkflowExecutionRequest env = None ->
  se_GetOrCreateCurrentWorkflowExecution env
    (newChildContext (se_parentDeadline env) (se_Now env)) = None ->
  startWorkflowPrepare env startRequest arg = (inr args, log) ->
  se_CreateWorkflowExecution env 0%nat = Some (PersistenceAlreadyStartedError t) ->
  as_StartRequestID t = sr_RequestID (StartRequest startRequest) ->
  startWorkflowHelper env startRequest arg =
  (inr {| resp_RunID := as_RunID t |},
   [ GetOrCreateCurrentWorkflowExecution
       (newChildContext (se_parentDeadline env) (se_Now env)) (se_DomainID env)
       (sr_WorkflowID (StartRequest startRequest));
     PersistFirstWorkflowEvents (se_uuid_New env);
     CreateWorkflowExecution (se_uuid_New env) (ca_createMode args)
       (ca_prevRunID args) (ca_prevLastWriteVersion args)
       (Some (PersistenceAlreadyStartedError t));
     currentRelease None ]).
Proof.
  intros Hdom Hval Hlock Hprep Hcreate Hid.
  pose proof (startWorkflowPrepare_log _ _ _ _ _ Hprep) as ->.
  rewrite (startWorkflowHelper_lock env startRequest arg Hdom Hval).
  cbv zeta. rewrite Hlock.
  unfold defer, retError, startWorkflowLocked. rewrite Hprep.
  unfold startWorkflowCreate. rewrite Hcreate, Hid, String.eqb_refl.
  reflexivity.
Qed.

Lemma start_idempotent_on_request_id_witness :
  startWorkflowHelper
    (sampleEnv None 2000 None
       (Some (PersistenceAlreadyStartedError
                (samplePrior persistence.WorkflowStateRunning
                   persistence.WorkflowCloseStatusNone)))
       (sampleAttempt None None))
    (sampleStart "R1" types.WorkflowIDReusePolicyAllowDuplicate) None
  = (inr {| resp_RunID := "U1" |},
     [ GetOrCreateCurrentWorkflowExecution (500 * time_Millisecond) "D" "W";
       PersistFirstWorkflowEvents "U2";
       CreateWorkflowExecution "U2" persistence.CreateWorkflowModeBrandNew "" 0
         (Some (PersistenceAlreadyStartedError
                  (samplePrior persistence.WorkflowStateRunning
                     persistence.WorkflowCloseStatusNone)));
       currentRelease None ]).
Proof.
  exact (start_idempotent_on_request_id
           (sampleEnv None 2000 None
              (Some (PersistenceAlreadyStartedError
                       (samplePrior persistence.WorkflowStateRunning
                          persistence.WorkflowCloseStatusNone)))
              (sampleAttempt None None))
           (sampleStart "R1" types.WorkflowIDReusePolicyAllowDuplicate) None
           {| ca_createMode := persistence.CreateWorkflowModeBrandNew;
              ca_prevRunID := ""; ca_prevLastWriteVersion := 0 |}
           [PersistFirstWorkflowEvents "U2"]
           (samplePrior persistence.WorkflowStateRunning
              persistence.WorkflowCloseStatusNone)
           eq_refl eq_refl eq_refl eq_refl eq_refl eq_refl).
Defined.

(** C2, as stated, fails: a Start repeated under request id "R1" returns
    the prior run "U1", yet it has persisted the first events of the fresh
    run id "U2" before its creation was refused. *)
Lemma start_idempotent_persists_first_events :
  let t := samplePrior persistence.WorkflowStateRunning
             persistence.WorkflowCloseStatusNone in
  let env := sampleEnv None 2000 None (Some (PersistenceAlreadyStartedError t))
               (sampleAttempt None None) in
  let startRequest := sampleStart "R1" types.WorkflowIDReusePolicyAllowDuplicate in
  se_CreateWorkflowExecution env 0%nat = Some (PersistenceAlreadyStartedError t)
  /\ as_StartRequestID t = sr_RequestID (StartRequest startRequest)
  /\ fst (startWorkflowHelper env startRequest None) = inr {| resp_RunID := "U1" |}
  /\ ~ noHistoryEventsPersisted (snd (startWorkflowHelper env startRequest None)).
Proof.
  cbv zeta. repeat split.
  intros H. apply (H "U2"). vm_compute. auto.
Qed.

(** ** Terminate-and-start *)

Lemma shouldTerminateAndStart_spec startRequest state :
  shouldTerminateAndStart startRequest state = true <->
  sr_WorkflowIDReusePolicy (StartRequest startRequest)
    = types.WorkflowIDReusePolicyTerminateIfRunning
  /\ (state = persistence.WorkflowStateCreated
      \/ state = persistence.WorkflowStateRunning).
Proof.
  unfold shouldTerminateAndStart.
  rewrite andb_true_iff, orb_true_iff, !Z.eqb_eq. tauto.
Qed.

Lemma getTerminateIfRunningDetails_bytes newRunID :
  getTerminateIfRunningDetails newRunID
  = bytes_of_string ("New runID: " +:+ newRunID).
Proof. reflexivity. Qed.

Lemma countTerminate_app l1 l2 :
  countTerminate (l1 ++ l2) = (countTerminate l1 + countTerminate l2)%nat.
Proof. unfold countTerminate. now rewrite filter_app, length_app. Qed.

(** The loop terminates the prior run at most once a turn, each time with
    the policy's reason and the details naming the new run. *)
Lemma UpdateWorkflowLoop_terminate_calls env prevRunID we sws fuel attempt :
  (countTerminate (snd (UpdateWorkflowLoop env prevRunID we sws fuel attempt))
   <= fuel)%nat
  /\ forall runID first reason details identity,
       In (TerminateWorkflow runID first reason details identity)
          (snd (UpdateWorkflowLoop env prevRunID we sws fuel attempt)) ->
       runID = prevRunID
       /\ reason = "TerminateIfRunning Policy"
       /\ details = bytes_of_string ("New runID: " +:+ RunID we).
Proof.
  revert attempt. induction fuel as [| fuel IH]; intros attempt.
  - simpl. split; [unfold countTerminate; simpl; lia | intros; contradiction].
  - specialize (IH (attempt + 1)). destruct IH as [IHc IHi].
    set (rest := UpdateWorkflowLoop env prevRunID we sws fuel (attempt + 1)) in *.
    assert (Hshape :
      exists pre post,
        snd (UpdateWorkflowLoop env prevRunID we sws (S fuel) attempt)
        = pre ++ post
        /\ (countTerminate pre <= 1)%nat
        /\ (post = [] \/ post = snd rest)
        /\ forall runID first reason details identity,
             In (TerminateWorkflow runID first reason details identity) pre ->
             runID = prevRunID
             /\ reason = "TerminateIfRunning Policy"
             /\ details = bytes_of_string ("New runID: " +:+ RunID we)).
    { cbn [UpdateWorkflowLoop]. fold rest.
      destruct (ae_IsWorkflowExecutionRunning (env attempt)); simpl.
      2:{ exists [], []. simpl. unfold countTerminate. simpl.
          repeat split; auto; try lia; contradiction. }
      assert (Hpre : forall tail runID first reason details identity,
                 (forall x, In x tail -> isTerminateWorkflow x = false) ->
                 In (TerminateWorkflow runID first reason details identity)
                    (TerminateWorkflow prevRunID (ae_GetNextEventID (env attempt))
                       TerminateIfRunningReason
                       (getTerminateIfRunningDetails (RunID we))
                       IdentityHistoryService :: tail) ->
                 runID = prevRunID
                 /\ reason = "TerminateIfRunning Policy"
                 /\ details = bytes_of_string ("New runID: " +:+ RunID we)).
      { intros tail runID first reason details identity Htail [H | H].
        - inversion H; subst. auto.
        - apply Htail in H. discriminate H. }
      destruct (ae_TerminateWorkflow (env attempt)) as [err |].
      - destruct (is_ErrStaleState err); simpl.
        + destruct (negb (attempt =? ConditionalRetryCount - 1)); simpl.
          * destruct (ae_ReloadMutableState (env attempt)); simpl.
            -- eexists _, []. rewrite app_nil_r. split; [reflexivity |].
               split; [unfold countTerminate; simpl; lia |].
               split; [auto |]. intros. eapply Hpre; [| eassumption].
               simpl. intros x [<- | [<- | []]]; reflexivity.
            -- destruct rest as [r l]. simpl.
               exists [TerminateWorkflow prevRunID (ae_GetNextEventID (env attempt))
                         TerminateIfRunningReason
                         (getTerminateIfRunningDetails (RunID we))
                         IdentityHistoryService; ContextClear; ReloadMutableState], l.
               split; [reflexivity |].
               split; [unfold countTerminate; simpl; lia |].
               split; [auto |]. intros. eapply Hpre; [| eassumption].
               simpl. intros x [<- | [<- | []]]; reflexivity.
          * destruct rest as [r l]. simpl.
            exists [TerminateWorkflow prevRunID (ae_GetNextEventID (env attempt))
                      TerminateIfRunningReason
                      (getTerminateIfRunningDetails (RunID we))
                      IdentityHistoryService; ContextClear], l.
            split; [reflexivity |].
            split; [unfold countTerminate; simpl; lia |].
            split; [auto |]. intros. eapply Hpre; [| eassumption].
            simpl. intros x [<- | []]; reflexivity.
        + eexists _, []. rewrite app_nil_r. split; [reflexivity |].
          split; [unfold countTerminate; simpl; lia |].
          split; [auto |]. intros. eapply Hpre; [| eassumption].
          simpl. intros x [].
      - destruct (ae_createMutableState (env attempt)); simpl.
        { eexists _, []. rewrite app_nil_r. split; [reflexivity |].
          split; [unfold countTerminate; simpl; lia |].
          split; [auto |]. intros. eapply Hpre; [| eassumption].
          simpl. intros x []. }
        assert (Hsws : (if sws then check (ae_getStartRequest (env attempt)) else ret tt)
                       = (inr tt, [])
                       \/ exists e, (if sws then check (ae_getStartRequest (env attempt))
                                     else ret tt) = (inl e, [])).
        { destruct sws; [| auto].
          destruct (ae_getStartRequest (env attempt)); simpl; eauto. }
        destruct Hsws as [-> | [e ->]]; simpl.
        2:{ eexists _, []. rewrite app_nil_r. split; [reflexivity |].
            split; [unfold countTerminate; simpl; lia |].
            split; [auto |]. intros. eapply Hpre; [| eassumption].
            simpl. intros x []. }
        destruct (ae_addStartEventsAndTasks (env attempt)); simpl.
        { eexists _, []. rewrite app_nil_r. split; [reflexivity |].
          split; [unfold countTerminate; simpl; lia |].
          split; [auto |]. intros. eapply Hpre; [| eassumption].
          simpl. intros x []. }
        destruct (ae_UpdateWorkflowExecutionWithNewAsActive (env attempt)) as [err |].
        + destruct (is_ErrConflict err); simpl.
          * destruct rest as [r l]. simpl.
            exists [TerminateWorkflow prevRunID (ae_GetNextEventID (env attempt))
                      TerminateIfRunningReason
                      (getTerminateIfRunningDetails (RunID we))
                      IdentityHistoryService;
                    UpdateWorkflowExecutionWithNewAsActive prevRunID (RunID we)
                      (Some err)], l.
            split; [reflexivity |].
            split; [unfold countTerminate; simpl; lia |].
            split; [auto |]. intros. eapply Hpre; [| eassumption].
            simpl. intros x [<- | []]; reflexivity.
          * eexists _, []. rewrite app_nil_r. split; [reflexivity |].
            split; [unfold countTerminate; simpl; lia |].
            split; [auto |]. intros. eapply Hpre; [| eassumption].
            simpl. intros x [<- | []]; reflexivity.
        + simpl. eexists _, []. rewrite app_nil_r. split; [reflexivity |].
          split; [unfold countTerminate; simpl; lia |].
          split; [auto |]. intros. eapply Hpre; [| eassumption].
          simpl. intros x [<- | []]; reflexivity. }
    destruct Hshape as (pre & post & -> & Hc & Hpost & Hin).
    split.
    + rewrite countTerminate_app.
      destruct Hpost as [-> | ->]; [unfold countTerminate at 2; simpl; lia | lia].
    + intros runID first reason details identity H.
      apply in_app_or in H. destruct H as [H | H]; [eauto |].
      destruct Hpost as [-> | ->]; [contradiction | eauto].
Qed.

(** When every turn finds the prior run running and stale, the loop runs
    out of turns without one update and still reaches the final return. *)
Lemma UpdateWorkflowLoop_all_stale env prevRunID we sws fuel attempt :
  (forall i, ae_IsWorkflowExecutionRunning (env i) = true
             /\ ae_TerminateWorkflow (env i) = Some ErrStaleState
             /\ ae_ReloadMutableState (env i) = None) ->
  let m := UpdateWorkflowLoop env prevRunID we sws fuel attempt in
  fst m = inr {| resp_RunID := RunID we |}
  /\ existsb isCommitted (snd m) = false
  /\ countTerminate (snd m) = fuel.
Proof.
  intros Henv. revert attempt. induction fuel as [| fuel IH]; intros attempt.
  - simpl. auto.
  - specialize (IH (attempt + 1)). cbv zeta in IH.
    cbn [UpdateWorkflowLoop].
    destruct (Henv attempt) as (-> & -> & ->). cbn [negb is_ErrStaleState].
    destruct (UpdateWorkflowLoop env prevRunID we sws fuel (attempt + 1))
      as [r l] eqn:E.
    simpl in IH. destruct IH as (-> & Hc & Hn).
    assert (Hcons : forall pre,
               existsb isCommitted pre = false ->
               countTerminate pre = 1%nat ->
               existsb isCommitted (pre ++ l) = false
               /\ countTerminate (pre ++ l) = S fuel).
    { intros pre H1 H2. rewrite existsb_app, H1, Hc, countTerminate_app, H2, Hn.
      auto. }
    destruct (negb (attempt =? ConditionalRetryCount - 1)); simpl;
      (split; [reflexivity |]).
    + split; [exact Hc |].
      match goal with
      | |- countTerminate (?a :: ?b :: ?c :: l) = _ =>
          exact (proj2 (Hcons [a; b; c] eq_refl eq_refl))
      end.
    + split; [exact Hc |].
      match goal with
      | |- countTerminate (?a :: ?b :: l) = _ =>
          exact (proj2 (Hcons [a; b] eq_refl eq_refl))
      end.
Qed.


(** The same happens when every turn ends in a conflict on the update:
    five refused updates, then success. *)
Example terminate_and_start_conflicts_exhausted :
  let m := terminateAndStartWorkflow (fun _ => sampleAttempt None (Some ErrConflict))
             "U1" {| WorkflowID := "W"; RunID := "U2" |} false in
  fst m = inr {| resp_RunID := "U2" |}
  /\ existsb isCommitted (snd m) = false
  /\ countTerminate (snd m) = 5%nat.
Proof. cbv zeta. repeat split. Qed.

(** ** Activity handlers *)

Lemma activityTaskNotFound_spec token ai :
  activityTaskNotFound token ai = true <->
  match ai with
  | None => True
  | Some ai =>
      ai_StartedID ai = common.EmptyEventID
      \/ (tk_ScheduleID token <> common.EmptyEventID
          /\ tk_ScheduleAttempt token <> ai_Attempt ai)
  end.
Proof.
  unfold activityTaskNotFound. destruct ai as [ai |]; [| tauto].
  rewrite orb_true_iff, andb_true_iff, !negb_true_iff, Z.eqb_eq, !Z.eqb_neq.
  tauto.
Qed.

(** C5, as amended. In RespondActivityTaskCompleted: a workflow that is
    not running gives AlreadyCompleted; a missing activity whose schedule
    id is at least the next event id gives the StaleState sentinel; a
    missing activity below the next event id, an activity not yet started,
    and a token that carries a schedule id and names another attempt than
    the activity's give ActivityTaskNotFound; in all these cases the
    mutable state is left as it was. *)
Theorem respond_activity_completed_guards token result mutableState :
  let call := RespondActivityTaskCompleted token result mutableState in
  (IsWorkflowExecutionRunning mutableState = false ->
   call = (Some ErrAlreadyCompleted, mutableState))
  /\ (forall scheduleID,
        IsWorkflowExecutionRunning mutableState = true ->
        resolveScheduleID token mutableState = inr scheduleID ->
        (GetActivityInfo mutableState scheduleID = None ->
         GetNextEventID mutableState <= scheduleID ->
         call = (Some ErrStaleState, mutableState))
        /\ (GetActivityInfo mutableState scheduleID = None ->
            scheduleID < GetNextEventID mutableState ->
            call = (Some ErrActivityTaskNotFound, mutableState))
        /\ (forall ai,
              GetActivityInfo mutableState scheduleID = Some ai ->
              ai_StartedID ai = common.EmptyEventID
              \/ (tk_ScheduleID token <> common.EmptyEventID
                  /\ tk_ScheduleAttempt token <> ai_Attempt ai) ->
              call = (Some ErrActivityTaskNotFound, mutableState))).
Proof.
  cbv zeta. unfold RespondActivityTaskCompleted. split.
  - intros ->. reflexivity.
  - intros scheduleID -> ->. cbn [negb]. cbv zeta. repeat split.
    + intros -> Hge. simpl. destruct (Z.leb_spec (GetNextEventID mutableState) scheduleID);
        [reflexivity | lia].
    + intros -> Hlt. simpl. destruct (Z.leb_spec (GetNextEventID mutableState) scheduleID);
        [lia | reflexivity].
    + intros ai -> Hnf.
      assert (E : activityTaskNotFound token (Some ai) = true)
        by (apply activityTaskNotFound_spec; exact Hnf).
      cbn [bool_decide decide_rel negb andb]. now rewrite E.
Qed.

Lemma respond_activity_completed_guards_witness :
  RespondActivityTaskCompleted (sampleToken 5 0) []
    (sampleMutableState (sampleActivity 2 false))
  = (Some ErrActivityTaskNotFound, sampleMutableState (sampleActivity 2 false)).
Proof.
  destruct (respond_activity_completed_guards (sampleToken 5 0) []
              (sampleMutableState (sampleActivity 2 false))) as [_ H].
  destruct (H 5 eq_refl eq_refl) as (_ & _ & H3).
  apply (H3 (sampleActivity 2 false)); [reflexivity |].
  right. split; discriminate.
Defined.

(** C5, as stated, fails for a completion by activity id: the token has no
    schedule id, its attempt 0 is not the activity's attempt 2, and the
    activity is completed all the same. *)
Lemma respond_activity_completed_by_id_ignores_attempt :
  let token := sampleToken common.EmptyEventID 0 in
  let ai := sampleActivity 2 false in
  let mutableState := sampleMutableState ai in
  let call := RespondActivityTaskCompleted token [] mutableState in
  IsWorkflowExecutionRunning mutableState = true
  /\ resolveScheduleID token mutableState = inr 5
  /\ GetActivityInfo mutableState 5 = Some ai
  /\ tk_ScheduleAttempt token <> ai_Attempt ai
  /\ fst call = None
  /\ ms_events (snd call) = [ActivityTaskCompleted 8 5 6 []]
  /\ ~ (call = (Some ErrActivityTaskNotFound, mutableState)).
Proof.
  cbv zeta. repeat split; discriminate.
Qed.

(** The heartbeat action touches nothing but the pending activity map. *)
Lemma heartbeat_action_frame token details now mutableState :
  let ms' := snd (fst (RecordActivityTaskHeartbeatAction token details now mutableState)) in
  ms_State ms' = ms_State mutableState
  /\ ms_CloseStatus ms' = ms_CloseStatus mutableState
  /\ ms_NextEventID ms' = ms_NextEventID mutableState
  /\ ms_events ms' = ms_events mutableState
  /\ ms_pendingActivityIDToEventID ms' = ms_pendingActivityIDToEventID mutableState.
Proof.
  cbv zeta. unfold RecordActivityTaskHeartbeatAction.
  destruct (negb (IsWorkflowExecutionRunning mutableState)); [simpl; auto |].
  destruct (resolveScheduleID token mutableState) as [e | scheduleID]; [simpl; auto |].
  cbv zeta.
  destruct (negb (bool_decide (is_Some (GetActivityInfo mutableState scheduleID)))
            && (GetNextEventID mutableState <=? scheduleID)); [simpl; auto |].
  destruct (activityTaskNotFound token (GetActivityInfo mutableState scheduleID));
    [simpl; auto |].
  destruct (GetActivityInfo mutableState scheduleID); simpl; auto.
Qed.

(** C9. RecordActivityTaskHeartbeat never changes the workflow state, the
    close status or the next event id, appends no history event and asks
    for no decision task; when
    it succeeds, the workflow is running, the activity is pending and
    started, the mutable state differs from the one before only in that
    activity's details and last heartbeat time, and the response's
    CancelRequested is the activity's cancel-requested flag as it was at
    the call. *)
Theorem heartbeat_only_updates_progress token details now mutableState :
  let '(resp, err, ms') := RecordActivityTaskHeartbeat token details now mutableState in
  (ms_State ms' = ms_State mutableState
   /\ ms_CloseStatus ms' = ms_CloseStatus mutableState
   /\ ms_NextEventID ms' = ms_NextEventID mutableState
   /\ ms_events ms' = ms_events mutableState
   /\ RecordActivityTaskHeartbeat_createDecisionTask = false)
  /\ (err = None ->
      IsWorkflowExecutionRunning mutableState = true
      /\ exists scheduleID ai,
           resolveScheduleID token mutableState = inr scheduleID
           /\ GetActivityInfo mutableState scheduleID = Some ai
           /\ ai_StartedID ai <> common.EmptyEventID
           /\ ms' = UpdateActivityProgress mutableState scheduleID ai details now
           /\ (forall other, other <> scheduleID ->
                 GetActivityInfo ms' other = GetActivityInfo mutableState other)
           /\ (exists ai', GetActivityInfo ms' scheduleID = Some ai'
                 /\ ai_Details ai' = details
                 /\ ai_LastHeartBeatUpdatedTime ai' = now
                 /\ ai_ScheduleID ai' = ai_ScheduleID ai
                 /\ ai_StartedID ai' = ai_StartedID ai
                 /\ ai_ActivityID ai' = ai_ActivityID ai
                 /\ ai_Attempt ai' = ai_Attempt ai
                 /\ ai_CancelRequested ai' = ai_CancelRequested ai
                 /\ ai_StartedTime ai' = ai_StartedTime ai
                 /\ ai_TaskList ai' = ai_TaskList ai)
           /\ CancelRequested resp = ai_CancelRequested ai).
Proof.
  pose proof (heartbeat_action_frame token details now mutableState) as Hframe.
  cbv zeta in Hframe. unfold RecordActivityTaskHeartbeat.
  destruct (RecordActivityTaskHeartbeatAction token details now mutableState)
    as [[err ms'] cancelRequested] eqn:E.
  simpl in Hframe. destruct Hframe as (H1 & H2 & H3 & H4 & _).
  destruct err as [e |]; (split; [auto 10 |]); [discriminate |].
  intros _. revert E. unfold RecordActivityTaskHeartbeatAction.
  destruct (IsWorkflowExecutionRunning mutableState); simpl; [| discriminate].
  destruct (resolveScheduleID token mutableState) as [e | scheduleID]; [discriminate |].
  cbv zeta.
  destruct (negb (bool_decide (is_Some (GetActivityInfo mutableState scheduleID)))
            && (GetNextEventID mutableState <=? scheduleID)); [discriminate |].
  destruct (activityTaskNotFound token (GetActivityInfo mutableState scheduleID))
    eqn:Enf; [discriminate |].
  destruct (GetActivityInfo mutableState scheduleID) as [ai |] eqn:Eai; [| discriminate].
  intros [= <- <-]. split; [reflexivity |].
  exists scheduleID, ai. repeat split.
  - exact Eai.
  - intros Hs. simpl in Enf. rewrite Hs, Z.eqb_refl in Enf. discriminate Enf.
  - intros other Hne. unfold GetActivityInfo, UpdateActivityProgress. simpl.
    now apply lookup_insert_ne.
  - eexists. split.
    + unfold GetActivityInfo, UpdateActivityProgress. simpl. apply lookup_insert_eq.
    + simpl. repeat split.
Qed.

Lemma heartbeat_only_updates_progress_witness :
  let call := RecordActivityTaskHeartbeat (sampleToken 5 2) [Byte.x01] 999
                (sampleMutableState (sampleActivity 2 true)) in
  CancelRequested (fst (fst call)) = true
  /\ ms_NextEventID (snd call) = 8
  /\ ms_events (snd call) = [].
Proof.
  cbv zeta.
  pose proof (heartbeat_only_updates_progress (sampleToken 5 2) [Byte.x01] 999
                (sampleMutableState (sampleActivity 2 true))) as H.
  destruct (RecordActivityTaskHeartbeat (sampleToken 5 2) [Byte.x01] 999
              (sampleMutableState (sampleActivity 2 true)))
    as [[resp err] ms'] eqn:E.
  assert (Herr : err = None) by (vm_compute in E; congruence).
  destruct H as [(_ & _ & H3 & H4 & _) H'].
  destruct (H' Herr) as (_ & scheduleID & ai & Hres & Hai & _ & _ & _ & _ & Hc).
  vm_compute in Hres. injection Hres as <-.
  vm_compute in Hai. injection Hai as <-.
  simpl. repeat split; assumption.
Defined.

(** ** Query routing *)




(** ** Long poll *)

Lemma bytes_Equal_spec a b : bytes_Equal a b = true <-> a = b.
Proof. unfold bytes_Equal. apply bool_decide_eq_true. Qed.

(** A caller that names an expected next event id below the current one
    of a run that has at least its start event passes the code's test on
    [expectedNextEventID]. *)
Lemma expectedNextEventID_below request next :
  gr_ExpectedNextEventID request < next ->
  common.FirstEventID < next ->
  expectedNextEventID request < next.
Proof.
  unfold expectedNextEventID.
  destruct (Z.eqb_spec (gr_ExpectedNextEventID request) 0); simpl; lia.
Qed.

(** C7. In GetMutableState, once the mutable state is loaded: a caller
    that supplies a branch token other than the run's current one gets
    CurrentBranchChanged; otherwise, if the expected next event id is
    below the current next event id, or the workflow is not running, the
    call returns the loaded snapshot at once and never subscribes to the
    history-event notifier.  The expected next event id is the code's
    [expectedNextEventID]: the caller's value, 0 standing for the first
    event id; for a run that has its start event the same holds of the
    caller's raw value. *)
Theorem get_mutable_state_branch_and_immediate env request response :
  pe_ValidateDomainUUID env = None ->
  pe_getMutableState env 0%nat = inr response ->
  (forall token,
     gr_CurrentBranchToken request = Some token ->
     token <> r_CurrentBranchToken response ->
     exists msg,
       getMutableStateOrPolling env request
       = (Some (inl (CurrentBranchChangedError msg (r_CurrentBranchToken response))),
          []))
  /\ ((gr_CurrentBranchToken request = None
       \/ gr_CurrentBranchToken request = Some (r_CurrentBranchToken response)) ->
      (expectedNextEventID request < r_NextEventID response
       \/ (gr_ExpectedNextEventID request < r_NextEventID response
           /\ common.FirstEventID < r_NextEventID response)
       \/ r_IsWorkflowRunning response = false) ->
      getMutableStateOrPolling env request = (Some (inr response), [])).
Proof.
  intros Hval Hget. unfold getMutableStateOrPolling. rewrite Hval, Hget. split.
  - intros token -> Hne. unfold bytes_Equal. simpl.
    rewrite (bool_decide_eq_false_2 _ Hne). simpl. eauto.
  - intros Htok Hnow.
    assert (E : default (r_CurrentBranchToken response)
                  (gr_CurrentBranchToken request)
                = r_CurrentBranchToken response)
      by (destruct Htok as [-> | ->]; reflexivity).
    rewrite E. unfold bytes_Equal.
    rewrite (bool_decide_eq_true_2 _ eq_refl). cbn [negb]. cbv zeta.
    assert (Hnow' : expectedNextEventID request < r_NextEventID response
                    \/ r_IsWorkflowRunning response = false).
    { destruct Hnow as [H | [[H1 H2] | H]]; auto.
      left. now apply expectedNextEventID_below. }
    destruct Hnow' as [H | H].
    + destruct (Z.leb_spec (r_NextEventID response) (expectedNextEventID request));
        [lia | reflexivity].
    + rewrite H, andb_false_r. reflexivity.
Qed.

Lemma get_mutable_state_branch_and_immediate_witness :
  getMutableStateOrPolling (samplePollEnv (sampleResponse 8 true)) (sampleGet 7 None)
  = (Some (inr (sampleResponse 8 true)), []).
Proof.
  apply (get_mutable_state_branch_and_immediate
           (samplePollEnv (sampleResponse 8 true)) (sampleGet 7 None)
           (sampleResponse 8 true) eq_refl eq_refl).
  - left. reflexivity.
  - left. reflexivity.
Defined.

(** ** Domain failover callback *)

Lemma maxNotificationVersion_attained l m :
  maxNotificationVersion l = Some m ->
  exists d, In d l /\ d_NotificationVersion d = m.
Proof.
  revert m. induction l as [| d rest IH]; intros m; simpl; [discriminate |].
  destruct (maxNotificationVersion rest) as [m' |].
  - intros [= <-]. destruct (Z.max_spec (d_NotificationVersion d) m') as [[_ ->] | [_ ->]].
    + destruct (IH m' eq_refl) as (x & Hx & Hm). eauto.
    + eauto.
  - intros [= <-]. eauto.
Qed.

Lemma maxNotificationVersion_bound l v :
  (forall d, In d l -> d_NotificationVersion d <= v) ->
  (exists d, In d l /\ d_NotificationVersion d = v) ->
  maxNotificationVersion l = Some v.
Proof.
  induction l as [| d rest IH]; intros Hle (x & Hx & Hv); [contradiction |].
  simpl. f_equal.
  assert (Hd : d_NotificationVersion d <= v) by (apply Hle; now left).
  destruct (maxNotificationVersion rest) as [m |] eqn:E.
  - destruct (maxNotificationVersion_attained rest m E) as (y & Hy & Hm).
    assert (m <= v) by (rewrite <- Hm; apply Hle; now right).
    destruct Hx as [-> | Hx]; [lia |].
    assert (Some m = Some v) as [= ->]; [| lia].
    apply IH; [intros; apply Hle; now right | eauto].
  - destruct Hx as [-> | Hx]; [assumption |].
    destruct rest; [contradiction | discriminate E].
Qed.

Lemma ascending_last_max l lastDomain :
  ascending l -> last l = Some lastDomain ->
  maxNotificationVersion l = Some (d_NotificationVersion lastDomain).
Proof.
  intros Hasc Hlast. apply last_Some in Hlast as [l' ->].
  apply maxNotificationVersion_bound.
  - intros d Hd. apply list_elem_of_In, list_elem_of_lookup in Hd as [i Hi].
    apply (Hasc i (length l') d lastDomain Hi).
    + rewrite lookup_app_r by lia. now rewrite Nat.sub_diag.
    + apply lookup_lt_Some in Hi. rewrite length_app in Hi. simpl in Hi. lia.
  - exists lastDomain. split; [| reflexivity]. apply in_or_app. right. now left.
Qed.

Lemma needsFailoverMarker_spec env shardNotificationVersion d :
  needsFailoverMarker env shardNotificationVersion d = true <->
  d_IsGlobalDomain d = true
  /\ shardNotificationVersion <= d_FailoverNotificationVersion d
  /\ d_ActiveClusterName d <> fe_currentClusterName env
  /\ d_PreviousFailoverVersion d <> common.InitialPreviousFailoverVersion
  /\ fe_ClusterNameForFailoverVersion env (d_PreviousFailoverVersion d)
     = fe_currentClusterName env.
Proof.
  unfold needsFailoverMarker.
  rewrite !andb_true_iff, !negb_true_iff, Z.leb_le, Z.eqb_neq,
    String.eqb_eq, String.eqb_neq. tauto.
Qed.

(** C8, as amended. In the commit callback, for a non-empty batch:
    failover markers are built for exactly the global domains whose
    failover-notification version is at least the shard's recorded one,
    whose active cluster is not this cluster, and whose previous failover
    version is not the initial one and maps to this cluster; they are
    handed to the replication queue, and if that fails the shard's
    domain-notification version is not updated; otherwise it is updated,
    once, to the notification version of the last domain of the batch plus
    1, which is the largest notification version of the batch plus 1 when
    the batch is ordered by ascending notification version. *)
Theorem failover_commit_markers_and_version env prevDomains nextDomains lastDomain :
  last nextDomains = Some lastDomain ->
  let shardVersion := fe_GetDomainNotificationVersion env in
  let markers := failoverMarkerTasks env shardVersion nextDomains in
  let answer := fe_ReplicateFailoverMarkers env markers in
  let log := failoverCommit env prevDomains nextDomains in
  (forall task,
     In task markers <->
     exists d, In d nextDomains
               /\ task = {| fm_Version := d_FailoverVersion d; fm_DomainID := d_ID d |}
               /\ d_IsGlobalDomain d = true
               /\ shardVersion <= d_FailoverNotificationVersion d
               /\ d_ActiveClusterName d <> fe_currentClusterName env
               /\ d_PreviousFailoverVersion d <> common.InitialPreviousFailoverVersion
               /\ fe_ClusterNameForFailoverVersion env (d_PreviousFailoverVersion d)
                  = fe_currentClusterName env)
  /\ (markers <> [] -> In (ReplicateFailoverMarkers markers answer) log)
  /\ (markers <> [] -> answer <> None -> domainNotificationUpdates log = [])
  /\ (markers = [] \/ answer = None ->
      domainNotificationUpdates log
      = [Int.int64 (d_NotificationVersion lastDomain + 1)])
  /\ (Int.in_int64 (d_NotificationVersion lastDomain + 1) ->
      Int.int64 (d_NotificationVersion lastDomain + 1)
      = d_NotificationVersion lastDomain + 1)
  /\ (ascending nextDomains ->
      maxNotificationVersion nextDomains
      = Some (d_NotificationVersion lastDomain)).
Proof.
  intros Hlast shardVersion markers answer log.
  assert (Hlog :
    exists failover,
      domainNotificationUpdates failover = []
      /\ log = failover
               ++ match markers with
                  | [] => [UpdateDomainNotificationVersion
                             (Int.int64 (d_NotificationVersion lastDomain + 1))]
                  | _ => ReplicateFailoverMarkers markers answer
                         :: match answer with
                            | Some _ => []
                            | None => [UpdateDomainNotificationVersion
                                         (Int.int64 (d_NotificationVersion lastDomain + 1))]
                            end
                  end
               ++ [UnlockTaskProcessing txProcessor;
                   UnlockTaskProcessing timerProcessor]).
  { subst log. unfold failoverCommit, failoverCommitBody. rewrite Hlast. cbv zeta.
    fold shardVersion. fold markers. fold answer.
    eexists. split; [| rewrite <- app_assoc; reflexivity].
    destruct (bool_decide _); reflexivity. }
  destruct Hlog as (failover & Hf & Hlog).
  assert (Hupd : forall tail,
             domainNotificationUpdates (failover ++ tail)
             = domainNotificationUpdates tail).
  { intros tail. unfold domainNotificationUpdates in *. now rewrite omap_app, Hf. }
  repeat split.
  - intros Hin. unfold markers, failoverMarkerTasks in Hin.
    apply list_elem_of_In, list_elem_of_fmap in Hin as (d & -> & Hd).
    apply list_elem_of_filter in Hd as [Hc Hd].
    apply needsFailoverMarker_spec in Hc. exists d.
    split; [now apply list_elem_of_In |]. split; [reflexivity | exact Hc].
  - intros (d & Hd & -> & Hc). unfold markers, failoverMarkerTasks.
    apply list_elem_of_In, list_elem_of_fmap. exists d. split; [reflexivity |].
    apply list_elem_of_filter. split; [| now apply list_elem_of_In].
    now apply needsFailoverMarker_spec.
  - intros Hne. rewrite Hlog. apply in_or_app. right.
    destruct markers; [contradiction | now left].
  - intros Hne Hans. rewrite Hlog, Hupd.
    destruct markers; [contradiction |]. destruct answer; [reflexivity | contradiction].
  - intros Hok. rewrite Hlog, Hupd.
    destruct markers; [reflexivity |].
    destruct Hok as [Hok | ->]; [discriminate | reflexivity].
  - apply int64_id.
  - intros Hasc. now apply ascending_last_max.
Qed.

Lemma failover_commit_markers_and_version_witness :
  let nextDomains := [ sampleDomain "d1" true "B" 6 1 6;
                       sampleDomain "d2" false "A" 0 (-1) 7 ] in
  domainNotificationUpdates
    (failoverCommit (sampleFailoverEnv (Some (OtherError "queue down"))) [] nextDomains)
  = []
  /\ domainNotificationUpdates
       (failoverCommit (sampleFailoverEnv None) [] nextDomains) = [8].
Proof.
  cbv zeta. split.
  - apply (failover_commit_markers_and_version
             (sampleFailoverEnv (Some (OtherError "queue down"))) []
             [ sampleDomain "d1" true "B" 6 1 6; sampleDomain "d2" false "A" 0 (-1) 7 ]
             (sampleDomain "d2" false "A" 0 (-1) 7) eq_refl); discriminate.
  - apply (failover_commit_markers_and_version (sampleFailoverEnv None) []
             [ sampleDomain "d1" true "B" 6 1 6; sampleDomain "d2" false "A" 0 (-1) 7 ]
             (sampleDomain "d2" false "A" 0 (-1) 7) eq_refl).
    right. reflexivity.
Defined.

(** C8, as stated, fails on a batch that is not ordered by notification
    version: for notification versions 7 then 3 the shard is moved to 4,
    not to the largest plus 1, which is 8. *)
Lemma failover_commit_takes_last_not_max :
  let nextDomains := [ sampleDomain "d1" false "A" 0 (-1) 7;
                       sampleDomain "d2" false "A" 0 (-1) 3 ] in
  let log := failoverCommit (sampleFailoverEnv None) [] nextDomains in
  maxNotificationVersion nextDomains = Some 7
  /\ domainNotificationUpdates log = [4]
  /\ domainNotificationUpdates log <> [7 + 1].
Proof. cbv zeta. repeat split. discriminate. Qed.

(** ** [CreateHistoryStartWorkflowRequest] *)

Section CreateHistoryStartFacts.

Variable GetBackoffForNextScheduleInSeconds : string -> Z -> Z -> Z.

Let create := CreateHistoryStartWorkflowRequest GetBackoffForNextScheduleInSeconds.

  (** The call fails iff a positive delay meets a positive cron backoff,
      and then with [ErrDelayStartSeconds]. *)
Lemma CreateHistoryStart_conflict domainID startRequest now :
    (forall err, create domainID startRequest now = inl err ->
                 err = ErrDelayStartSeconds)
    /\ ((exists err, create domainID startRequest now = inl err) <->
        0 < GetDelayStartSeconds startRequest
        /\ 0 < GetBackoffForNextScheduleInSeconds (sr_CronSchedule startRequest) now now).
  Proof.
    unfold create, CreateHistoryStartWorkflowRequest. cbv zeta.
    destruct (Z.ltb_spec 0 (GetDelayStartSeconds startRequest));
      destruct (Z.ltb_spec 0 (GetBackoffForNextScheduleInSeconds
                                (sr_CronSchedule startRequest) now now));
      simpl; split; try (intros err [= <-]; reflexivity); try discriminate;
      split; try (intros [err He]; discriminate He); try lia; eauto.
  Qed.

  (** On success the first decision backoff is the delay when positive and
      the cron backoff otherwise. *)
Lemma CreateHistoryStart_backoff domainID startRequest now h :
    create domainID startRequest now = inr h ->
    FirstDecisionTaskBackoffSeconds h
    = Some (if 0 <? GetDelayStartSeconds startRequest
            then GetDelayStartSeconds startRequest
            else GetBackoffForNextScheduleInSeconds (sr_CronSchedule startRequest) now now)
    /\ StartRequest h = startRequest /\ DomainUUID h = domainID.
  Proof.
    unfold create, CreateHistoryStartWorkflowRequest. cbv zeta.
    destruct (_ && _); [discriminate |]. intros [= <-]. simpl. auto.
  Qed.

  (** As long as the sum of the expiration interval and the backoff fits
      32 bits and the deadline fits 64 bits of nanoseconds, the expiration
      timestamp is now plus interval plus backoff, rounded to the
      millisecond. *)
Lemma CreateHistoryStart_expiration_in_range domainID startRequest now h policy :
    create domainID startRequest now = inr h ->
    sr_RetryPolicy startRequest = Some policy ->
    0 < ExpirationIntervalInSeconds policy ->
    let backoff :=
      if 0 <? GetDelayStartSeconds startRequest
      then GetDelayStartSeconds startRequest
      else GetBackoffForNextScheduleInSeconds (sr_CronSchedule startRequest) now now in
    let deadline :=
      now + (ExpirationIntervalInSeconds policy + backoff) * time_Second in
    Int.in_int32 (ExpirationIntervalInSeconds policy + backoff) ->
    Int.in_int64 (time.Round deadline time_Millisecond) ->
    ExpirationTimestamp h = Some (time.Round deadline time_Millisecond).
  Proof.
    unfold create, CreateHistoryStartWorkflowRequest. cbv zeta.
    intros Hc Hp Hpos H32 H64. revert Hc.
    destruct (_ && _); [discriminate |]. intros [= <-]. simpl.
    rewrite Hp. destruct (Z.ltb_spec 0 (ExpirationIntervalInSeconds policy)); [| lia].
    f_equal. unfold time.UnixNano, time.Add.
    rewrite (int32_id _ H32).
    rewrite (int64_id ((_ + _) * time_Second)).
    - now apply int64_id.
    - unfold Int.in_int32, Int.MinInt32, Int.MaxInt32 in H32.
      unfold Int.in_int64, Int.MinInt64, Int.MaxInt64, time_Second. lia.
  Qed.

End CreateHistoryStartFacts.

(** C10. The code at the failing input: a delay of 1 s, no cron schedule,
    a retry policy expiring after 2147483647 s, now 1700000000 s after the
    epoch.  The call succeeds with a first decision backoff of 1 s, but
    the 32-bit sum of interval and backoff wraps, and the expiration
    timestamp lies 2147483648 s before now, not now plus interval plus
    backoff. *)
Theorem create_history_start_expiration_wraps :
  let startRequest := sampleDelayedStart 1 2147483647 in
  let now := 1700000000 * time_Second in
  exists h,
    CreateHistoryStartWorkflowRequest noCronBackoff "D" startRequest now = inr h
    /\ FirstDecisionTaskBackoffSeconds h = Some 1
    /\ ExpirationTimestamp h = Some (now - 2147483648 * time_Second)
    /\ ExpirationTimestamp h
       <> Some (time.Round (now + (2147483647 + 1) * time_Second) time_Millisecond).
Proof.
  cbv zeta. eexists. split; [reflexivity |]. repeat split. discriminate.
Qed.

(** * Further properties *)

(** ** Durations and times *)

Lemma int64_mod x : Int.int64 x mod 2 ^ 64 = x mod 2 ^ 64.
Proof.
  unfold Int.int64, Int.wrap. replace (64 - 1) with 63 by lia.
  rewrite Zminus_mod_idemp_l. f_equal. lia.
Qed.

Lemma int64_congr x y : x mod 2 ^ 64 = y mod 2 ^ 64 -> Int.int64 x = Int.int64 y.
Proof.
  intros H. unfold Int.int64, Int.wrap. f_equal.
  rewrite <- (Zplus_mod_idemp_l x), <- (Zplus_mod_idemp_l y). now rewrite H.
Qed.

Lemma int64_add_l x y : Int.int64 (Int.int64 x + y) = Int.int64 (x + y).
Proof.
  apply int64_congr. rewrite <- Zplus_mod_idemp_l, int64_mod.
  now rewrite Zplus_mod_idemp_l.
Qed.

Lemma int64_add_r x y : Int.int64 (x + Int.int64 y) = Int.int64 (x + y).
Proof. rewrite (Z.add_comm x), int64_add_l. f_equal. lia. Qed.

Lemma int64_mul_l x y : Int.int64 (Int.int64 x * y) = Int.int64 (x * y).
Proof.
  apply int64_congr. rewrite <- Zmult_mod_idemp_l, int64_mod.
  now rewrite Zmult_mod_idemp_l.
Qed.

Lemma roundTrips_unit unit toCount toDuration :
  0 < unit ->
  (forall c, toDuration c = Int.int64 (c * unit)) ->
  (forall d, toCount d = Z.quot d unit) ->
  roundTrips unit toCount toDuration.
Proof.
  intros Hu Hd Hc c Hr. rewrite Hc, Hd, int64_id by assumption.
  apply Z.quot_mul. lia.
Qed.

Lemma rem_facts d unit :
  0 < unit ->
  Z.quot d unit * unit = d - Z.rem d unit
  /\ Z.abs (Z.rem d unit) < unit
  /\ Z.abs (d - Z.rem d unit) <= Z.abs d
  /\ 0 <= d * (d - Z.rem d unit).
Proof.
  intros Hu. pose proof (Z.quot_rem d unit ltac:(lia)) as Hqr.
  pose proof (Z.rem_bound_abs d unit ltac:(lia)) as Habs.
  destruct (Z.le_gt_cases 0 d) as [Hd | Hd].
  - pose proof (Z.rem_nonneg d unit ltac:(lia) Hd).
    pose proof (Z.rem_le d unit Hd Hu).
    repeat split; try lia; nia.
  - pose proof (Z.rem_nonpos d unit ltac:(lia) ltac:(lia)).
    assert (d <= Z.rem d unit).
    { pose proof (Z.rem_le (- d) unit ltac:(lia) Hu) as Hle.
      rewrite Z.rem_opp_l in Hle by lia. lia. }
    repeat split; try lia; nia.
Qed.

Lemma truncates_unit unit toCount toDuration :
  0 < unit ->
  (forall c, toDuration c = Int.int64 (c * unit)) ->
  (forall d, Int.in_int64 d -> toCount d = Z.quot d unit) ->
  truncates unit toCount toDuration.
Proof.
  intros Hu Hd Hc d Hr. cbv zeta. rewrite Hc, Hd by assumption.
  destruct (rem_facts d unit Hu) as (Hq & Hr1 & Hr2 & Hr3).
  rewrite Hq. rewrite int64_id.
  - repeat split; try assumption. replace (d - (d - Z.rem d unit)) with (Z.rem d unit) by lia.
    assumption.
  - unfold Int.in_int64, Int.MinInt64, Int.MaxInt64 in *. lia.
Qed.

Lemma DurationToDays_quot d :
  Int.in_int64 d -> DurationToDays d = Z.quot d (24 * time_Hour).
Proof.
  intros Hd. unfold DurationToDays. apply int32_id.
  unfold Int.in_int64, Int.MinInt64, Int.MaxInt64 in Hd.
  unfold Int.in_int32, Int.MinInt32, Int.MaxInt32.
  assert (Hu : 0 < 24 * time_Hour) by reflexivity.
  destruct (rem_facts d (24 * time_Hour) Hu) as (Hq & Hr1 & Hr2 & _).
  assert (Z.abs (Z.quot d (24 * time_Hour)) * (24 * time_Hour) <= 2 ^ 63).
  { rewrite <- (Z.abs_eq (24 * time_Hour)) at 2 by lia.
    rewrite <- Z.abs_mul, Hq. lia. }
  change (24 * time_Hour) with 86400000000000 in *. lia.
Qed.

(** Each count-to-duration conversion followed by its duration-to-count
    conversion gives the count back, as long as the count of units fits
    64 bits of nanoseconds. *)
Theorem duration_count_round_trip :
  roundTrips (24 * time_Hour) DurationToDays DaysToDuration
  /\ roundTrips time_Hour DurationToHours HoursToDuration
  /\ roundTrips time_Minute DurationToMinutes MinutesToDuration
  /\ roundTrips time_Second DurationToSeconds SecondsToDuration
  /\ roundTrips time_Millisecond DurationToMilliseconds MillisecondsToDuration
  /\ roundTrips time_Microsecond DurationToMicroseconds MicrosecondsToDuration
  /\ roundTrips time_Nanosecond DurationToNanoseconds NanosecondsToDuration.
Proof.
  repeat split; try (apply roundTrips_unit; [reflexivity | reflexivity | reflexivity]).
  intros c Hc. unfold DaysToDuration. rewrite int64_id by assumption.
  rewrite DurationToDays_quot by assumption. apply Z.quot_mul. discriminate.
Qed.

Lemma duration_count_round_trip_witness :
  DurationToDays (DaysToDuration 106751) = 106751
  /\ DurationToSeconds (SecondsToDuration (-90)) = -90.
Proof.
  destruct duration_count_round_trip as (Hd & _ & _ & Hs & _).
  split; [apply Hd | apply Hs]; vm_compute; split; discriminate.
Defined.

(** Each duration-to-count conversion followed by its count-to-duration
    conversion drops the remainder of the division by the unit: the
    result is nearer to zero than the duration, on its side of zero, and
    less than one unit away. *)
Theorem duration_count_truncates :
  truncates (24 * time_Hour) DurationToDays DaysToDuration
  /\ truncates time_Hour DurationToHours HoursToDuration
  /\ truncates time_Minute DurationToMinutes MinutesToDuration
  /\ truncates time_Second DurationToSeconds SecondsToDuration
  /\ truncates time_Millisecond DurationToMilliseconds MillisecondsToDuration
  /\ truncates time_Microsecond DurationToMicroseconds MicrosecondsToDuration
  /\ truncates time_Nanosecond DurationToNanoseconds NanosecondsToDuration.
Proof.
  split; [| repeat apply conj].
  - apply truncates_unit; [reflexivity | reflexivity | exact DurationToDays_quot].
  - apply truncates_unit; [reflexivity | reflexivity | intros; reflexivity].
  - apply truncates_unit; [reflexivity | reflexivity | intros; reflexivity].
  - apply truncates_unit; [reflexivity | reflexivity | intros; reflexivity].
  - apply truncates_unit; [reflexivity | reflexivity | intros; reflexivity].
  - apply truncates_unit; [reflexivity | reflexivity | intros; reflexivity].
  - apply truncates_unit; [reflexivity | reflexivity | intros; reflexivity].
Qed.

Lemma duration_count_truncates_witness :
  SecondsToDuration (DurationToSeconds (-1500000000)) = -1000000000.
Proof.
  destruct duration_count_truncates as (_ & _ & _ & Hs & _).
  destruct (Hs (-1500000000)) as [H _]; [vm_compute; split; discriminate |].
  exact H.
Defined.

(** [AddSecondsToBaseTime] is the base plus the seconds in nanoseconds
    whenever that fits 64 bits, and adding seconds in two steps is adding
    their 64-bit sum in one, overflow included. *)
Theorem AddSecondsToBaseTime_adds :
  (forall base seconds,
     Int.in_int64 (seconds * time_Second) ->
     Int.in_int64 (base + seconds * time_Second) ->
     AddSecondsToBaseTime base seconds = base + seconds * time_Second)
  /\ (forall base x y,
        AddSecondsToBaseTime (AddSecondsToBaseTime base x) y
        = AddSecondsToBaseTime base (Int.int64 (x + y))).
Proof.
  unfold AddSecondsToBaseTime, time.UnixNano, time.Add. split.
  - intros base seconds H1 H2. cbv zeta. now rewrite (int64_id _ H1), int64_id.
  - intros base x y. cbv zeta.
    rewrite !int64_add_r, int64_add_l. apply int64_congr.
    rewrite (Zplus_mod base (Int.int64 (x + y) * time_Second)),
      (Zmult_mod (Int.int64 (x + y))), int64_mod, <- Zmult_mod, <- Zplus_mod.
    f_equal. lia.
Qed.

Lemma AddSecondsToBaseTime_adds_witness :
  AddSecondsToBaseTime 1700000000000000000 60 = 1700000060000000000.
Proof.
  destruct AddSecondsToBaseTime_adds as [H _].
  apply (H 1700000000000000000 60); vm_compute; split; discriminate.
Defined.

(** ** Sizes and limits *)

(** [CheckEventBlobSizeLimit] fails, with [ErrBlobSizeExceedsLimit], iff
    the size is above both limits; the warning is logged iff there is a
    logger and the size is above the warn limit.  So a size above the
    error limit passes unwarned when it is not above the warn limit. *)
Theorem CheckEventBlobSizeLimit_spec actualSize warnLimit errorLimit hasLogger :
  let '(err, warned) :=
    CheckEventBlobSizeLimit actualSize warnLimit errorLimit hasLogger in
  (err = Some ErrBlobSizeExceedsLimit <->
   warnLimit < actualSize /\ errorLimit < actualSize)
  /\ (err = None <-> actualSize <= warnLimit \/ actualSize <= errorLimit)
  /\ (warned = true <-> hasLogger = true /\ warnLimit < actualSize)
  /\ (errorLimit < actualSize -> actualSize <= warnLimit ->
      err = None /\ warned = false).
Proof.
  unfold CheckEventBlobSizeLimit.
  destruct (Z.ltb_spec warnLimit actualSize);
    destruct (Z.ltb_spec errorLimit actualSize); simpl;
    repeat split; intros; try lia; try congruence; try tauto;
    try (destruct hasLogger; intuition (congruence || lia)).
Qed.

Lemma GetSizeOfMap_step (k1 k2 : string) (v1 v2 : list Byte.byte) (res : Z) :
  res + (Z.of_nat (String.length k2) + Z.of_nat (length v2))
      + (Z.of_nat (String.length k1) + Z.of_nat (length v1))
  = res + (Z.of_nat (String.length k1) + Z.of_nat (length v1))
        + (Z.of_nat (String.length k2) + Z.of_nat (length v2)).
Proof. lia. Qed.

(** [GetSizeOfMapStringToByteArray] is 0 for a nil map and the reserve of
    48 bytes for an empty one, and putting a key that is not there adds
    the lengths of the key and of its value. *)
Theorem GetSizeOfMapStringToByteArray_insert :
  GetSizeOfMapStringToByteArray None = 0
  /\ GetSizeOfMapStringToByteArray (Some ∅) = 48
  /\ forall (m : gmap string (list Byte.byte)) k v,
       m !! k = None ->
       GetSizeOfMapStringToByteArray (Some (<[k := v]> m))
       = GetSizeOfMapStringToByteArray (Some m) + len k + Z.of_nat (length v).
Proof.
  split; [reflexivity |]. split; [reflexivity |].
  intros m k v Hk. unfold GetSizeOfMapStringToByteArray, len.
  rewrite map_fold_insert_L; [lia | | exact Hk].
  intros. apply GetSizeOfMap_step.
Qed.

Lemma GetSizeOfMapStringToByteArray_insert_witness :
  GetSizeOfMapStringToByteArray (Some (<["key" := [Byte.x01; Byte.x02]]> ∅))
  = 48 + 3 + 2.
Proof.
  destruct GetSizeOfMapStringToByteArray_insert as (_ & He & H).
  rewrite (H ∅ "key" [Byte.x01; Byte.x02] (lookup_empty _)), He. reflexivity.
Defined.

(** [IsValidContext]: a context with a [Done] channel is valid until that
    channel is closed, however near or far past its deadline is, and then
    answers its own [Err]; only a context without [Done] channel is held
    against its deadline, and refused when less than 10 ms remain. *)
Theorem IsValidContext_spec ctx now :
  (ctx_Done ctx = Some false -> IsValidContext ctx now = None)
  /\ (ctx_Done ctx = Some true -> IsValidContext ctx now = ctx_Err ctx)
  /\ (ctx_Done ctx = None ->
      (IsValidContext ctx now = None \/
       IsValidContext ctx now = Some ContextDeadlineExceeded)
      /\ (IsValidContext ctx now = Some ContextDeadlineExceeded <->
          exists deadline, ctx_Deadline ctx = Some deadline
                           /\ time.Sub deadline now < 10 * time_Millisecond)).
Proof.
  unfold IsValidContext. split; [now intros -> |]. split; [now intros -> |].
  intros ->. split; [| split].
  - destruct (ctx_Deadline ctx); [destruct (_ <? _) |]; auto.
  - destruct (ctx_Deadline ctx) as [deadline |]; [| discriminate].
    destruct (Z.ltb_spec (time.Sub deadline now) contextExpireThreshold);
      [eauto | discriminate].
  - intros (deadline & -> & Hlt).
    destruct (Z.ltb_spec (time.Sub deadline now) contextExpireThreshold);
      [reflexivity |]. unfold contextExpireThreshold in *. lia.
Qed.

Lemma IsValidContext_spec_witness :
  IsValidContext
    {| ctx_Done := Some false; ctx_Err := None; ctx_Deadline := Some 1000 |} 2000
  = None.
Proof.
  destruct (IsValidContext_spec
              {| ctx_Done := Some false; ctx_Err := None; ctx_Deadline := Some 1000 |}
              2000) as [H _].
  exact (H eq_refl).
Defined.

(** ** Validation and override of a start request *)

(** [ValidateRetryPolicy] accepts a nil policy, and accepts a policy iff
    its initial interval is positive, its backoff coefficient is not below
    1, its maximum interval is 0 or at least the initial interval, and its
    attempts and expiration are not negative and not both 0; so an
    accepted policy always bounds the retries, by count or by time.
    Whatever it refuses, it refuses with a BadRequest error. *)
Theorem ValidateRetryPolicy_accepts :
  ValidateRetryPolicy None = None
  /\ (forall p,
        ValidateRetryPolicy (Some p) = None <->
        0 < rp_InitialIntervalInSeconds p
        /\ PrimFloat.ltb (rp_BackoffCoefficient p) 1%float = false
        /\ (rp_MaximumIntervalInSeconds p = 0
            \/ rp_InitialIntervalInSeconds p <= rp_MaximumIntervalInSeconds p)
        /\ 0 <= rp_MaximumAttempts p
        /\ 0 <= rp_ExpirationIntervalInSeconds p
        /\ (0 < rp_MaximumAttempts p \/ 0 < rp_ExpirationIntervalInSeconds p))
  /\ (forall policy err,
        ValidateRetryPolicy policy = Some err -> exists msg, err = BadRequestError msg).
Proof.
  split; [reflexivity |]. split.
  - intros p. unfold ValidateRetryPolicy.
    destruct (Z.leb_spec (rp_InitialIntervalInSeconds p) 0).
    { split; [discriminate | lia]. }
    destruct (PrimFloat.ltb (rp_BackoffCoefficient p) 1).
    { split; [discriminate | intros (_ & ? & _); discriminate]. }
    destruct (Z.ltb_spec (rp_MaximumIntervalInSeconds p) 0).
    { split; [discriminate | lia]. }
    destruct (Z.ltb_spec 0 (rp_MaximumIntervalInSeconds p));
      destruct (Z.ltb_spec (rp_MaximumIntervalInSeconds p)
                  (rp_InitialIntervalInSeconds p)); simpl;
      try (split; [discriminate | lia]);
      destruct (Z.ltb_spec (rp_MaximumAttempts p) 0);
      try (split; [discriminate | lia]);
      destruct (Z.ltb_spec (rp_ExpirationIntervalInSeconds p) 0);
      try (split; [discriminate | lia]);
      destruct (Z.eqb_spec (rp_MaximumAttempts p) 0);
      destruct (Z.eqb_spec (rp_ExpirationIntervalInSeconds p) 0); simpl;
      try (split; [discriminate | lia]);
      (split; [intros _; repeat split; lia | reflexivity]).
  - intros [p |] err; [| discriminate]. unfold ValidateRetryPolicy.
    repeat match goal with
           | |- context [ if ?c then _ else _ ] => destruct c
           end; intros [= <-]; eauto.
Qed.

Lemma ValidateRetryPolicy_accepts_witness :
  ValidateRetryPolicy (Some (samplePolicy 2%float 3 0)) = None.
Proof.
  destruct ValidateRetryPolicy_accepts as (_ & H & _).
  apply H. simpl. repeat split; try lia; auto.
Defined.

Lemma MinInt32_min a b : MinInt32 a b = Z.min a b.
Proof. unfold MinInt32. destruct (Z.ltb_spec a b); lia. Qed.

Lemma override_unchanged maxDecisionStartToCloseSeconds request :
  Z.min (Z.min (GetTaskStartToCloseTimeoutSeconds request)
               (Int.int32 maxDecisionStartToCloseSeconds))
        (GetExecutionStartToCloseTimeoutSeconds request)
  = GetTaskStartToCloseTimeoutSeconds request ->
  overrideStartWorkflowExecutionRequest maxDecisionStartToCloseSeconds request
  = (request, false).
Proof.
  unfold overrideStartWorkflowExecutionRequest,
    GetTaskStartToCloseTimeoutSeconds, GetExecutionStartToCloseTimeoutSeconds.
  cbv zeta. rewrite !MinInt32_min. intros ->. now rewrite Z.eqb_refl.
Qed.

(** [overrideStartWorkflowExecutionRequest] leaves the decision timeout at
    the least of the requested one, the configured maximum and the
    execution timeout, counts an override iff that changes the requested
    one, touches no other field, and changes nothing when applied again. *)
Theorem override_decision_timeout maxDecisionStartToCloseSeconds request :
  let '(request', counted) :=
    overrideStartWorkflowExecutionRequest maxDecisionStartToCloseSeconds request in
  GetTaskStartToCloseTimeoutSeconds request'
  = Z.min (Z.min (GetTaskStartToCloseTimeoutSeconds request)
                 (Int.int32 maxDecisionStartToCloseSeconds))
          (GetExecutionStartToCloseTimeoutSeconds request)
  /\ (counted = true <->
      GetTaskStartToCloseTimeoutSeconds request'
      <> GetTaskStartToCloseTimeoutSeconds request)
  /\ (counted = false -> request' = request)
  /\ sf_RequestID request' = sf_RequestID request
  /\ sf_Domain request' = sf_Domain request
  /\ sf_WorkflowID request' = sf_WorkflowID request
  /\ sf_TaskList request' = sf_TaskList request
  /\ sf_WorkflowType request' = sf_WorkflowType request
  /\ sf_ExecutionStartToCloseTimeoutSeconds request'
     = sf_ExecutionStartToCloseTimeoutSeconds request
  /\ sf_RetryPolicy request' = sf_RetryPolicy request
  /\ overrideStartWorkflowExecutionRequest maxDecisionStartToCloseSeconds request'
     = (request', false).
Proof.
  pose proof (override_unchanged maxDecisionStartToCloseSeconds) as Hfix.
  set (t := GetTaskStartToCloseTimeoutSeconds request).
  set (m := Int.int32 maxDecisionStartToCloseSeconds) in *.
  set (e := GetExecutionStartToCloseTimeoutSeconds request).
  assert (Hshape :
    overrideStartWorkflowExecutionRequest maxDecisionStartToCloseSeconds request
    = if Z.min (Z.min t m) e =? t then (request, false)
      else ({| sf_RequestID := sf_RequestID request;
               sf_Domain := sf_Domain request;
               sf_WorkflowID := sf_WorkflowID request;
               sf_TaskList := sf_TaskList request;
               sf_WorkflowType := sf_WorkflowType request;
               sf_ExecutionStartToCloseTimeoutSeconds :=
                 sf_ExecutionStartToCloseTimeoutSeconds request;
               sf_TaskStartToCloseTimeoutSeconds := Some (Z.min (Z.min t m) e);
               sf_RetryPolicy := sf_RetryPolicy request |}, true)).
  { unfold overrideStartWorkflowExecutionRequest. cbv zeta.
    rewrite !MinInt32_min. fold m.
    fold (GetTaskStartToCloseTimeoutSeconds request).
    fold (GetExecutionStartToCloseTimeoutSeconds request). fold t e.
    now destruct (Z.min (Z.min t m) e =? t). }
  rewrite Hshape. clear Hshape.
  destruct (Z.eqb_spec (Z.min (Z.min t m) e) t) as [E | E].
  - repeat split; try reflexivity; try discriminate;
      try (symmetry; exact E); try (apply Hfix; exact E).
    intros H. now contradict H.
  - repeat split; try reflexivity; try discriminate; try (intros _; exact E).
    apply Hfix.
    change (Z.min (Z.min (Z.min (Z.min t m) e) m) e = Z.min (Z.min t m) e). lia.
Qed.

(** A request that passes [validateStartWorkflowExecutionRequest] still
    passes it after the override under a positive configured maximum, and
    then has a decision timeout that is positive and at most the execution
    timeout and the maximum. *)
Theorem validated_request_stays_valid_after_override
    maxIDLengthLimit maxDecisionStartToCloseSeconds request :
  validateStartWorkflowExecutionRequest request maxIDLengthLimit = None ->
  0 < Int.int32 maxDecisionStartToCloseSeconds ->
  let request' :=
    fst (overrideStartWorkflowExecutionRequest maxDecisionStartToCloseSeconds request) in
  validateStartWorkflowExecutionRequest request' maxIDLengthLimit = None
  /\ exists task execution,
       sf_TaskStartToCloseTimeoutSeconds request' = Some task
       /\ sf_ExecutionStartToCloseTimeoutSeconds request' = Some execution
       /\ 0 < task <= execution
       /\ task <= Int.int32 maxDecisionStartToCloseSeconds.
Proof.
  intros Hval Hmax. cbv zeta.
  assert (Hfields :
    exists task execution,
      sf_TaskStartToCloseTimeoutSeconds request = Some task
      /\ sf_ExecutionStartToCloseTimeoutSeconds request = Some execution
      /\ 0 < task /\ 0 < execution).
  { revert Hval. unfold validateStartWorkflowExecutionRequest.
    destruct (len (sf_RequestID request) =? 0); [discriminate |].
    destruct (sf_ExecutionStartToCloseTimeoutSeconds request) as [execution |];
      [| discriminate].
    simpl. destruct (Z.leb_spec execution 0); [discriminate |].
    destruct (sf_TaskStartToCloseTimeoutSeconds request) as [task |];
      [| discriminate].
    simpl. destruct (Z.leb_spec task 0); [discriminate |]. intros _.
    exists task, execution. auto. }
  destruct Hfields as (task & execution & Ht & He & Htp & Hep).
  set (m := Int.int32 maxDecisionStartToCloseSeconds) in *.
  destruct (Z.eq_dec
              (Z.min (Z.min (GetTaskStartToCloseTimeoutSeconds request) m)
                     (GetExecutionStartToCloseTimeoutSeconds request))
              (GetTaskStartToCloseTimeoutSeconds request)) as [E | E].
  - rewrite (override_unchanged _ _ E). simpl. split; [exact Hval |].
    unfold GetTaskStartToCloseTimeoutSeconds,
      GetExecutionStartToCloseTimeoutSeconds in E.
    rewrite Ht, He in E. simpl in E.
    exists task, execution. repeat split; auto; lia.
  - unfold GetTaskStartToCloseTimeoutSeconds,
      GetExecutionStartToCloseTimeoutSeconds in E.
    unfold overrideStartWorkflowExecutionRequest. cbv zeta.
    rewrite !MinInt32_min. fold m.
    destruct (Z.eqb_spec
                (Z.min (Z.min (default 0 (sf_TaskStartToCloseTimeoutSeconds request)) m)
                       (default 0 (sf_ExecutionStartToCloseTimeoutSeconds request)))
                (default 0 (sf_TaskStartToCloseTimeoutSeconds request)));
      [contradiction |].
    cbn [negb fst]. rewrite Ht, He in *. simpl in E |- *. split.
    + revert Hval. unfold validateStartWorkflowExecutionRequest.
      rewrite Ht, He. simpl.
      destruct (len (sf_RequestID request) =? 0); [discriminate |].
      destruct (Z.leb_spec execution 0); [lia |].
      destruct (Z.leb_spec task 0); [lia |].
      destruct (Z.leb_spec (Z.min (Z.min task m) execution) 0); [lia |].
      auto.
    + eexists _, execution. repeat split; lia.
Qed.

Lemma validated_request_stays_valid_after_override_witness :
  sf_TaskStartToCloseTimeoutSeconds
    (fst (overrideStartWorkflowExecutionRequest 60 (sampleFields 30 100)))
  = Some 30.
Proof.
  destruct (validated_request_stays_valid_after_override 1000 60 (sampleFields 30 100)
              eq_refl eq_refl) as [_ (task & execution & Ht & He & _)].
  rewrite Ht. vm_compute in Ht. symmetry. exact Ht.
Defined.

(** ** Start: locks and writes *)

Lemma quiet_ret P {A} (a : A) : quiet P (ret a).
Proof. reflexivity. Qed.

Lemma quiet_fail P {A} e : quiet P (@fail A e).
Proof. reflexivity. Qed.

Lemma quiet_check P r : quiet P (check r).
Proof. now destruct r. Qed.

Lemma quiet_lift P {A} (r : Error + A) : quiet P (lift r).
Proof. now destruct r. Qed.

Lemma quiet_emit (P : Effect -> bool) e : P e = true -> quiet P (emit e).
Proof. unfold quiet. simpl. now intros ->. Qed.

Lemma quiet_bind P {A B} (m : M A) (k : A -> M B) :
  quiet P m -> (forall a, quiet P (k a)) -> quiet P (bind m k).
Proof.
  unfold quiet. destruct m as [[e | a] l]; simpl; [auto |].
  intros Hl Hk. specialize (Hk a). destruct (k a) as [r l']. simpl in *.
  now rewrite forallb_app, Hl, Hk.
Qed.

Lemma quiet_defer P {A} release (m : M A) :
  (forall r, P (release r) = true) -> quiet P m -> quiet P (defer release m).
Proof.
  unfold quiet, defer. simpl. intros Hr Hm.
  now rewrite forallb_app, Hm; simpl; rewrite Hr.
Qed.

Ltac quiet_step :=
  first
    [ apply quiet_ret | apply quiet_fail | apply quiet_check | apply quiet_lift
    | apply quiet_emit; reflexivity
    | apply quiet_bind; [| intros ?]
    | apply quiet_defer; [intros ?; reflexivity |]
    | match goal with
      | |- quiet _ (match ?x with _ => _ end) => destruct x
      end ].

Lemma UpdateWorkflowLoop_quiet env prevRunID we sws fuel attempt :
  quiet (fun e => negb (isCurrentLockCall e))
    (UpdateWorkflowLoop env prevRunID we sws fuel attempt).
Proof.
  revert attempt. induction fuel as [| fuel IH]; intros attempt;
    [reflexivity |].
  cbn [UpdateWorkflowLoop]. repeat (first [apply IH | quiet_step]).
Qed.

Lemma startWorkflowLocked_quiet env startRequest arg :
  quiet (fun e => negb (isCurrentLockCall e))
    (startWorkflowLocked env startRequest arg).
Proof.
  unfold startWorkflowLocked, startWorkflowPrepare, startWorkflowCreate,
    terminateAndStartWorkflow.
  repeat (first [apply UpdateWorkflowLoop_quiet | quiet_step]).
Qed.

(** Whatever the collaborators answer, [startWorkflowHelper] touches the
    current-run lock in one of three ways: not at all, when the domain is
    deprecated or the request invalid; by asking for it once, in vain; or
    by asking for it first and releasing it last, once, with the error the
    call returns, with no other call on that lock in between. *)
Theorem start_current_lock_pairing env startRequest arg :
  let m := startWorkflowHelper env startRequest arg in
  let acquire :=
    GetOrCreateCurrentWorkflowExecution
      (newChildContext (se_parentDeadline env) (se_Now env)) (se_DomainID env)
      (sr_WorkflowID (StartRequest startRequest)) in
  (snd m = [] /\ exists err, fst m = inl err)
  \/ (snd m = [acquire] /\ exists err, fst m = inl err)
  \/ (exists body,
        snd m = acquire :: body ++ [currentRelease (retError m)]
        /\ forallb (fun e => negb (isCurrentLockCall e)) body = true).
Proof.
  cbv zeta. unfold startWorkflowHelper.
  destruct (negb (se_DomainStatus env =? persistence.DomainStatusRegistered));
    [left; simpl; eauto |].
  destruct (se_validateStartWorkflowExecutionRequest env); simpl;
    [left; eauto |].
  destruct (se_GetOrCreateCurrentWorkflowExecution env _) as [err |].
  - right. left. destruct (is_ContextDeadlineExceeded err); simpl; eauto.
  - right. right. pose proof (startWorkflowLocked_quiet env startRequest arg) as Hq.
    unfold quiet in Hq. unfold defer, retError.
    destruct (startWorkflowLocked env startRequest arg) as [r l]. simpl in *.
    exists l. split; [reflexivity | exact Hq].
Qed.

Lemma commits_app l1 l2 : commits (l1 ++ l2) = (commits l1 + commits l2)%nat.
Proof. induction l1 as [| e l1 IH]; simpl; [reflexivity | rewrite IH; lia]. Qed.

Lemma UpdateWorkflowLoop_writesOnce env prevRunID we sws fuel attempt :
  writesOnce (fun resp => resp = {| resp_RunID := RunID we |})
    (UpdateWorkflowLoop env prevRunID we sws fuel attempt).
Proof.
  revert attempt. induction fuel as [| fuel IH]; intros attempt.
  - repeat split; simpl; try lia; discriminate.
  - specialize (IH (attempt + 1)). cbn [UpdateWorkflowLoop].
    destruct (UpdateWorkflowLoop env prevRunID we sws fuel (attempt + 1))
      as [r l]. destruct IH as (IH1 & IH2 & IH3). simpl in IH1, IH2, IH3.
    destruct (ae_IsWorkflowExecutionRunning (env attempt)); simpl;
      [| repeat split; simpl; try lia; discriminate].
    destruct (ae_TerminateWorkflow (env attempt)) as [err |].
    + destruct (is_ErrStaleState err); simpl;
        [| repeat split; simpl; try lia; discriminate].
      destruct (negb (attempt =? ConditionalRetryCount - 1)); simpl.
      * destruct (ae_ReloadMutableState (env attempt)); simpl;
          [repeat split; simpl; try lia; discriminate |].
        repeat split; simpl; auto.
      * repeat split; simpl; auto.
    + destruct (ae_createMutableState (env attempt)); simpl;
        [repeat split; simpl; try lia; discriminate |].
      destruct sws; [destruct (ae_getStartRequest (env attempt)) |]; simpl;
        try (repeat split; simpl; try lia; discriminate);
        (destruct (ae_addStartEventsAndTasks (env attempt)); simpl;
           [repeat split; simpl; try lia; discriminate |]);
        (destruct (ae_UpdateWorkflowExecutionWithNewAsActive (env attempt))
           as [err |]; simpl;
           [ destruct (is_ErrConflict err); simpl;
               [ repeat split; simpl; auto
               | repeat split; simpl; try lia; discriminate ]
           | repeat split; simpl; try lia; try discriminate; eauto ]).
Qed.

Lemma quiet_no_commit {A} (m : M A) :
  quiet (fun e => negb (isCommitted e)) m -> commits (snd m) = 0%nat.
Proof.
  unfold quiet. induction (snd m) as [| e l IH]; simpl; [reflexivity |].
  destruct (isCommitted e); simpl; [discriminate | auto].
Qed.

Lemma startWorkflowPrepare_no_commit env startRequest arg :
  commits (snd (startWorkflowPrepare env startRequest arg)) = 0%nat.
Proof.
  apply quiet_no_commit. unfold startWorkflowPrepare.
  repeat quiet_step.
Qed.

Lemma startWorkflowCreate_writesOnce env startRequest arg args :
  writesOnce (fun resp => resp = {| resp_RunID := se_uuid_New env |})
    (startWorkflowCreate env startRequest arg args).
Proof.
  unfold startWorkflowCreate. cbv zeta.
  destruct (se_CreateWorkflowExecution env 0%nat) as [err |]; simpl;
    [| repeat split; simpl; try lia; try discriminate; eauto].
  destruct err; simpl; try (repeat split; simpl; try lia; discriminate).
  destruct (String.eqb (as_StartRequestID t) _); simpl;
    [repeat split; simpl; try lia; discriminate |].
  destruct (bool_decide (is_Some arg)); simpl;
    [repeat split; simpl; try lia; discriminate |].
  destruct (se_GetCurrentVersion env <? as_LastWriteVersion t); simpl;
    [repeat split; simpl; try lia; discriminate |].
  destruct (shouldTerminateAndStart startRequest (as_State t)); simpl.
  - destruct (se_LoadOnce env); simpl;
      [repeat split; simpl; try lia; discriminate |].
    pose proof (UpdateWorkflowLoop_writesOnce (se_attempts env) (as_RunID t)
                  {| WorkflowID := sr_WorkflowID (StartRequest startRequest);
                     RunID := se_uuid_New env |} false
                  (Z.to_nat ConditionalRetryCount) 0) as (H1 & H2 & H3).
    unfold defer, retError, terminateAndStartWorkflow.
    destruct (UpdateWorkflowLoop _ _ _ _ _ _) as [r l]. simpl in *.
    unfold writesOnce. simpl. rewrite commits_app. simpl. rewrite Nat.add_0_r.
    repeat split; auto.
  - destruct (applyWorkflowIDReusePolicyHelper _ _ _ _ _ _); simpl;
      [repeat split; simpl; try lia; discriminate |].
    destruct (se_CreateWorkflowExecution env 1%nat); simpl;
      repeat split; simpl; try lia; try discriminate; eauto.
Qed.

(** Whatever the collaborators answer, a Start has at most one write
    accepted by persistence, be it a creation or an update closing the
    prior run; a Start that returns an error has had none accepted; and a
    Start that has had one accepted returns success with the fresh run
    id. *)
Theorem start_writes_at_most_once env startRequest arg :
  let m := startWorkflowHelper env startRequest arg in
  (commits (snd m) <= 1)%nat
  /\ (forall err, fst m = inl err -> commits (snd m) = 0%nat)
  /\ (commits (snd m) = 1%nat ->
      fst m = inr {| resp_RunID := se_uuid_New env |}).
Proof.
  cbv zeta. unfold startWorkflowHelper.
  destruct (negb (se_DomainStatus env =? persistence.DomainStatusRegistered));
    [repeat split; simpl; try lia; discriminate |].
  destruct (se_validateStartWorkflowExecutionRequest env); simpl;
    [repeat split; simpl; try lia; discriminate |].
  destruct (se_GetOrCreateCurrentWorkflowExecution env _) as [err |].
  - destruct (is_ContextDeadlineExceeded err); repeat split; simpl; try lia;
      discriminate.
  - unfold defer, retError, startWorkflowLocked.
    pose proof (startWorkflowPrepare_no_commit env startRequest arg) as Hp.
    destruct (startWorkflowPrepare env startRequest arg) as [[e | args] lp];
      simpl in *.
    + rewrite commits_app, Hp. repeat split; simpl; try lia; discriminate.
    + pose proof (startWorkflowCreate_writesOnce env startRequest arg args)
        as (H1 & H2 & H3).
      destruct (startWorkflowCreate env startRequest arg args) as [r lc].
      simpl in *. rewrite !commits_app, Hp. simpl. rewrite Nat.add_0_r.
      repeat split; auto.
      intros H. destruct (H3 H) as (a & -> & ->). reflexivity.
Qed.

(** Terminate-and-start, whatever the collaborators answer, asks the
    prior run to terminate at most [ConditionalRetryCount] times, each
    time with the reason "TerminateIfRunning Policy" and details that are
    the bytes of "New runID: " followed by the new run id; it has at most
    one update accepted, none if it returns an error. *)
Theorem terminate_and_start_bounded env prevRunID workflowExecution isSignalWithStart :
  let m := terminateAndStartWorkflow env prevRunID workflowExecution
             isSignalWithStart in
  (Z.of_nat (countTerminate (snd m)) <= ConditionalRetryCount)
  /\ (forall runID first reason details identity,
        In (TerminateWorkflow runID first reason details identity) (snd m) ->
        runID = prevRunID
        /\ reason = "TerminateIfRunning Policy"
        /\ details = bytes_of_string ("New runID: " +:+ RunID workflowExecution))
  /\ (commits (snd m) <= 1)%nat
  /\ (forall err, fst m = inl err -> commits (snd m) = 0%nat).
Proof.
  cbv zeta. unfold terminateAndStartWorkflow.
  destruct (UpdateWorkflowLoop_terminate_calls env prevRunID workflowExecution
              isSignalWithStart (Z.to_nat ConditionalRetryCount) 0) as [Hc Hi].
  destruct (UpdateWorkflowLoop_writesOnce env prevRunID workflowExecution
              isSignalWithStart (Z.to_nat ConditionalRetryCount) 0) as (H1 & H2 & _).
  repeat split; try assumption.
  - change ConditionalRetryCount with (Z.of_nat (Z.to_nat ConditionalRetryCount)) at 2.
    lia.
  - eapply Hi; eassumption.
  - eapply Hi; eassumption.
  - eapply Hi; eassumption.
Qed.

(** ** Long poll: subscription and return *)

Lemma pollLoop_returns token expected response cases resp :
  pollLoop token expected response cases = Some (inr resp) ->
  (expected < r_NextEventID resp
   \/ r_IsWorkflowRunning resp = false
   \/ In onTimer cases)
  /\ r_CurrentBranchToken resp = r_CurrentBranchToken response
  /\ r_RunID resp = r_RunID response.
Proof.
  revert response. induction cases as [| c cases IH]; intros response;
    [discriminate |].
  destruct c as [event | | err]; cbn [pollLoop].
  - destruct (negb (bytes_Equal token (n_CurrentBranchToken event)));
      [discriminate |].
    match goal with
    | |- context [ if ?c then _ else _ ] => destruct c eqn:Ec
    end.
    + intros [= <-]. simpl in *. split; [| auto].
      apply orb_true_iff in Ec as [Ec | Ec].
      * left. now apply Z.ltb_lt.
      * right. left. now apply negb_true_iff.
    + intros H. apply IH in H as (H1 & H2 & H3). simpl in H2, H3.
      split; [| auto]. simpl. tauto.
  - intros [= <-]. simpl. auto.
  - discriminate.
Qed.

(** A call of [getMutableStateOrPolling] that returns a snapshot returns
    it because the awaited event id is below the snapshot's next event id,
    or the run is no longer running, or the poll timer fired; and the
    snapshot carries the branch token the caller supplied, if it supplied
    one. *)
Theorem long_poll_returns_when_due env request resp log :
  getMutableStateOrPolling env request = (Some (inr resp), log) ->
  (expectedNextEventID request < r_NextEventID resp
   \/ r_IsWorkflowRunning resp = false
   \/ In onTimer (pe_select env))
  /\ (forall token,
        gr_CurrentBranchToken request = Some token ->
        r_CurrentBranchToken resp = token).
Proof.
  unfold getMutableStateOrPolling.
  destruct (pe_ValidateDomainUUID env); [discriminate |].
  destruct (pe_getMutableState env 0%nat) as [e | response]; [discriminate |].
  set (token := default (r_CurrentBranchToken response)
                  (gr_CurrentBranchToken request)).
  destruct (bytes_Equal token (r_CurrentBranchToken response)) eqn:Et;
    cbn [negb]; [| discriminate].
  apply bytes_Equal_spec in Et.
  assert (Htoken : forall tok, gr_CurrentBranchToken request = Some tok ->
                               token = tok).
  { intros tok H. unfold token. now rewrite H. }
  cbv zeta.
  destruct ((r_NextEventID response <=? expectedNextEventID request)
            && r_IsWorkflowRunning response) eqn:Ew.
  - destruct (pe_WatchHistoryEvent env); [discriminate |].
    destruct (pe_getMutableState env 1%nat) as [e | response']; [discriminate |].
    destruct (bytes_Equal token (r_CurrentBranchToken response')) eqn:Et';
      cbn [negb]; [| discriminate].
    apply bytes_Equal_spec in Et'.
    destruct ((expectedNextEventID request <? r_NextEventID response')
              || negb (r_IsWorkflowRunning response')) eqn:Ec.
    + intros [= <- <-]. split.
      * apply orb_true_iff in Ec as [Ec | Ec].
        -- left. now apply Z.ltb_lt.
        -- right. left. now apply negb_true_iff.
      * intros tok H. rewrite <- Et'. auto.
    + destruct (pe_GetDomainName env); [discriminate |].
      intros [= H <-]. apply pollLoop_returns in H as (H1 & H2 & _).
      split; [exact H1 |]. intros tok Htok. rewrite H2, <- Et'. auto.
  - intros [= <- <-]. split.
    + apply andb_false_iff in Ew as [Ew | Ew].
      * left. apply Z.leb_gt in Ew. lia.
      * right. left. exact Ew.
    + intros tok H. rewrite <- Et. auto.
Qed.

Lemma long_poll_returns_when_due_witness :
  r_IsWorkflowRunning (sampleResponse 8 false) = false
  \/ expectedNextEventID (sampleGet 9 (Some [Byte.x0a])) < 8
  \/ In onTimer [onTimer].
Proof.
  destruct (long_poll_returns_when_due (samplePollEnv (sampleResponse 8 false))
              (sampleGet 9 (Some [Byte.x0a])) (sampleResponse 8 false) []
              eq_refl) as [[H | [H | H]] _].
  - right. left. exact H.
  - left. exact H.
  - right. right. exact H.
Defined.

(** Whatever the collaborators answer, [getMutableStateOrPolling] either
    never subscribes to the history-event notifier, or subscribes once
    and fails because the subscription failed, or subscribes first and
    unsubscribes last, under the same domain, workflow and run, with at
    most the start of the poll timer in between. *)
Theorem long_poll_subscription_pairing env request :
  let log := snd (getMutableStateOrPolling env request) in
  log = []
  \/ exists runID,
       let watch := WatchHistoryEvent (gr_DomainUUID request)
                      (gr_WorkflowID request) runID in
       let unwatch := UnwatchHistoryEvent (gr_DomainUUID request)
                        (gr_WorkflowID request) runID in
       (log = [watch]
        /\ exists err, pe_WatchHistoryEvent env = Some err
                       /\ fst (getMutableStateOrPolling env request) = Some (inl err))
       \/ log = [watch; unwatch]
       \/ log = [watch; NewTimer; unwatch].
Proof.
  cbv zeta. unfold getMutableStateOrPolling.
  destruct (pe_ValidateDomainUUID env); [now left |].
  destruct (pe_getMutableState env 0%nat) as [e | response]; [now left |].
  destruct (negb (bytes_Equal _ (r_CurrentBranchToken response))); [now left |].
  cbv zeta.
  destruct ((r_NextEventID response <=? expectedNextEventID request)
            && r_IsWorkflowRunning response); [| now left].
  right. exists (r_RunID response).
  destruct (pe_WatchHistoryEvent env) as [err |]; [left; simpl; eauto |].
  right.
  destruct (pe_getMutableState env 1%nat) as [e | response']; [now left |].
  destruct (negb (bytes_Equal _ (r_CurrentBranchToken response'))); [now left |].
  destruct ((expectedNextEventID request <? r_NextEventID response')
            || negb (r_IsWorkflowRunning response')); [now left |].
  destruct (pe_GetDomainName env); [now left | now right].
Qed.

(** ** Domain failover callback: locks and order *)

Lemma failoverDomainIDs_fold env v l (acc : gset string) id :
  id ∈ foldl (fun ids nextDomain =>
                if failoverPredicate env v nextDomain
                then {[ d_ID nextDomain ]} ∪ ids else ids) acc l
  <-> id ∈ acc
      \/ exists d, In d l /\ d_ID d = id /\ failoverPredicate env v d = true.
Proof.
  revert acc. induction l as [| d l IH]; intros acc; simpl.
  - split; [auto | intros [H | (d & [] & _)]; exact H].
  - rewrite IH. destruct (failoverPredicate env v d) eqn:E.
    + rewrite elem_of_union, elem_of_singleton. split.
      * intros [[-> | H] | (d' & Hd & Hid & Hp)]; eauto 10.
      * intros [H | (d' & [<- | Hd] & Hid & Hp)]; eauto 10.
    + split.
      * intros [H | (d' & Hd & Hid & Hp)]; eauto 10.
      * intros [H | (d' & [<- | Hd] & Hid & Hp)]; eauto 10. congruence.
Qed.

(** The commit callback, whatever the batch and whatever the replication
    queue answers, ends by unlocking task processing on the transfer and
    the timer processor and touches the locks nowhere else; the domains it
    fails over are exactly the ids of the global domains of the batch that
    became active in this cluster at a failover-notification version not
    below the shard's; both processors are told to fail over iff there is
    such a domain; and every fail-over call comes before the failover
    markers are handed to the replication queue. *)
Theorem failover_commit_unlocks_and_orders env prevDomains nextDomains :
  let version := fe_GetDomainNotificationVersion env in
  let ids := failoverDomainIDs env version nextDomains in
  let log := failoverCommit env prevDomains nextDomains in
  (exists body,
     log = body ++ [UnlockTaskProcessing txProcessor;
                    UnlockTaskProcessing timerProcessor]
     /\ forallb (fun e => negb (isLockingCall e)) body = true)
  /\ (forall id,
        id ∈ ids <->
        exists d, In d nextDomains /\ d_ID d = id
                  /\ d_IsGlobalDomain d = true
                  /\ version <= d_FailoverNotificationVersion d
                  /\ d_ActiveClusterName d = fe_currentClusterName env)
  /\ (forall p ids', In (FailoverDomain p ids') log -> ids' = ids /\ ids <> ∅)
  /\ (ids <> ∅ ->
      In (FailoverDomain txProcessor ids) log
      /\ In (FailoverDomain timerProcessor ids) log)
  /\ (forall before markers answer after,
        log = before ++ ReplicateFailoverMarkers markers answer :: after ->
        forallb (fun e => negb (isFailoverCall e)) after = true).
Proof.
  cbv zeta.
  set (version := fe_GetDomainNotificationVersion env).
  set (ids := failoverDomainIDs env version nextDomains).
  split; [| split].
  - unfold failoverCommit. eexists. split; [reflexivity |].
    unfold failoverCommitBody. destruct (last nextDomains); [| reflexivity].
    cbv zeta. fold version. fold ids.
    rewrite forallb_app. apply andb_true_iff. split.
    + destruct (bool_decide (ids = ∅)); reflexivity.
    + destruct (failoverMarkerTasks env version nextDomains); [reflexivity |].
      simpl. destruct (fe_ReplicateFailoverMarkers env _); reflexivity.
  - intros id. unfold ids, failoverDomainIDs.
    rewrite failoverDomainIDs_fold. split.
    + intros [H | (d & Hd & Hid & Hp)]; [set_solver |].
      exists d. unfold failoverPredicate in Hp.
      rewrite !andb_true_iff, Z.leb_le, String.eqb_eq in Hp. tauto.
    + intros (d & Hd & Hid & Hg & Hv & Ha). right. exists d.
      unfold failoverPredicate.
      rewrite !andb_true_iff, Z.leb_le, String.eqb_eq. tauto.
  - assert (Hlog :
      exists tail,
        failoverCommit env prevDomains nextDomains
        = (if bool_decide (ids = ∅) then []
           else [ FailoverDomain txProcessor ids;
                  FailoverDomain timerProcessor ids;
                  NotifyNewTask txProcessor (fe_currentClusterName env) None;
                  NotifyNewTask timerProcessor (fe_currentClusterName env)
                    (Some (fe_Now env)) ]) ++ tail
        /\ forallb (fun e => negb (isFailoverCall e)) tail = true).
    { unfold failoverCommit, failoverCommitBody.
      destruct (last nextDomains) eqn:El.
      - cbv zeta. fold version. fold ids. eexists.
        split; [rewrite <- app_assoc; reflexivity |].
        rewrite forallb_app. apply andb_true_iff. split; [| reflexivity].
        destruct (failoverMarkerTasks env version nextDomains); [reflexivity |].
        simpl. destruct (fe_ReplicateFailoverMarkers env _); reflexivity.
      - apply last_None in El. subst ids. subst nextDomains.
        exists [UnlockTaskProcessing txProcessor; UnlockTaskProcessing timerProcessor].
        unfold failoverDomainIDs. simpl.
        rewrite bool_decide_eq_true_2 by reflexivity. split; reflexivity. }
    destruct Hlog as (tail & Hlog & Htail). rewrite Hlog. clear Hlog.
    assert (Hnot : forall p ids', ~ In (FailoverDomain p ids') tail).
    { intros p ids' Hin. rewrite forallb_forall in Htail.
      apply Htail in Hin. discriminate Hin. }
    destruct (bool_decide (ids = ∅)) eqn:Eb;
      [apply bool_decide_eq_true in Eb | apply bool_decide_eq_false in Eb].
    + split; [| split].
      * intros p ids' Hin. exfalso. eapply Hnot. exact Hin.
      * intros Hne. contradiction.
      * intros before markers answer after E. simpl in E.
        apply forallb_forall. intros x Hx.
        rewrite forallb_forall in Htail. apply Htail.
        rewrite E. apply in_or_app. right. now right.
    + split; [| split].
      * intros p ids' Hin.
        apply in_app_or in Hin as [Hin | Hin];
          [| exfalso; eapply Hnot; exact Hin].
        simpl in Hin.
        destruct Hin as [H | [H | [H | [H | []]]]]; try discriminate H;
          injection H as _ <-; auto.
      * intros _. split; apply in_or_app; left; simpl; auto.
      * intros before markers answer after E.
        apply forallb_forall. intros x Hx.
        rewrite forallb_forall in Htail. apply Htail.
        destruct before as [| b0 before]; simpl in E; [discriminate E |].
        injection E as <- E.
        destruct before as [| b1 before]; simpl in E; [discriminate E |].
        injection E as <- E.
        destruct before as [| b2 before]; simpl in E; [discriminate E |].
        injection E as <- E.
        destruct before as [| b3 before]; simpl in E; [discriminate E |].
        injection E as <- E.
        rewrite E. apply in_or_app. right. now right.
Qed.

(** ** History shard *)

(** With a shard count that fits 32 bits, [WorkflowIDToHistoryShard] and
    [DomainIDToHistoryShard] map a string to the same shard, and that
    shard is a valid index below the shard count, whatever the
    fingerprint function returns. *)
Theorem history_shard_in_range (Fingerprint32 : list Byte.byte -> Z)
    (id : string) (numberOfShards : Z) :
  0 < numberOfShards < 2 ^ 32 ->
  exists shard,
    WorkflowIDToHistoryShard Fingerprint32 id numberOfShards = Some shard
    /\ DomainIDToHistoryShard Fingerprint32 id numberOfShards = Some shard
    /\ 0 <= shard < numberOfShards.
Proof.
  intros Hn. unfold WorkflowIDToHistoryShard, DomainIDToHistoryShard, uint32.
  rewrite (Z.mod_small numberOfShards) by lia.
  destruct (numberOfShards =? 0) eqn:E; [apply Z.eqb_eq in E; lia |].
  eexists. split; [reflexivity |]. split; [reflexivity |].
  apply Z.mod_pos_bound. lia.
Qed.

Lemma history_shard_in_range_witness :
  exists shard,
    WorkflowIDToHistoryShard (fun _ => 4294967303) "workflow-1" 4 = Some shard
    /\ DomainIDToHistoryShard (fun _ => 4294967303) "workflow-1" 4 = Some shard
    /\ 0 <= shard < 4.
Proof.
  apply (history_shard_in_range (fun _ => 4294967303) "workflow-1" 4). lia.
Defined.

(** ** [QueryWorkflow] before it dispatches *)

Lemma queryFirstDecisionTaskWaitTime_min ctxDeadline now :
  time_Second <= queryFirstDecisionTaskWaitTime ctxDeadline now.
Proof.
  unfold queryFirstDecisionTaskWaitTime, defaultQueryFirstDecisionTaskWaitTime.
  destruct ctxDeadline as [d |]; [| lia].
  destruct (time_Second <? _) eqn:E; [apply Z.ltb_lt in E |]; lia.
Qed.

Lemma firstDecisionWait_gives_up getMutableState deadline resp n ticks resp' :
  firstDecisionWait getMutableState deadline resp n ticks = Some (inr resp') ->
  r_PreviousStartedEventID resp' <= 0 ->
  exists now, In now ticks /\ deadline <= now.
Proof.
  revert resp n. induction ticks as [| now ticks IH]; intros resp n.
  - cbn [firstDecisionWait].
    destruct (negb (r_PreviousStartedEventID resp <=? 0)) eqn:E; [| discriminate].
    intros [= <-] Hle. apply negb_true_iff, Z.leb_gt in E. lia.
  - cbn [firstDecisionWait].
    destruct (negb (r_PreviousStartedEventID resp <=? 0)) eqn:E.
    + intros [= <-] Hle. apply negb_true_iff, Z.leb_gt in E. lia.
    + destruct (now <? deadline) eqn:Et.
      * destruct (getMutableState n) as [err | resp1]; [discriminate |].
        intros H Hle. destruct (IH _ _ H Hle) as (t & Hin & Ht).
        exists t. split; [now right | exact Ht].
      * intros _ _. exists now. split; [now left |].
        apply Z.ltb_ge in Et. exact Et.
Qed.

Lemma firstDecisionWait_answer getMutableState deadline resp n ticks resp' :
  firstDecisionWait getMutableState deadline resp n ticks = Some (inr resp') ->
  resp' = resp \/ exists m, getMutableState m = inr resp'.
Proof.
  revert resp n. induction ticks as [| now ticks IH]; intros resp n;
    cbn [firstDecisionWait];
    destruct (negb (r_PreviousStartedEventID resp <=? 0));
    try discriminate; try (intros [= <-]; now left).
  destruct (now <? deadline); [| intros [= <-]; now left].
  destruct (getMutableState n) as [err | resp1] eqn:Eg; [discriminate |].
  intros H. apply IH in H as [-> | H]; right; eauto.
Qed.

(** [QueryWorkflow] answers [ErrQueryWorkflowBeforeFirstDecision] of its
    own only after a clock reading at least one second past the reading
    its wait deadline was computed from, however short the deadline of
    the caller's context. *)
Theorem query_gives_up_after_a_second env level rejectCondition :
  (forall n, qe_getMutableState env n <> inl ErrQueryWorkflowBeforeFirstDecision) ->
  QueryWorkflow_prepare env level rejectCondition
    = Some (inl ErrQueryWorkflowBeforeFirstDecision) ->
  exists now, In now (qe_NowAtTest env) /\ qe_NowAtAdd env + time_Second <= now.
Proof.
  intros Hget. unfold QueryWorkflow_prepare.
  destruct (is_Strong level && _); [discriminate |].
  destruct (qe_getMutableState env 0%nat) as [err | resp] eqn:E0.
  { intros [= ->]. exfalso. exact (Hget _ E0). }
  destruct (queryRejected rejectCondition resp); [discriminate |].
  cbv zeta.
  destruct (firstDecisionWait _ _ _ _ _) as [[err | resp'] |] eqn:Ew;
    [| | discriminate].
  - intros [= ->]. exfalso.
    assert (Herr : forall ticks resp n d,
      firstDecisionWait (qe_getMutableState env) d resp n ticks
        = Some (inl ErrQueryWorkflowBeforeFirstDecision) -> False).
    { induction ticks as [| now ticks IH]; intros r n d; cbn [firstDecisionWait];
        destruct (negb (r_PreviousStartedEventID r <=? 0)); try discriminate.
      destruct (now <? d); [| discriminate].
      destruct (qe_getMutableState env n) as [e | r1] eqn:Eg.
      - intros [= ->]. exact (Hget _ Eg).
      - apply IH. }
    exact (Herr _ _ _ _ Ew).
  - destruct (r_PreviousStartedEventID resp' <=? 0) eqn:Ep; [| discriminate].
    intros _. apply Z.leb_le in Ep.
    destruct (firstDecisionWait_gives_up _ _ _ _ _ _ Ew Ep) as (now & Hin & Hnow).
    exists now. split; [exact Hin |].
    pose proof (queryFirstDecisionTaskWaitTime_min (qe_Deadline env) (qe_NowAtSub env)).
    unfold time.Add in Hnow. lia.
Qed.

Lemma query_gives_up_after_a_second_witness :
  exists now,
    In now [0; 500 * time_Millisecond; 1000 * time_Millisecond]
    /\ 0 + time_Second <= now.
Proof.
  apply (query_gives_up_after_a_second
           (sampleQueryPrepareEnv sampleUndecidedResponse
              [0; 500 * time_Millisecond; 1000 * time_Millisecond])
           types.QueryConsistencyLevelEventual None).
  - intros n. discriminate.
  - reflexivity.
Defined.

(** A strongly consistent query is refused before any read of the mutable
    state when consistent queries are switched off; a query is rejected
    only on the first snapshot, for a run that is not running, under
    [NotOpen] or under [NotCompletedCleanly] with a close status other
    than completed; and a query goes on to dispatch only with a snapshot
    the mutable state returned whose first decision task has started. *)
Theorem query_prepare_outcomes env level rejectCondition :
  (is_Strong level = true ->
   qe_EnableConsistentQuery env && qe_EnableConsistentQueryByDomain env = false ->
   QueryWorkflow_prepare env level rejectCondition
     = Some (inl ErrConsistentQueryNotEnabled))
  /\ (forall closeStatus,
        QueryWorkflow_prepare env level rejectCondition
          = Some (inr (QueryRejected closeStatus)) ->
        exists resp,
          qe_getMutableState env 0%nat = inr resp
          /\ r_IsWorkflowRunning resp = false
          /\ closeStatus = r_WorkflowCloseState resp
          /\ (rejectCondition = Some QueryRejectConditionNotOpen
              \/ rejectCondition = Some QueryRejectConditionNotCompletedCleanly
                 /\ closeStatus <> persistence.WorkflowCloseStatusCompleted))
  /\ (forall resp,
        QueryWorkflow_prepare env level rejectCondition
          = Some (inr (QueryProceeds resp)) ->
        0 < r_PreviousStartedEventID resp
        /\ exists n, qe_getMutableState env n = inr resp).
Proof.
  unfold QueryWorkflow_prepare. split; [| split].
  - intros -> ->. reflexivity.
  - intros closeStatus.
    destruct (is_Strong level && _); [discriminate |].
    destruct (qe_getMutableState env 0%nat) as [err | resp]; [discriminate |].
    destruct (queryRejected rejectCondition resp) eqn:Er.
    + intros [= <-]. exists resp. split; [reflexivity |].
      unfold queryRejected in Er. apply andb_true_iff in Er as [Hrun Hc].
      apply negb_true_iff in Hrun. split; [exact Hrun |]. split; [reflexivity |].
      destruct rejectCondition as [[|] |]; [now left | right | discriminate].
      split; [reflexivity |]. apply negb_true_iff, Z.eqb_neq in Hc. exact Hc.
    + cbv zeta. destruct (firstDecisionWait _ _ _ _ _) as [[e | r] |];
        try discriminate.
      destruct (r_PreviousStartedEventID r <=? 0); discriminate.
  - intros resp'.
    destruct (is_Strong level && _); [discriminate |].
    destruct (qe_getMutableState env 0%nat) as [err | resp] eqn:E0; [discriminate |].
    destruct (queryRejected rejectCondition resp); [discriminate |].
    cbv zeta. destruct (firstDecisionWait _ _ _ _ _) as [[e | r] |] eqn:Ew;
      try discriminate.
    destruct (r_PreviousStartedEventID r <=? 0) eqn:Ep; [discriminate |].
    intros [= <-]. split; [now apply Z.leb_gt in Ep |].
    apply firstDecisionWait_answer in Ew as [-> | Hm]; eauto.
Qed.

(** ** Query dispatched directly through matching *)

Ltac dq_done :=
  simpl;
  repeat match goal with
         | |- _ /\ _ => split
         | |- _ -> _ => intro
         | |- forall _, _ => intro
         end;
  repeat match goal with
         | H : In _ _ |- _ => simpl in H
         | H : _ \/ _ |- _ => destruct H
         | H : False |- _ => destruct H
         | H : _ = _ |- _ => discriminate H
         end;
  try congruence; auto 10.

(** [queryDirectlyThroughMatching] calls matching in a fixed order and
    each step at most once: the sticky query, then the reset of the sticky
    task list, then the non-sticky query.  The sticky query is made only
    for an active domain with stickiness enabled, a non-empty sticky task
    list, a client that supports it and the feature switched on; the
    stickiness is reset only after the sticky query ended with a
    deadline-exceeded status on a running workflow; the non-sticky query is made
    only when the sticky one was skipped or timed out and the caller's
    context is still valid; and a sticky answer is returned as it is. *)
Theorem direct_query_sticky_then_non_sticky {QueryResponse}
    (env : DirectQuery.Env QueryResponse) msResp ctx now :
  let result := DirectQuery.queryDirectlyThroughMatching env msResp ctx now in
  let log := snd result in
  let sticky :=
    DirectQuery.StickyQueryWorkflow (DirectQuery.StickyTaskListName msResp)
      (Int.int64 (DirectQuery.StickyTaskListScheduleToStartTimeout msResp
                  * time_Second)) in
  let reset := DirectQuery.ResetStickyTaskList (5 * time_Second) in
  let nonSticky :=
    DirectQuery.NonStickyQueryWorkflow (DirectQuery.TaskListName msResp) in
  (log = [] \/ log = [nonSticky] \/ log = [sticky] \/ log = [sticky; nonSticky]
   \/ log = [sticky; reset] \/ log = [sticky; reset; nonSticky])
  /\ (In sticky log ->
      DirectQuery.GetDomainByID env = inr true
      /\ DirectQuery.IsStickyTaskListEnabled msResp = true
      /\ DirectQuery.StickyTaskListName msResp <> ""
      /\ DirectQuery.SupportsStickyQuery env = None
      /\ DirectQuery.EnableStickyQuery env = true)
  /\ (In reset log ->
      DirectQuery.IsWorkflowRunning msResp = true
      /\ DirectQuery.rawMatchingQueryWorkflow env
         = inl (YarpcStatus CodeDeadlineExceeded))
  /\ (In nonSticky log ->
      IsValidContext ctx now = None
      /\ fst result = DirectQuery.matchingQueryWorkflow env
      /\ (In sticky log ->
          DirectQuery.rawMatchingQueryWorkflow env
          = inl (YarpcStatus CodeDeadlineExceeded)))
  /\ (forall matchingResp,
        In sticky log ->
        DirectQuery.rawMatchingQueryWorkflow env = inr matchingResp ->
        result = (inr matchingResp, [sticky])).
Proof.
  cbv zeta. unfold DirectQuery.queryDirectlyThroughMatching, DirectQuery.nonSticky.
  assert (Hdl : forall err, DirectQuery.isDeadlineExceededStatus err = true ->
                            err = YarpcStatus CodeDeadlineExceeded).
  { intros [] H; try discriminate H. simpl in H. apply Z.eqb_eq in H. now subst. }
  assert (Hname : String.length (DirectQuery.StickyTaskListName msResp) <> 0%nat ->
                  DirectQuery.StickyTaskListName msResp <> "").
  { intros Hl E. rewrite E in Hl. now apply Hl. }
  destruct (DirectQuery.GetDomainByID env) as [err | active]; [dq_done |].
  destruct (DirectQuery.IsStickyTaskListEnabled msResp) eqn:Es; cbn [andb];
    [| destruct (IsValidContext ctx now); dq_done].
  destruct (String.length (DirectQuery.StickyTaskListName msResp)) eqn:El;
    cbn [Nat.eqb negb andb]; [destruct (IsValidContext ctx now); dq_done |].
  assert (Hn : DirectQuery.StickyTaskListName msResp <> "") by (apply Hname; lia).
  clear Hname El.
  destruct (bool_decide (DirectQuery.SupportsStickyQuery env = None)) eqn:Eq;
    cbn [andb];
    [apply bool_decide_eq_true in Eq | destruct (IsValidContext ctx now); dq_done].
  destruct (DirectQuery.EnableStickyQuery env) eqn:Ee; cbn [andb];
    [| destruct (IsValidContext ctx now); dq_done].
  destruct active; [| destruct (IsValidContext ctx now); dq_done].
  destruct (DirectQuery.rawMatchingQueryWorkflow env) as [err | resp] eqn:Er;
    [| dq_done].
  destruct (DirectQuery.isDeadlineExceededStatus err) eqn:Ed; cbn [negb];
    [| dq_done].
  apply Hdl in Ed. subst err.
  destruct (DirectQuery.IsWorkflowRunning msResp) eqn:Erun.
  - destruct (DirectQuery.resetStickyTaskList env) as [e |].
    + destruct (DirectQuery.isNot_ErrAlreadyCompleted e); [dq_done |].
      destruct (IsValidContext ctx now); dq_done.
    + destruct (IsValidContext ctx now); dq_done.
  - destruct (IsValidContext ctx now); dq_done.
Qed.

(** ** [DescribeWorkflowExecution] *)

Lemma describePendingActivity_wf a activityType :
  pendingActivityWellFormed (describePendingActivity a activityType).
Proof.
  unfold pendingActivityWellFormed, describePendingActivity. cbn -[Z.ltb Z.eqb String.eqb].
  destruct (ai_CancelRequested (pa_ai a));
    destruct (ai_StartedID (pa_ai a) =? common.EmptyEventID);
    destruct (0 <? time.UnixNano (ai_LastHeartBeatUpdatedTime (pa_ai a))) eqn:Eh;
    destruct (pa_HasRetryPolicy a);
    destruct (pa_MaximumAttempts a =? 0);
    destruct (String.eqb (pa_LastFailureReason a) "") eqn:Er;
    destruct (String.eqb (pa_LastWorkerIdentity a) "");
    cbn -[Z.ltb Z.eqb String.eqb];
    repeat split; try (intros; discriminate); try (intros; congruence);
    try (eexists; reflexivity);
    try (intros t [= <-]; now apply Z.ltb_lt);
    try (intros [= E]; rewrite E in Er; discriminate Er).
Qed.

Lemma describePendingActivities_shape get pending ps :
  describePendingActivities get pending = inr ps ->
  p_ActivityID <$> ps = (fun a => ai_ActivityID (pa_ai a)) <$> pending
  /\ Forall pendingActivityWellFormed ps.
Proof.
  revert ps. induction pending as [| a rest IH]; intros ps; cbn [describePendingActivities].
  - intros [= <-]. split; [reflexivity | constructor].
  - destruct (get (ai_ScheduleID (pa_ai a))) as [err | ty]; [discriminate |].
    destruct (describePendingActivities get rest) as [err | ps']; [discriminate |].
    intros [= <-]. destruct (IH _ eq_refl) as [Hids Hwf]. split.
    + cbn [fmap list_fmap]. f_equal. exact Hids.
    + constructor; [apply describePendingActivity_wf | exact Hwf].
Qed.

(** A response of [DescribeWorkflowExecution] lists the pending
    activities in the order the mutable state yields them; each has the
    scheduled timestamp exactly when it is in state scheduled and the
    last-started timestamp otherwise, a positive heartbeat timestamp or
    none and then no heartbeat details, and none of the retry fields
    without a retry policy.  Close status and close time are there exactly
    for a completed run, the parent exactly for a non-empty parent run
    id, and a pending decision has a started timestamp exactly in state
    started. *)
Theorem describe_response_shape (ToInternalWorkflowExecutionCloseStatus : Z -> Z)
    env resp :
  DescribeWorkflowExecution ToInternalWorkflowExecutionCloseStatus env = inr resp ->
  p_ActivityID <$> dr_PendingActivities resp
    = (fun a => ai_ActivityID (pa_ai a)) <$> de_GetPendingActivityInfos env
  /\ Forall pendingActivityWellFormed (dr_PendingActivities resp)
  /\ (is_Some (dr_CloseTime resp)
      <-> de_State env = persistence.WorkflowStateCompleted)
  /\ (is_Some (dr_CloseStatus resp)
      <-> de_State env = persistence.WorkflowStateCompleted)
  /\ (is_Some (dr_Parent resp) <-> de_ParentRunID env <> "")
  /\ match dr_PendingDecision resp with
     | Some pd => pendingDecisionWellFormed pd
     | None => de_GetPendingDecision env = None
     end.
Proof.
  unfold DescribeWorkflowExecution.
  destruct (de_ValidateDomainUUID env); [discriminate |].
  destruct (de_GetOrCreateWorkflowExecution env); [discriminate |].
  destruct (de_LoadWorkflowExecution env); [discriminate |].
  destruct (de_GetStartEvent env) as [err | backoff]; [discriminate |].
  cbv zeta.
  assert (Hclosed :
    forall closeStatus closeTime,
      (if de_State env =? persistence.WorkflowStateCompleted
       then match de_GetCompletionEvent env with
            | inl err => inl err
            | inr timestamp =>
                inr (Some (ToInternalWorkflowExecutionCloseStatus (de_CloseStatus env)),
                     Some timestamp)
            end
       else inr (None, None)) = inr (closeStatus, closeTime) ->
      (is_Some closeTime <-> de_State env = persistence.WorkflowStateCompleted)
      /\ (is_Some closeStatus <-> de_State env = persistence.WorkflowStateCompleted)).
  { intros cs ct. destruct (de_State env =? _) eqn:Es.
    - apply Z.eqb_eq in Es.
      destruct (de_GetCompletionEvent env); [discriminate |].
      intros [= <- <-]. split; split; eauto.
    - apply Z.eqb_neq in Es. intros [= <- <-].
      split; split; try contradiction; intros [? H]; discriminate H. }
  destruct (if de_State env =? _ then _ else _) as [err | [closeStatus closeTime]];
    [discriminate |].
  destruct (Hclosed _ _ eq_refl) as [Hct Hcs].
  destruct (describePendingActivities _ _) as [err | ps] eqn:Ep; [discriminate |].
  intros [= <-]. cbn.
  apply describePendingActivities_shape in Ep as [Hids Hwf].
  split; [exact Hids |]. split; [exact Hwf |]. split; [exact Hct |].
  split; [exact Hcs |]. split.
  - destruct (String.eqb (de_ParentRunID env) "") eqn:Er; cbn.
    + apply String.eqb_eq in Er. split; [intros [? H]; discriminate H | contradiction].
    + apply String.eqb_neq in Er. split; eauto.
  - destruct (de_GetPendingDecision env) as [di |]; cbn; [| reflexivity].
    unfold pendingDecisionWellFormed, describePendingDecision. cbn.
    destruct (di_StartedID di =? common.EmptyEventID); cbn; split; eauto;
      try discriminate; intros [? H]; discriminate H.
Qed.

Lemma describe_response_shape_witness :
  match DescribeWorkflowExecution (fun status => status) sampleDescribeEnv with
  | inr resp =>
      Forall pendingActivityWellFormed (dr_PendingActivities resp)
      /\ p_ActivityID <$> dr_PendingActivities resp = ["a"]
  | inl _ => False
  end.
Proof.
  destruct (describe_response_shape (fun status => status) sampleDescribeEnv _ eq_refl)
    as (Hids & Hwf & _).
  split; [exact Hwf | exact Hids].
Defined.

(** ** [GetDLQReplicationMessages] *)

(** [GetDLQReplicationMessages] asks for the tasks in the order of the
    request.  It succeeds exactly when every lookup succeeds, and then
    returns the tasks that are not nil, in request order, after one lookup
    per task info; it fails with the error of the first lookup that
    fails, and makes no lookup after it. *)
Theorem dlq_messages_first_error {ReplicationTaskInfo ReplicationTask : Type}
    (GetTask : ReplicationTaskInfo -> Error + option ReplicationTask)
    (taskInfos : list ReplicationTaskInfo) :
  match GetDLQReplicationMessages _ _ GetTask taskInfos with
  | (inr tasks, calls) =>
      calls = taskInfos
      /\ Forall (fun taskInfo => exists task, GetTask taskInfo = inr task) taskInfos
      /\ tasks = omap (fun taskInfo =>
                         match GetTask taskInfo with
                         | inr task => task
                         | inl _ => None
                         end) taskInfos
  | (inl err, calls) =>
      exists before taskInfo after,
        taskInfos = before ++ taskInfo :: after
        /\ calls = before ++ [taskInfo]
        /\ GetTask taskInfo = inl err
        /\ Forall (fun taskInfo => exists task, GetTask taskInfo = inr task) before
  end.
Proof.
  induction taskInfos as [| taskInfo rest IH]; cbn [GetDLQReplicationMessages].
  - split; [reflexivity |]. split; [constructor | reflexivity].
  - destruct (GetTask taskInfo) as [err | task] eqn:Eg.
    + exists [], taskInfo, rest. repeat split; auto.
    + destruct (GetDLQReplicationMessages _ _ GetTask rest) as [[err | tasks] calls].
      * destruct IH as (before & ti & after & -> & -> & Hti & Hbefore).
        exists (taskInfo :: before), ti, after. repeat split; auto.
        constructor; eauto.
      * destruct IH as (-> & Hall & ->). split; [reflexivity |].
        split; [constructor; eauto |].
        cbn [omap list_omap]. rewrite Eg. destruct task; reflexivity.
Qed.

(** ** [ReapplyEvents] *)

Ltac reapply_no_call :=
  simpl;
  split; [lia |];
  split; [intros ? [] |];
  split; [intros ? [] |];
  split;
  [ let Hr := fresh in let Hc := fresh in
    intros ? Hr; try discriminate Hr; injection Hr as <-; intros Hc; discriminate Hc
  | let Hrun := fresh in let Hr := fresh in
    intros Hrun ? Hr; try discriminate Hr; try discriminate Hrun;
    injection Hr as <-; reflexivity ].

(** The action of [ReapplyEvents] makes at most one call on the resetter
    or the reapplier.  The events it hands over are never empty and are
    exactly the events of the request, in their order, whose version
    differs from the last write version of the run and that were not
    reapplied before.  The resetter is called only for a run that is not
    running, at its previous started event, which then exists; the
    reapplier only for a running run.  A decision is asked for only when
    the run is running, the reapplier reapplied something and the run is
    not a cron run without a decision; on a closed run a successful
    action is always a no-op. *)
Theorem reapply_events_foreign_and_new env runID reapplyEvents :
  let result := fst (ReapplyEventsAction env runID reapplyEvents) in
  let log := snd (ReapplyEventsAction env runID reapplyEvents) in
  (length log <= 1)%nat
  /\ (forall c, In c log ->
        callEvents c <> []
        /\ sublist (callEvents c) reapplyEvents
        /\ exists lastWriteVersion,
             re_GetLastWriteVersion env = inr lastWriteVersion
             /\ forall event,
                  In event (callEvents c) <->
                  In event reapplyEvents
                  /\ he_Version event <> lastWriteVersion
                  /\ re_IsResourceDuplicated env runID
                       (he_EventID event) (he_Version event) = false)
  /\ (forall c, In c log ->
        match c with
        | ResetWorkflowForReapply baseRunID _ baseRebuildLastEventID _
            baseNextEventID _ skipSignalReapply =>
            re_IsWorkflowExecutionRunning env = false
            /\ baseRunID = re_RunID env
            /\ baseRebuildLastEventID = re_GetPreviousStartedEventID env
            /\ baseRebuildLastEventID <> common.EmptyEventID
            /\ baseNextEventID = re_GetNextEventID env
            /\ skipSignalReapply = false
        | EventsReapplierReapplyEvents _ runID' =>
            re_IsWorkflowExecutionRunning env = true /\ runID' = runID
        end)
  /\ (forall postActions,
        result = inr postActions ->
        CreateDecision postActions = true ->
        Noop postActions = false
        /\ re_IsWorkflowExecutionRunning env = true
        /\ (exists reapplied, re_ReapplyEvents env = inr reapplied /\ reapplied <> [])
        /\ (re_CronSchedule env = "" \/ re_HasProcessedOrPendingDecision env = true))
  /\ (re_IsWorkflowExecutionRunning env = false ->
      forall postActions, result = inr postActions -> postActions = noopAction).
Proof.
  cbv zeta. unfold ReapplyEventsAction.
  destruct (re_GetLastWriteVersion env) as [err | lastWriteVersion];
    [reapply_no_call |].
  cbv zeta.
  set (events := filter _ reapplyEvents).
  assert (Hsub : sublist events reapplyEvents) by apply sublist_filter.
  assert (Hin : forall event,
            In event events <->
            In event reapplyEvents
            /\ he_Version event <> lastWriteVersion
            /\ re_IsResourceDuplicated env runID
                 (he_EventID event) (he_Version event) = false).
  { intros event. unfold events.
    rewrite <- !list_elem_of_In, list_elem_of_filter.
    unfold toReapply.
    rewrite andb_true_iff, !negb_true_iff, Z.eqb_neq. tauto. }
  assert (Hcall : forall c, callEvents c = events -> events <> [] ->
            callEvents c <> []
            /\ sublist (callEvents c) reapplyEvents
            /\ exists v,
                 (inr lastWriteVersion : Error + Z) = inr v
                 /\ forall event,
                      In event (callEvents c) <->
                      In event reapplyEvents
                      /\ he_Version event <> v
                      /\ re_IsResourceDuplicated env runID
                           (he_EventID event) (he_Version event) = false).
  { intros c -> Hne. split; [exact Hne |]. split; [exact Hsub |].
    exists lastWriteVersion. split; [reflexivity | exact Hin]. }
  destruct (Nat.eqb (length events) 0) eqn:El; [reapply_no_call |].
  assert (Hne : events <> []).
  { intros E. rewrite E in El. discriminate El. }
  clearbody events. clear El.
  destruct (re_IsWorkflowExecutionRunning env) eqn:Erun; cbn [negb].
  - (* running *)
    destruct (re_ReapplyEvents env) as [err | reapplied] eqn:Er.
    + simpl. split; [lia |]. split.
      { intros c [<- | []]. apply Hcall; auto. }
      split.
      { intros c [<- | []]. auto. }
      split; [intros ? Hr; discriminate Hr |]. intros Hr; discriminate Hr.
    + destruct (Nat.eqb (length reapplied) 0) eqn:Elr.
      * simpl. split; [lia |]. split.
        { intros c [<- | []]. apply Hcall; auto. }
        split.
        { intros c [<- | []]. auto. }
        split; [intros ? [= <-] Hc; discriminate Hc |]. intros Hr; discriminate Hr.
      * simpl. split; [lia |]. split.
        { intros c [<- | []]. apply Hcall; auto. }
        split.
        { intros c [<- | []]. auto. }
        split; [| intros Hr; discriminate Hr].
        intros ? [= <-]. cbn [CreateDecision Noop]. intros Hcd.
        split; [reflexivity |]. split; [reflexivity |]. split.
        -- exists reapplied. split; [reflexivity |].
           intros E. rewrite E in Elr. discriminate Elr.
        -- destruct (String.eqb (re_CronSchedule env) "") eqn:Ec.
           ++ left. now apply String.eqb_eq.
           ++ right. destruct (re_HasProcessedOrPendingDecision env);
                [reflexivity | discriminate Hcd].
  - (* closed *)
    destruct (re_GetPreviousStartedEventID env =? common.EmptyEventID) eqn:Ep;
      [reapply_no_call |].
    apply Z.eqb_neq in Ep.
    destruct (re_GetVersionHistories env) as [[err | vh] |];
      [reapply_no_call | | reapply_no_call].
    destruct (vh_GetEventVersion vh _) as [err | version]; [reapply_no_call |].
    destruct (re_ResetWorkflow env) as [err |].
    + simpl. split; [lia |]. split.
      { intros c [<- | []]. apply Hcall; auto. }
      split.
      { intros c [<- | []]. repeat split; auto. }
      split; [intros ? Hr; discriminate Hr |]. intros _ ? Hr; discriminate Hr.
    + simpl. split; [lia |]. split.
      { intros c [<- | []]. apply Hcall; auto. }
      split.
      { intros c [<- | []]. repeat split; auto. }
      split; [intros ? [= <-] Hc; discriminate Hc |].
      intros _ ? [= <-]. reflexivity.
Qed.

(** ** The other activity handlers *)

Lemma AddActivityTaskCompletedEvent_pending ms scheduleID ai result :
  GetActivityInfo ms scheduleID = Some ai ->
  exists ms', AddActivityTaskCompletedEvent ms scheduleID (ai_StartedID ai) result
              = Some ms'.
Proof.
  intros E. unfold AddActivityTaskCompletedEvent. rewrite E, Z.eqb_refl. eauto.
Qed.

Ltac guard_cases token ms :=
  let Erun := fresh "Erun" in
  let Es := fresh "Es" in
  let Eai := fresh "Eai" in
  let El := fresh "El" in
  let Enf := fresh "Enf" in
  destruct (IsWorkflowExecutionRunning ms) eqn:Erun; cbn [negb];
  [ destruct (resolveScheduleID token ms) as [?err0 | ?scheduleID] eqn:Es;
    [| cbv zeta;
       destruct (GetActivityInfo ms scheduleID) as [?ai |] eqn:Eai;
       [ rewrite (bool_decide_eq_true_2 (is_Some (Some ai))) by eauto;
         cbn [negb andb];
         destruct (activityTaskNotFound token (Some ai)) eqn:Enf
       | rewrite (bool_decide_eq_false_2 (is_Some (@None ActivityInfo)))
           by (intros [? ?]; discriminate);
         cbn [negb andb];
         destruct (GetNextEventID ms <=? scheduleID) eqn:El;
         cbn [activityTaskNotFound] ] ]
  | ].

Ltac same_error :=
  cbn [fst snd];
  split;
  [ let H := fresh in intros H; injection H as <-; auto
  | let H := fresh in intros [H _]; injection H as <-; auto ].

Ltac no_guard_error :=
  cbn [fst snd];
  split;
  [ let H := fresh in intros H; discriminate H
  | let H := fresh in intros [_ H]; discriminate H ].

(** [RespondActivityTaskFailed] refuses a response under the guards of
    [RespondActivityTaskCompleted], with the same error and before any
    call that changes the mutable state.  Past the guards it asks once for
    a retry of the started activity; it adds the failed event after that
    exactly when no retry is left, and asks for a decision task exactly
    then. *)
Theorem respond_activity_failed_retry_or_record env token reason details ms :
  let result := fst (RespondActivityTaskFailedAction env token reason details ms) in
  let log := snd (RespondActivityTaskFailedAction env token reason details ms) in
  (forall err,
     fst (RespondActivityTaskCompleted token details ms) = Some err
     <-> result = inl err /\ log = [])
  /\ (log <> [] ->
      exists scheduleID ai,
        resolveScheduleID token ms = inr scheduleID
        /\ GetActivityInfo ms scheduleID = Some ai
        /\ ai_StartedID ai <> common.EmptyEventID
        /\ log = RetryActivity ai reason details ::
                 match ah_RetryActivity env with
                 | inr false =>
                     [AddActivityTaskFailedEvent scheduleID (ai_StartedID ai)]
                 | _ => []
                 end)
  /\ (forall postActions,
        result = inr postActions ->
        Noop postActions = false
        /\ (CreateDecision postActions = true <-> ah_RetryActivity env = inr false)
        /\ (CreateDecision postActions = false <-> ah_RetryActivity env = inr true)).
Proof.
  cbv zeta.
  unfold RespondActivityTaskFailedAction, RespondActivityTaskCompleted.
  guard_cases token ms.
  - split; [intros err; same_error |].
    split; [intros H; now contradiction H | intros ? H; discriminate H].
  - split; [intros err; same_error |].
    split; [intros H; now contradiction H | intros ? H; discriminate H].
  - destruct (AddActivityTaskCompletedEvent_pending ms scheduleID ai details Eai)
      as [ms' ->].
    assert (Hstarted : ai_StartedID ai <> common.EmptyEventID).
    { intros E. cbn [activityTaskNotFound] in Enf. rewrite E in Enf.
      discriminate Enf. }
    destruct (ah_RetryActivity env) as [err | [|]];
      [| | destruct (ah_AddActivityTaskFailedEvent env)]; cbn [negb fst snd].
    + split; [intros ?; no_guard_error |].
      split; [intros _; eauto 10 | intros ? H; discriminate H].
    + split; [intros ?; no_guard_error |].
      split; [intros _; eauto 10 |].
      intros ? [= <-]. cbn. repeat split; auto; discriminate.
    + split; [intros ?; no_guard_error |].
      split; [intros _; eauto 10 | intros ? H; discriminate H].
    + split; [intros ?; no_guard_error |].
      split; [intros _; eauto 10 |].
      intros ? [= <-]. cbn. repeat split; auto; discriminate.
  - split; [intros err; same_error |].
    split; [intros H; now contradiction H | intros ? H; discriminate H].
  - split; [intros err; same_error |].
    split; [intros H; now contradiction H | intros ? H; discriminate H].
  - split; [intros err; same_error |].
    split; [intros H; now contradiction H | intros ? H; discriminate H].
Qed.

(** [RespondActivityTaskCanceled] refuses a response under the guards of
    [RespondActivityTaskCompleted], with the same error and before any
    call that changes the mutable state.  Past the guards it adds the
    canceled event once, for the started activity and with whatever
    cancel-request id the activity holds, and returns nil exactly when
    that event was added. *)
Theorem respond_activity_canceled_records_once env token details identity ms :
  let result :=
    fst (RespondActivityTaskCanceledAction env token details identity ms) in
  let log :=
    snd (RespondActivityTaskCanceledAction env token details identity ms) in
  (forall err,
     fst (RespondActivityTaskCompleted token details ms) = Some err
     <-> result = Some err /\ log = [])
  /\ (log <> [] ->
      exists scheduleID ai,
        resolveScheduleID token ms = inr scheduleID
        /\ GetActivityInfo ms scheduleID = Some ai
        /\ ai_StartedID ai <> common.EmptyEventID
        /\ log = [AddActivityTaskCanceledEvent scheduleID (ai_StartedID ai)
                    (ar_CancelRequestID (ah_rest env ai)) details identity]
        /\ result
           = match ah_AddActivityTaskCanceledEvent env with
             | Some _ =>
                 Some (InternalServiceError
                         "Unable to add ActivityTaskCanceled event to history.")
             | None => None
             end)
  /\ (result = None -> log <> []).
Proof.
  cbv zeta.
  unfold RespondActivityTaskCanceledAction, RespondActivityTaskCompleted.
  guard_cases token ms.
  - split; [intros err; same_error |].
    split; [intros H; now contradiction H | intros H; discriminate H].
  - split; [intros err; same_error |].
    split; [intros H; now contradiction H | intros H; discriminate H].
  - destruct (AddActivityTaskCompletedEvent_pending ms scheduleID ai details Eai)
      as [ms' ->].
    assert (Hstarted : ai_StartedID ai <> common.EmptyEventID).
    { intros E. cbn [activityTaskNotFound] in Enf. rewrite E in Enf.
      discriminate Enf. }
    destruct (ah_AddActivityTaskCanceledEvent env); cbn [fst snd].
    + split; [intros ?; no_guard_error |].
      split; [intros _; eauto 10 | intros H; discriminate H].
    + split; [intros ?; no_guard_error |].
      split; [intros _; eauto 10 | intros _ H; discriminate H].
  - split; [intros err; same_error |].
    split; [intros H; now contradiction H | intros H; discriminate H].
  - split; [intros err; same_error |].
    split; [intros H; now contradiction H | intros H; discriminate H].
  - split; [intros err; same_error |].
    split; [intros H; now contradiction H | intros H; discriminate H].
Qed.

(** [RecordActivityTaskStarted] adds the started event only on a running
    workflow for a pending activity that has not started, under the
    schedule id and request id of the request.  For an activity that has
    started it only loads the scheduled event: the same request id gets
    the response again, with the started time the activity holds, and
    another request id gets EventAlreadyStarted.  A response always
    carries a started timestamp and the attempt and heartbeat details of
    the activity; a missing activity gives StaleState at or past the next
    event id and ActivityTaskNotFound below it, with no call made. *)
Theorem record_activity_started_once env domainName request ms :
  let result := fst (RecordActivityTaskStartedAction env domainName request ms) in
  let log := snd (RecordActivityTaskStartedAction env domainName request ms) in
  (forall ai scheduleID requestID identity,
     In (AddActivityTaskStartedEvent ai scheduleID requestID identity) log ->
     IsWorkflowExecutionRunning ms = true
     /\ scheduleID = rq_ScheduleID request
     /\ requestID = rq_RequestID request
     /\ GetActivityInfo ms scheduleID = Some ai
     /\ ai_StartedID ai = common.EmptyEventID)
  /\ (forall ai scheduledEvent,
        IsWorkflowExecutionRunning ms = true ->
        GetActivityInfo ms (rq_ScheduleID request) = Some ai ->
        ai_StartedID ai <> common.EmptyEventID ->
        ah_GetActivityScheduledEvent env = inr scheduledEvent ->
        log = [GetActivityScheduledEvent (rq_ScheduleID request)]
        /\ (ar_RequestID (ah_rest env ai) = rq_RequestID request ->
            exists response,
              result = inr response
              /\ rs_StartedTimestamp response
                 = Some (time.UnixNano (ai_StartedTime ai)))
        /\ (ar_RequestID (ah_rest env ai) <> rq_RequestID request ->
            result = inl (EventAlreadyStartedError "Activity task already started.")))
  /\ (forall response,
        result = inr response ->
        is_Some (rs_StartedTimestamp response)
        /\ exists ai,
             GetActivityInfo ms (rq_ScheduleID request) = Some ai
             /\ rs_Attempt response = ai_Attempt ai
             /\ rs_HeartbeatDetails response = ai_Details ai
             /\ rs_WorkflowDomain response = domainName)
  /\ (IsWorkflowExecutionRunning ms = true ->
      GetActivityInfo ms (rq_ScheduleID request) = None ->
      log = []
      /\ (result = inl (Plain ErrStaleState)
          <-> GetNextEventID ms <= rq_ScheduleID request)
      /\ (result = inl (Plain ErrActivityTaskNotFound)
          <-> rq_ScheduleID request < GetNextEventID ms)).
Proof.
  cbv zeta. unfold RecordActivityTaskStartedAction.
  destruct (IsWorkflowExecutionRunning ms) eqn:Erun; cbn [negb].
  2:{ cbn [fst snd]. split; [intros ? ? ? ? []|].
      split; [intros ? ? H; discriminate H |].
      split; [intros ? H; discriminate H | intros H; discriminate H]. }
  cbv zeta.
  destruct (GetActivityInfo ms (rq_ScheduleID request)) as [ai |] eqn:Eai.
  2:{ destruct (GetNextEventID ms <=? rq_ScheduleID request) eqn:El;
        [apply Z.leb_le in El | apply Z.leb_gt in El]; cbn [fst snd].
      - split; [intros ? ? ? ? [] |].
        split; [intros ? ? _ H; discriminate H |].
        split; [intros ? H; discriminate H |].
        intros _ _. split; [reflexivity |].
        split; (split; [intros H; try discriminate H; lia | intros H; try reflexivity; lia]).
      - split; [intros ? ? ? ? [] |].
        split; [intros ? ? _ H; discriminate H |].
        split; [intros ? H; discriminate H |].
        intros _ _. split; [reflexivity |].
        split; (split; [intros H; try discriminate H; lia | intros H; try reflexivity; lia]). }
  destruct (ah_GetActivityScheduledEvent env) as [err | scheduledEvent] eqn:Eload.
  { cbn [fst snd]. split; [intros ? ? ? ? [H | []]; discriminate H |].
    split; [intros ? ? _ _ _ H; discriminate H |].
    split; [intros ? H; discriminate H | intros _ H; discriminate H]. }
  destruct (ai_StartedID ai =? common.EmptyEventID) eqn:Estarted; cbn [negb];
    [apply Z.eqb_eq in Estarted | apply Z.eqb_neq in Estarted].
  - destruct (ah_AddActivityTaskStartedEvent env) as [err | startedTime];
      cbn [fst snd].
    + split.
      { intros ? ? ? ? [H | [H | []]]; [discriminate H |].
        injection H as <- <- <- <-. auto. }
      split; [intros ? ? _ [= <-] H; contradiction |].
      split; [intros ? H; discriminate H | intros _ H; discriminate H].
    + split.
      { intros ? ? ? ? [H | [H | []]]; [discriminate H |].
        injection H as <- <- <- <-. auto. }
      split; [intros ? ? _ [= <-] H; contradiction |].
      split; [| intros _ H; discriminate H].
      intros ? [= <-]. cbn. split; [eauto |]. exists ai. auto.
  - destruct (String.eqb (ar_RequestID (ah_rest env ai)) (rq_RequestID request))
      eqn:Ereq; [apply String.eqb_eq in Ereq | apply String.eqb_neq in Ereq];
      cbn [fst snd].
    + split; [intros ? ? ? ? [H | []]; discriminate H |].
      split.
      { intros ? ? _ [= <-] _ _. split; [reflexivity |].
        split; [intros _; eexists; split; reflexivity | intros H; contradiction]. }
      split; [| intros _ H; discriminate H].
      intros ? [= <-]. cbn. split; [eauto |]. exists ai. auto.
    + split; [intros ? ? ? ? [H | []]; discriminate H |].
      split.
      { intros ? ? _ [= <-] _ _. split; [reflexivity |].
        split; [intros H; contradiction | intros _; reflexivity]. }
      split; [intros ? H; discriminate H | intros _ H; discriminate H].
Qed.

(** ** Signal, cancel request and child completion *)



(** The action of [RecordChildExecutionCompleted] adds at most one event,
    the one that matches the type of the completion event, and returns
    what that call returned; it adds it only on a running workflow for a
    pending child that has started under the workflow id of the completed
    execution, and answers EntityNotExists for any other child.  For a
    completion event of another type it adds nothing and returns the
    error variable of the enclosing function as it found it. *)
Theorem child_completion_dispatch env completionRequest err :
  let result := fst (RecordChildExecutionCompletedAction env completionRequest err) in
  let log := snd (RecordChildExecutionCompletedAction env completionRequest err) in
  let notFound := EntityNotExistsError "Pending child execution not found." in
  (log = []
   \/ exists call,
        log = [call]
        /\ childCall (cc_CompletionEventType completionRequest)
             (cc_InitiatedID completionRequest) = Some call
        /\ result = ce_AddChildEvent env)
  /\ (log <> [] ->
      ce_IsWorkflowExecutionRunning env = true
      /\ exists ci,
           ce_GetChildExecutionInfo env (cc_InitiatedID completionRequest) = Some ci
           /\ ch_StartedID ci <> common.EmptyEventID
           /\ ch_StartedWorkflowID ci
              = GetWorkflowID (cc_CompletedExecution completionRequest))
  /\ (ce_IsWorkflowExecutionRunning env = true ->
      match ce_GetChildExecutionInfo env (cc_InitiatedID completionRequest) with
      | None => True
      | Some ci =>
          ch_StartedID ci = common.EmptyEventID
          \/ ch_StartedWorkflowID ci
             <> GetWorkflowID (cc_CompletedExecution completionRequest)
      end ->
      result = Some notFound /\ log = [])
  /\ (forall ci,
        ce_IsWorkflowExecutionRunning env = true ->
        ce_GetChildExecutionInfo env (cc_InitiatedID completionRequest) = Some ci ->
        ch_StartedID ci <> common.EmptyEventID ->
        ch_StartedWorkflowID ci
          = GetWorkflowID (cc_CompletedExecution completionRequest) ->
        cc_CompletionEventType completionRequest = EventTypeOther ->
        result = err /\ log = []).
Proof.
  cbv zeta. unfold RecordChildExecutionCompletedAction.
  destruct (ce_IsWorkflowExecutionRunning env); cbn [negb fst snd].
  2:{ split; [now left |]. split; [intros H; now contradiction H |].
      split; [intros H; discriminate H | intros ? H; discriminate H]. }
  cbv zeta.
  destruct (ce_GetChildExecutionInfo env (cc_InitiatedID completionRequest))
    as [ci |]; cbn [fst snd].
  2:{ split; [now left |]. split; [intros H; now contradiction H |].
      split; [auto | intros ? _ H; discriminate H]. }
  destruct (ch_StartedID ci =? common.EmptyEventID) eqn:Es;
    [apply Z.eqb_eq in Es | apply Z.eqb_neq in Es]; cbn [fst snd].
  { split; [now left |]. split; [intros H; now contradiction H |].
    split; [auto |]. intros ? _ [= <-] H. contradiction. }
  destruct (String.eqb (ch_StartedWorkflowID ci) _) eqn:Ew;
    [apply String.eqb_eq in Ew | apply String.eqb_neq in Ew];
    cbn [negb fst snd].
  2:{ split; [now left |]. split; [intros H; now contradiction H |].
      split; [auto |]. intros ? _ [= <-] _ H. contradiction. }
  destruct (childCall _ _) as [call |] eqn:Ec; cbn [fst snd].
  - split; [right; eauto |]. split; [eauto 10 |].
    split; [intros _ [H | H]; contradiction |].
    intros ? _ _ _ _ Ht. rewrite Ht in Ec. discriminate Ec.
  - split; [now left |]. split; [intros H; now contradiction H |].
    split; [intros _ [H | H]; contradiction |]. auto.
Qed.

(** ** [ResetWorkflowExecution] *)

Lemma count_app {A} (p : A -> bool) l1 l2 :
  count p (l1 ++ l2) = (count p l1 + count p l2)%nat.
Proof. induction l1 as [| c l1 IH]; simpl; [reflexivity | rewrite IH; lia]. Qed.





(** ** [SignalWithStartWorkflowExecution] *)

Lemma justSignalLoop_spec env fuel attempt :
  let r := SignalWithStart.justSignalLoop env fuel attempt in
  let done :=
    SignalWithStart.Return
      (inr {| resp_RunID := SignalWithStart.contextRunID env |}) in
  (count SignalWithStart.isUpdate (snd r) <= fuel)%nat
  /\ (count SignalWithStart.isAcceptedUpdate (snd r) <= 1)%nat
  /\ (count SignalWithStart.isAcceptedUpdate (snd r) = 1%nat <-> fst r = done)
  /\ (forall response,
        fst r = SignalWithStart.Return (inr response) -> fst r = done)
  /\ (count SignalWithStart.isUpdate (snd r)
      <= count SignalWithStart.isAddSignaled (snd r))%nat
  /\ (fst r = SignalWithStart.TerminateAndStart ->
      SignalWithStart.WorkflowIDReusePolicy env
      = types.WorkflowIDReusePolicyTerminateIfRunning)
  /\ (forall mutableState,
        fst r = SignalWithStart.StartAndSignal (Some mutableState) ->
        SignalWithStart.IsWorkflowExecutionRunning mutableState = false).
Proof.
  cbv zeta. revert attempt.
  assert (Hleaf : forall (o : SignalWithStart.Outcome) (n : nat),
    (forall response, o <> SignalWithStart.Return (inr response)) ->
    (o = SignalWithStart.TerminateAndStart ->
     SignalWithStart.WorkflowIDReusePolicy env
     = types.WorkflowIDReusePolicyTerminateIfRunning) ->
    (forall mutableState,
       o = SignalWithStart.StartAndSignal (Some mutableState) ->
       SignalWithStart.IsWorkflowExecutionRunning mutableState = false) ->
    (0 <= n)%nat
    /\ (0 <= 1)%nat
    /\ (0%nat = 1%nat <->
        o = SignalWithStart.Return
              (inr {| resp_RunID := SignalWithStart.contextRunID env |}))
    /\ (forall response,
          o = SignalWithStart.Return (inr response) ->
          o = SignalWithStart.Return
                (inr {| resp_RunID := SignalWithStart.contextRunID env |}))
    /\ (0 <= n)%nat
    /\ (o = SignalWithStart.TerminateAndStart ->
        SignalWithStart.WorkflowIDReusePolicy env
        = types.WorkflowIDReusePolicyTerminateIfRunning)
    /\ (forall mutableState,
          o = SignalWithStart.StartAndSignal (Some mutableState) ->
          SignalWithStart.IsWorkflowExecutionRunning mutableState = false)).
  { intros o n Hret Hterm Hstart. split; [lia |]. split; [lia |].
    split; [split; [discriminate | intros H; now apply Hret in H] |].
    split; [intros ? H; now apply Hret in H |]. split; [lia |]. auto. }
  induction fuel as [| fuel IH]; intros attempt; cbn [SignalWithStart.justSignalLoop].
  - destruct (attempt =? ConditionalRetryCount); cbn [fst snd count];
      apply (Hleaf _ 0%nat); intros; discriminate.
  - cbv zeta.
    destruct (SignalWithStart.LoadWorkflowExecution _) as [err1 | mutableState].
    { destruct (SignalWithStart.is_EntityNotExistsError err1); cbn [fst snd count];
        match goal with
        | |- (_ <= ?a)%nat /\ _ /\ _ /\ _ /\ (_ <= ?b)%nat /\ _ =>
            cbn; split; [lia |]; split; [lia |];
            split; [split; discriminate |];
            split; [intros ? H; discriminate H |];
            split; [lia |]; split; intros; discriminate
        end. }
    destruct (SignalWithStart.IsWorkflowExecutionRunning mutableState) eqn:Erun;
      cbn [negb].
    2:{ cbn. split; [lia |]. split; [lia |].
        split; [split; discriminate |].
        split; [intros ? H; discriminate H |].
        split; [lia |]. split; [intros H; discriminate H |].
        intros ? [= <-]. exact Erun. }
    destruct (SignalWithStart.WorkflowIDReusePolicy env =? _) eqn:Epolicy.
    { apply Z.eqb_eq in Epolicy. cbn. split; [lia |]. split; [lia |].
      split; [split; discriminate |].
      split; [intros ? H; discriminate H |].
      split; [lia |]. split; [auto | intros ? H; discriminate H]. }
    destruct ((0 <? _) && _).
    { cbn. split; [lia |]. split; [lia |].
      split; [split; discriminate |].
      split; [intros ? H; discriminate H |].
      split; [lia |]. split; intros; discriminate. }
    destruct (SignalWithStart.AddWorkflowExecutionSignaled _).
    { cbn. split; [lia |]. split; [lia |].
      split; [split; discriminate |].
      split; [intros ? H; discriminate H |].
      split; [lia |]. split; intros; discriminate. }
    destruct (SignalWithStart.HasPendingDecision mutableState); cbn [negb].
    + destruct (SignalWithStart.UpdateWorkflowExecutionAsActive _) as [err |].
      * destruct (is_ErrConflict err).
        -- specialize (IH (attempt + 1)).
           destruct (SignalWithStart.justSignalLoop env fuel (attempt + 1))
             as [o l].
           cbn [fst snd] in *. cbn.
           destruct IH as (H1 & H2 & H3 & H4 & H5 & H6 & H7).
           split; [lia |]. split; [lia |]. split; [exact H3 |].
           split; [exact H4 |]. split; [lia |]. auto.
        -- cbn. split; [lia |]. split; [lia |].
           split; [split; discriminate |].
           split; [intros ? H; discriminate H |].
           split; [lia |]. split; intros; discriminate.
      * cbn. split; [lia |]. split; [lia |].
        split; [split; reflexivity |].
        split; [intros ? _; reflexivity |].
        split; [lia |]. split; intros; discriminate.
    + destruct (SignalWithStart.AddDecisionTaskScheduledEvent _).
      { cbn. split; [lia |]. split; [lia |].
        split; [split; discriminate |].
        split; [intros ? H; discriminate H |].
        split; [lia |]. split; intros; discriminate. }
      destruct (SignalWithStart.UpdateWorkflowExecutionAsActive _) as [err |].
      * destruct (is_ErrConflict err).
        -- specialize (IH (attempt + 1)).
           destruct (SignalWithStart.justSignalLoop env fuel (attempt + 1))
             as [o l].
           cbn [fst snd] in *. cbn.
           destruct IH as (H1 & H2 & H3 & H4 & H5 & H6 & H7).
           split; [lia |]. split; [lia |]. split; [exact H3 |].
           split; [exact H4 |]. split; [lia |]. auto.
        -- cbn. split; [lia |]. split; [lia |].
           split; [split; discriminate |].
           split; [intros ? H; discriminate H |].
           split; [lia |]. split; intros; discriminate.
      * cbn. split; [lia |]. split; [lia |].
        split; [split; reflexivity |].
        split; [intros ? _; reflexivity |].
        split; [lia |]. split; intros; discriminate.
Qed.

Lemma justSignalLoop_conflicts env fuel attempt :
  attempt + Z.of_nat fuel = ConditionalRetryCount ->
  SignalWithStart.WorkflowIDReusePolicy env
    <> types.WorkflowIDReusePolicyTerminateIfRunning ->
  (forall i, attempt <= i < ConditionalRetryCount ->
             SignalWithStart.conflictTurn env (SignalWithStart.attempts env i)) ->
  fst (SignalWithStart.justSignalLoop env fuel attempt)
    = SignalWithStart.Return (inl (Plain ErrMaxAttemptsExceeded))
  /\ count SignalWithStart.isUpdate
       (snd (SignalWithStart.justSignalLoop env fuel attempt)) = fuel.
Proof.
  intros Hsum Hpolicy. revert attempt Hsum.
  induction fuel as [| fuel IH]; intros attempt Hsum Hturns;
    cbn [SignalWithStart.justSignalLoop].
  - replace attempt with ConditionalRetryCount by lia.
    rewrite Z.eqb_refl. split; reflexivity.
  - cbv zeta.
    destruct (Hturns attempt ltac:(lia))
      as (mutableState & -> & Hrun & Hlimit & -> & Hdecision & ->).
    rewrite Hrun. cbn [negb].
    destruct (SignalWithStart.WorkflowIDReusePolicy env =? _) eqn:Ep;
      [apply Z.eqb_eq in Ep; contradiction |].
    assert (Hl : (0 <? SignalWithStart.MaximumSignalsPerExecution env)
                 && (SignalWithStart.MaximumSignalsPerExecution env
                     <=? SignalWithStart.SignalCount mutableState) = false).
    { apply andb_false_iff. destruct Hlimit as [H | H];
        [left; apply Z.ltb_ge; lia | right; apply Z.leb_gt; lia]. }
    rewrite Hl. cbn [is_ErrConflict].
    specialize (IH (attempt + 1) ltac:(lia)
                  (fun i Hi => Hturns i ltac:(lia))).
    destruct (SignalWithStart.justSignalLoop env fuel (attempt + 1)) as [o l].
    cbn [fst snd] in IH. destruct IH as [-> Hcount].
    destruct (SignalWithStart.HasPendingDecision mutableState); cbn [negb].
    + cbn. split; [reflexivity | now rewrite Hcount].
    + destruct Hdecision as [H | ->]; [discriminate H |].
      cbn. split; [reflexivity | now rewrite Hcount].
Qed.

(** [SignalWithStartWorkflowExecution] tries the update of the running
    workflow at most [ConditionalRetryCount] times, each after adding the
    signal, and has at most one accepted; it returns the run id of the
    context exactly when one was accepted.  It hands over to
    terminate-and-start only under the TerminateIfRunning policy and to
    the start path with a prior run only when that run is not running.
    When every turn signals a running workflow and loses the update to a
    conflict, it gives up with MaxAttemptsExceeded after
    [ConditionalRetryCount] updates and starts nothing. *)
Theorem signal_with_start_bounded env :
  let outcome := fst (SignalWithStart.SignalWithStartWorkflowExecution env) in
  let log := snd (SignalWithStart.SignalWithStartWorkflowExecution env) in
  let done :=
    SignalWithStart.Return
      (inr {| resp_RunID := SignalWithStart.contextRunID env |}) in
  (Z.of_nat (count SignalWithStart.isUpdate log) <= ConditionalRetryCount)
  /\ (count SignalWithStart.isAcceptedUpdate log <= 1)%nat
  /\ (count SignalWithStart.isAcceptedUpdate log = 1%nat <-> outcome = done)
  /\ (forall response,
        outcome = SignalWithStart.Return (inr response) -> outcome = done)
  /\ (count SignalWithStart.isUpdate log
      <= count SignalWithStart.isAddSignaled log)%nat
  /\ (outcome = SignalWithStart.TerminateAndStart ->
      SignalWithStart.WorkflowIDReusePolicy env
      = types.WorkflowIDReusePolicyTerminateIfRunning)
  /\ (forall mutableState,
        outcome = SignalWithStart.StartAndSignal (Some mutableState) ->
        SignalWithStart.IsWorkflowExecutionRunning mutableState = false)
  /\ (SignalWithStart.GetActiveDomainByID env
        = inr persistence.DomainStatusRegistered ->
      SignalWithStart.GetOrCreateWorkflowExecution env = None ->
      SignalWithStart.WorkflowIDReusePolicy env
        <> types.WorkflowIDReusePolicyTerminateIfRunning ->
      (forall i, 0 <= i < ConditionalRetryCount ->
                 SignalWithStart.conflictTurn env (SignalWithStart.attempts env i)) ->
      outcome = SignalWithStart.Return (inl (Plain ErrMaxAttemptsExceeded))
      /\ Z.of_nat (count SignalWithStart.isUpdate log) = ConditionalRetryCount).
Proof.
  cbv zeta. unfold SignalWithStart.SignalWithStartWorkflowExecution.
  assert (Hno : forall (o : SignalWithStart.Outcome),
    (forall response, o <> SignalWithStart.Return (inr response)) ->
    o <> SignalWithStart.TerminateAndStart ->
    (forall mutableState, o <> SignalWithStart.StartAndSignal (Some mutableState)) ->
    (Z.of_nat (count SignalWithStart.isUpdate []) <= ConditionalRetryCount)
    /\ (count SignalWithStart.isAcceptedUpdate [] <= 1)%nat
    /\ (count SignalWithStart.isAcceptedUpdate [] = 1%nat <->
        o = SignalWithStart.Return
              (inr {| resp_RunID := SignalWithStart.contextRunID env |}))
    /\ (forall response,
          o = SignalWithStart.Return (inr response) ->
          o = SignalWithStart.Return
                (inr {| resp_RunID := SignalWithStart.contextRunID env |}))
    /\ (count SignalWithStart.isUpdate []
        <= count SignalWithStart.isAddSignaled [])%nat
    /\ (o = SignalWithStart.TerminateAndStart ->
        SignalWithStart.WorkflowIDReusePolicy env
        = types.WorkflowIDReusePolicyTerminateIfRunning)
    /\ (forall mutableState,
          o = SignalWithStart.StartAndSignal (Some mutableState) ->
          SignalWithStart.IsWorkflowExecutionRunning mutableState = false)).
  { intros o Hret Hterm Hstart. cbn. unfold ConditionalRetryCount.
    split; [lia |]. split; [lia |].
    split; [split; [discriminate | intros H; now apply Hret in H] |].
    split; [intros ? H; now apply Hret in H |]. split; [lia |].
    split; [intros H; contradiction | intros ? H; now apply Hstart in H]. }
  destruct (SignalWithStart.GetActiveDomainByID env) as [err | status].
  { cbn [fst snd].
    destruct (Hno (SignalWithStart.Return (inl (Plain err))))
      as (H1 & H2 & H3 & H4 & H5 & H6 & H7); try (intros; discriminate).
    repeat (split; [assumption |]). intros H; discriminate H. }
  destruct (status =? persistence.DomainStatusRegistered) eqn:Estatus; cbn [negb].
  2:{ cbn [fst snd].
      destruct (Hno (SignalWithStart.Return (inl (Plain errDomainDeprecated))))
        as (H1 & H2 & H3 & H4 & H5 & H6 & H7); try (intros; discriminate).
      repeat (split; [assumption |]). intros [= ->]. discriminate Estatus. }
  destruct (SignalWithStart.GetOrCreateWorkflowExecution env) as [err0 |].
  { destruct (SignalWithStart.is_EntityNotExistsError err0); cbn [fst snd].
    - destruct (Hno (SignalWithStart.StartAndSignal None))
        as (H1 & H2 & H3 & H4 & H5 & H6 & H7); try (intros; discriminate).
      repeat (split; [assumption |]). intros _ H; discriminate H.
    - destruct (Hno (SignalWithStart.Return (inl (Plain err0))))
        as (H1 & H2 & H3 & H4 & H5 & H6 & H7); try (intros; discriminate).
      repeat (split; [assumption |]). intros _ H; discriminate H. }
  pose proof (justSignalLoop_spec env (Z.to_nat ConditionalRetryCount) 0) as Hspec.
  cbv zeta in Hspec. destruct Hspec as (H1 & H2 & H3 & H4 & H5 & H6 & H7).
  split; [unfold ConditionalRetryCount in *; lia |].
  repeat (split; [assumption |]).
  intros _ _ Hpolicy Hturns.
  destruct (justSignalLoop_conflicts env (Z.to_nat ConditionalRetryCount) 0)
    as [Ho Hc]; [reflexivity | exact Hpolicy | exact Hturns |].
  split; [exact Ho |]. rewrite Hc. reflexivity.
Qed.

Lemma signal_with_start_bounded_witness :
  fst (SignalWithStart.SignalWithStartWorkflowExecution sampleSignalWithStartEnv)
  = SignalWithStart.Return (inl (Plain ErrMaxAttemptsExceeded)).
Proof.
  pose proof (signal_with_start_bounded sampleSignalWithStartEnv) as H.
  cbv zeta in H. destruct H as (_ & _ & _ & _ & _ & _ & _ & H).
  apply H; [reflexivity | reflexivity | discriminate |].
  intros i _. exists {| SignalWithStart.IsWorkflowExecutionRunning := true;
                        SignalWithStart.SignalCount := 0;
                        SignalWithStart.HasPendingDecision := false |}.
  repeat split; auto. left. reflexivity.
Defined.
